(** * The document extraction pipeline of the company-analysis wizard

    A shallow embedding of the extraction and normalisation code of
    [wizardкостыль.py]: [normalize_inn], [_clean_number],
    [parse_accounting_from_text], the two definitions of [extract_from_pdf],
    [parse_accounting_xml], [extract_from_xml], the response handling of
    [analyze_pdf_with_gemini], [download_and_parse_boh] with its requests
    and its loop over the links, [safe_get] and the [clean_name] of
    [build_company_network_diagram].

    Conventions.
    - A Python [str] whose characters the code inspects is a list of code
      points ([pystr]).  Dictionary keys, element tags and attribute names
      are only ever compared for equality with literals of the source; they
      are kept as the UTF-8 text of the literal ([string]).
    - A [dict] is a finite map ([gmap]); [d.get(k)] is lookup.
    - What lies outside the repository enters either as a member of the
      class [Runtime] (the conversions [int] and [float], [re.search],
      [json.loads], the module constants set by the guarded imports) or as
      the value a reader obtained from a file (the markup parser, the PDF
      libraries, the recognition of page images, the generative model).
    - An exception is an explicit outcome ([Raise]); [try]/[except] is
      [try_except]. *)

From Stdlib Require Import ZArith NArith Ascii Lia.
From stdpp Require Import gmap strings list.

Open Scope nat_scope.

(** ** Strings as sequences of code points *)

Abbreviation pystr := (list N).

(** Decoding of a UTF-8 literal: [need] continuation bytes are still to be
    read into the code point [acc]. *)
Fixpoint utf8_go (bs : list N) (need : nat) (acc : N) : pystr :=
  match bs with
  | [] => []
  | b :: r =>
      match need with
      | O =>
          if (b <? 128)%N then b :: utf8_go r 0 0%N
          else if (b <? 224)%N then utf8_go r 1 (b - 192)%N
          else if (b <? 240)%N then utf8_go r 2 (b - 224)%N
          else utf8_go r 3 (b - 240)%N
      | S k =>
          let acc' := (acc * 64 + (b - 128))%N in
          match k with
          | O => acc' :: utf8_go r 0 0%N
          | S _ => utf8_go r k acc'
          end
      end
  end.

Fixpoint bytes_of_string (s : string) : list N :=
  match s with
  | EmptyString => []
  | String a r => N_of_ascii a :: bytes_of_string r
  end.

(** [u "..."] is the Python string written as that literal. *)
Definition u (s : string) : pystr := utf8_go (bytes_of_string s) 0 0%N.

(** [str.isspace] of one character: the code points CPython lists in
    [_PyUnicode_IsWhitespace]. *)
Definition isspace (c : N) : bool :=
  ((9 <=? c) && (c <=? 13) || (28 <=? c) && (c <=? 31) || (c =? 32)
   || (c =? 133) || (c =? 160) || (c =? 5760)
   || (8192 <=? c) && (c <=? 8202) || (c =? 8232) || (c =? 8233)
   || (c =? 8239) || (c =? 8287) || (c =? 12288))%N.

Fixpoint lstrip_with (p : N → bool) (s : pystr) : pystr :=
  match s with
  | [] => []
  | c :: r => if p c then lstrip_with p r else s
  end.

Definition rstrip_with (p : N → bool) (s : pystr) : pystr :=
  rev (lstrip_with p (rev s)).

Definition strip_with (p : N → bool) (s : pystr) : pystr :=
  rstrip_with p (lstrip_with p s).

(** [s.strip()] *)
Definition strip (s : pystr) : pystr := strip_with isspace s.

(** [s.strip(chars)] *)
Definition strip_chars (chars s : pystr) : pystr :=
  strip_with (λ c, existsb (N.eqb c) chars) s.

(** [s.replace(old, new)] for a one-character [old]. *)
Definition replace_char (old : N) (new : pystr) (s : pystr) : pystr :=
  flat_map (λ c, if (c =? old)%N then new else [c]) s.

Definition is_sign (c : N) : bool := ((c =? 43) || (c =? 45))%N.

(** [s.zfill(width)]: the zeros go after a leading sign. *)
Definition zfill (width : nat) (s : pystr) : pystr :=
  if width <=? length s then s
  else
    let fill := repeat 48%N (width - length s) in
    match s with
    | c :: r => if is_sign c then c :: fill ++ r else fill ++ s
    | [] => fill
    end.

(** ** [normalize_inn] *)

Definition normalize_inn (inn : pystr) : pystr :=
  let inn := strip inn in
  if length inn <? 10 then zfill 10 inn
  else if (length inn <? 12) && (10 <? length inn) then zfill 12 inn
  else inn.

(** Zeros put in front of the whole string, the reading of "left-padded"
    that ignores the sign. *)
Definition left_pad_zeros (width : nat) (s : pystr) : pystr :=
  repeat 48%N (width - length s) ++ s.

Definition has_sign (s : pystr) : bool :=
  match s with
  | c :: _ => is_sign c
  | [] => false
  end.

(** ** Values, exceptions and the runtime *)

(** A float as the decimal numeral it was read from,
    [(-1)^dneg * dmant / 10^dscale]; the rounding to binary64 is not
    modelled. *)
Record decimal := Decimal { dneg : bool; dmant : N; dscale : nat }.

Definition fneg (d : decimal) : decimal :=
  {| dneg := negb (dneg d); dmant := dmant d; dscale := dscale d |}.

(** The values stored in the numeric tables. *)
Inductive pyval :=
| PyNone
| PyStr (s : pystr)
| PyInt (z : Z)
| PyFloat (d : decimal).

(** Exceptions, by the classes the handlers of the source tell apart, with
    the message [str(e)] gives.  The [ValueError] of a failed conversion is
    raised with an empty message: its only handlers drop it. *)
Inductive exn :=
| ValueError (msg : pystr)
| JSONDecodeError (msg : pystr)
| AttributeError (msg : pystr)
| OtherError (msg : pystr).

(** [str(e)] *)
Definition exn_str (e : exn) : pystr :=
  match e with
  | ValueError m | JSONDecodeError m | AttributeError m | OtherError m => m
  end.

Inductive outcome (A : Type) :=
| Return (a : A)
| Raise (e : exn).
Arguments Return {A} a.
Arguments Raise {A} e.

#[export] Instance outcome_ret : MRet outcome := λ A a, Return a.
#[export] Instance outcome_bind : MBind outcome := λ A B f m,
  match m with
  | Return a => f a
  | Raise e => Raise e
  end.

(** [try: body  except: handler] with a handler that catches everything. *)
Definition try_except {A} (body : outcome A) (handler : exn → outcome A) : outcome A :=
  match body with
  | Return a => Return a
  | Raise e => handler e
  end.

(** A compiled pattern: its source and the number of capture groups in it. *)
Record pattern := Pattern { pat_source : string; pat_groups : nat }.

#[export] Instance pattern_eq_dec : EqDecision pattern.
Proof. solve_decision. Defined.

(** A match object: [m.start()] and [m.group(i)] for [i >= 1]. *)
Record Match := MkMatch { m_start : nat; m_group : nat → option pystr }.

(** JSON values as [json.loads] builds them. *)
#[warnings="-register-all"]
Inductive json :=
| JNull
| JBool (b : bool)
| JInt (z : Z)
| JFloat (d : decimal)
| JStr (s : pystr)
| JArr (l : list json)
| JObj (fields : list (pystr * json)).

(** The PDF text engines the module may have imported. *)
Inductive pdf_library := pdfplumber | pymupdf.

#[export] Instance pdf_library_eq_dec : EqDecision pdf_library.
Proof. solve_decision. Defined.

(** What the interpreter and its libraries provide.  [None] from
    [int_of_str] and [float_of_str] stands for the [ValueError] of [int(s)]
    and [float(s)]; [re_search p i s] is [re.search(p, s)], with
    [flags=re.IGNORECASE] when [i]; [PDF_LIB] and [OCR_AVAILABLE] are the
    module constants set by the guarded imports. *)
Class Runtime := {
  int_of_str : pystr → option Z;
  float_of_str : pystr → option decimal;
  re_search : pattern → bool → pystr → option Match;
  json_loads : pystr → outcome json;
  PDF_LIB : option pdf_library;
  OCR_AVAILABLE : bool
}.

Definition is_digit (c : N) : bool := ((48 <=? c) && (c <=? 57))%N.

(** The value of a non-empty run of ASCII digits. *)
Fixpoint digits_value (s : pystr) (acc : N) : option N :=
  match s with
  | [] => Some acc
  | c :: r => if is_digit c then digits_value r (acc * 10 + (c - 48))%N else None
  end.

Definition all_digits_value (s : pystr) : option N :=
  match s with
  | [] => None
  | _ => digits_value s 0%N
  end.

(** [int(s)] on a string of printable ASCII characters without space and
    underscore: an optional sign and digits. *)
Definition decimal_int (s : pystr) : option Z :=
  let '(neg, body) :=
    match s with
    | c :: r => if (c =? 45)%N then (true, r) else if (c =? 43)%N then (false, r) else (false, s)
    | [] => (false, s)
    end in
  match all_digits_value body with
  | Some n => Some (if neg then (- Z.of_N n)%Z else Z.of_N n)
  | None => None
  end.

Definition plain_char (c : N) : bool := ((33 <=? c) && (c <=? 126) && negb (c =? 95))%N.

(** The part of [s] before the first [c], and the part after it. *)
Fixpoint cut_at (c : N) (s : pystr) : pystr * option pystr :=
  match s with
  | [] => ([], None)
  | x :: r =>
      if (x =? c)%N then ([], Some r)
      else let '(a, b) := cut_at c r in (x :: a, b)
  end.

(** [float(s)] on a string made of digits, minus, comma and period:
    an optional minus, then digits around one period, one digit at least. *)
Definition decimal_float (s : pystr) : option decimal :=
  let '(neg, body) :=
    match s with
    | c :: r => if (c =? 45)%N then (true, r) else (false, s)
    | [] => (false, s)
    end in
  match cut_at 46 body with
  | (ip, Some fp) =>
      match ip ++ fp with
      | [] => None
      | ds =>
          match digits_value ds 0%N with
          | Some n => Some {| dneg := neg; dmant := n; dscale := length fp |}
          | None => None
          end
      end
  | (_, None) => None
  end.

Definition clean_char (c : N) : bool :=
  (is_digit c || (c =? 45) || (c =? 44) || (c =? 46))%N.

(** What is assumed of the two conversions: [int] on plain strings, with
    the interpreter's limit on the number of digits of a conversion
    switched off, as it is for [str_of_int] below; [float] on the strings
    [_clean_number] hands it, short enough not to overflow. *)
Class RuntimeLaws `{Runtime} : Prop := {
  int_of_str_plain : ∀ s, forallb plain_char s = true → int_of_str s = decimal_int s;
  float_of_str_clean : ∀ s,
    forallb clean_char s = true → length s ≤ 300 → float_of_str s = decimal_float s
}.

(** ** [_clean_number] *)

(** [re.match(r'^\(.*\)$', s)] after the opening parenthesis: characters
    other than a newline, a closing parenthesis, then the end of the string
    or a last newline. *)
Fixpoint paren_tail (r : pystr) : bool :=
  match r with
  | [] => false
  | c :: r' =>
      (c =? 41)%N && (bool_decide (r' = []) || bool_decide (r' = [10%N]))
      || negb (c =? 10)%N && paren_tail r'
  end.

Definition paren_wrapped (s : pystr) : bool :=
  match s with
  | c :: r => (c =? 40)%N && paren_tail r
  | [] => false
  end.

(** The characters [re.sub(r'[^0-9\-,\. ]+', '', s)] keeps. *)
Definition kept_char (c : N) : bool := clean_char c || (c =? 32)%N.

Definition contains_char (c : N) (s : pystr) : bool := existsb (N.eqb c) s.

Definition _clean_number `{Runtime} (num_str : pystr) : outcome pyval :=
  if bool_decide (num_str = []) then Return PyNone
  else
    let s := replace_char 8201 [32%N] (replace_char 160 [32%N] num_str) in
    let s := strip s in
    let neg := paren_wrapped s in
    let s := if neg then strip_chars [40%N; 41%N] s else s in
    let s := filter (λ c, kept_char c = true) s in
    let s := replace_char 32 [] s in
    let s := if contains_char 44 s && negb (contains_char 46 s)
             then replace_char 44 [46%N] s else s in
    try_except
      (if bool_decide (s = []) then Return PyNone
       else if contains_char 46 s then
         match float_of_str s with
         | Some val => Return (PyFloat (if neg then fneg val else val))
         | None => Raise (ValueError [])
         end
       else
         match int_of_str s with
         | Some val => Return (PyInt (if neg then (- val)%Z else val))
         | None => Raise (ValueError [])
         end)
      (λ _, Return PyNone).

(** [_clean_number(None)], as the callers may pass a group that did not
    take part in the match. *)
Definition _clean_number_opt `{Runtime} (g : option pystr) : outcome pyval :=
  match g with
  | None => Return PyNone
  | Some s => _clean_number s
  end.

(** ** Markup documents *)

(** An [xml.etree.ElementTree.Element]: tag, [attrib], [text] and children. *)
#[warnings="-register-all"]
Inductive Element :=
| Elem (tag : string) (attrib : gmap string pystr) (text : option pystr)
    (children : list Element).

Definition tag_of (e : Element) : string :=
  let 'Elem t _ _ _ := e in t.

Definition attrib_of (e : Element) : gmap string pystr :=
  let 'Elem _ a _ _ := e in a.

Definition text_of_elem (e : Element) : option pystr :=
  let 'Elem _ _ t _ := e in t.

Definition children_of (e : Element) : list Element :=
  let 'Elem _ _ _ c := e in c.

Definition first_some {A B} (f : A → option B) : list A → option B :=
  fix go l :=
    match l with
    | [] => None
    | x :: r => match f x with Some y => Some y | None => go r end
    end.

(** The first element tagged [t] in document order, [e] included. *)
Fixpoint find_from (t : string) (e : Element) : option Element :=
  match e with
  | Elem tg _ _ ch =>
      if bool_decide (tg = t) then Some e else first_some (find_from t) ch
  end.

(** [e.find('.//t')]: the first descendant of [e] tagged [t]. *)
Definition find_desc (t : string) (e : Element) : option Element :=
  first_some (find_from t) (children_of e).

(** [e.get(name)] *)
Definition get_attr (name : string) (e : Element) : option pystr :=
  attrib_of e !! name.

(** ** Records of the structured-schema parser *)

(** [{"current": .., "prev_year": .., "prev_2years": ..}] *)
Record triple := Triple {
  current3 : option pystr;
  prev_year : option pystr;
  prev_2years : option pystr
}.

(** [{"current": .., "previous": ..}] *)
Record pair2 := Pair2 {
  current2 : option pystr;
  previous : option pystr
}.

(** One side of the balance sheet:
    [{"total_current": .., "total_prev_year": .., "total_prev_2years": ..,
      "details": {..}}] *)
Record side := Side {
  total_current : option pystr;
  total_prev_year : option pystr;
  total_prev_2years : option pystr;
  details : gmap string triple
}.

(** A value of [company_info]. *)
Inductive cinfo :=
| CStr (v : option pystr)
| CSignatory (surname name patronymic : option pystr).

(** [multi_year_data] *)
Record multi_year := MultiYear {
  years : list (option pystr);
  my_balance : gmap string (list pyval);
  my_financial_results : gmap string (list pyval)
}.

Record xml_result := XmlResult {
  x_filename : pystr;
  x_success : bool;
  x_report_type : option pystr;
  x_report_year : option pystr;
  x_report_date : option (option pystr);
  x_company_info : gmap string cinfo;
  x_balance : gmap string side;
  x_financial_results : gmap string pair2;
  x_text : pystr;
  x_structured_data : option (gmap string side * gmap string pair2);
  x_multi_year_data : option multi_year;
  x_error : option pystr
}.

Definition of_opt (o : option pystr) : pyval :=
  match o with
  | Some s => PyStr s
  | None => PyNone
  end.

Fixpoint uint_codes (d : Decimal.uint) : pystr :=
  match d with
  | Decimal.Nil => []
  | Decimal.D0 r => 48%N :: uint_codes r
  | Decimal.D1 r => 49%N :: uint_codes r
  | Decimal.D2 r => 50%N :: uint_codes r
  | Decimal.D3 r => 51%N :: uint_codes r
  | Decimal.D4 r => 52%N :: uint_codes r
  | Decimal.D5 r => 53%N :: uint_codes r
  | Decimal.D6 r => 54%N :: uint_codes r
  | Decimal.D7 r => 55%N :: uint_codes r
  | Decimal.D8 r => 56%N :: uint_codes r
  | Decimal.D9 r => 57%N :: uint_codes r
  end.

(** [str(z)] for an [int]. *)
Definition str_of_int (z : Z) : pystr :=
  match z with
  | Z0 => [48%N]
  | Zpos p => uint_codes (Pos.to_uint p)
  | Zneg p => 45%N :: uint_codes (Pos.to_uint p)
  end.

(** [sep.join(parts)] *)
Fixpoint join (sep : pystr) (parts : list pystr) : pystr :=
  match parts with
  | [] => []
  | [x] => x
  | x :: r => x ++ sep ++ join sep r
  end.

(** [f"{v}"] for a value that is a string or [None]. *)
Definition fmt (o : option pystr) : pystr :=
  match o with
  | Some s => s
  | None => u "None"
  end.

(** [company_info.get(key, 'N/A')] inside an f-string, for the keys
    ["name"], ["inn"] and ["kpp"], whose values are strings or [None]. *)
Definition fmt_info (ci : gmap string cinfo) (key : string) : pystr :=
  match ci !! key with
  | None => u "N/A"
  | Some (CStr v) => fmt v
  | Some (CSignatory _ _ _) => u "{...}"
  end.

(** Truth value of a string that may be [None]. *)
Definition truthy (o : option pystr) : bool :=
  match o with
  | Some (_ :: _) => true
  | _ => false
  end.

(** ** [parse_accounting_xml] *)

Definition sums3 (e : Element) : triple :=
  {| current3 := get_attr "СумОтч" e;
     prev_year := get_attr "СумПрдШв" e;
     prev_2years := get_attr "СумПрдЩ" e |}.

Definition sums2 (e : Element) : pair2 :=
  {| current2 := get_attr "СумОтч" e;
     previous := get_attr "СумПред" e |}.

(** [x = parent.find('.//tag');  if x is not None: d[key] = {...}] *)
Definition add_triple (tag key : string) (parent : Element)
    (d : gmap string triple) : gmap string triple :=
  match find_desc tag parent with
  | Some e => <[key := sums3 e]> d
  | None => d
  end.

Definition add_pair (tag key : string) (parent : Element)
    (d : gmap string pair2) : gmap string pair2 :=
  match find_desc tag parent with
  | Some e => <[key := sums2 e]> d
  | None => d
  end.

Definition active_side (active : Element) : side :=
  let d := ∅ in
  let d := add_triple "МатВнеАкт" "non_current_assets" active d in
  let d := add_triple "ФинВлож" "financial_investments" active d in
  let d := add_triple "Запасы" "inventory" active d in
  let d := add_triple "ДенежнСр" "cash" active d in
  let d := add_triple "НеМатФинАкт" "intangible_assets" active d in
  {| total_current := get_attr "СумОтч" active;
     total_prev_year := get_attr "СумПрдШв" active;
     total_prev_2years := get_attr "СумПрдЩ" active;
     details := d |}.

Definition passive_side (passive : Element) : side :=
  let d := ∅ in
  let d := add_triple "КапРез" "equity" passive d in
  let d := add_triple "ДлгЗаемСредств" "long_term_debt" passive d in
  let d := add_triple "ДрДолгосрОбяз" "other_long_term_liab" passive d in
  let d := add_triple "КредитЗадолж" "accounts_payable" passive d in
  {| total_current := get_attr "СумОтч" passive;
     total_prev_year := get_attr "СумПрдШв" passive;
     total_prev_2years := get_attr "СумПрдЩ" passive;
     details := d |}.

(** [result["balance"]] from the [Баланс] element. *)
Definition balance_of (balance : Element) : gmap string side :=
  let b := ∅ in
  let b := match find_desc "Актив" balance with
           | Some active => <["active" := active_side active]> b
           | None => b
           end in
  match find_desc "Пассив" balance with
  | Some passive => <["passive" := passive_side passive]> b
  | None => b
  end.

(** [result["financial_results"]] from the [ФинРез] element. *)
Definition financial_results_of (fin_rez : Element) : gmap string pair2 :=
  let f := ∅ in
  let f := add_pair "Выруч" "revenue" fin_rez f in
  let f := add_pair "РасхОбДеят" "expenses" fin_rez f in
  let f := add_pair "ПрочДоход" "other_income" fin_rez f in
  let f := add_pair "ПрочРасход" "other_expenses" fin_rez f in
  let f := add_pair "НалПрибДох" "income_tax" fin_rez f in
  add_pair "ЧистПрибУб" "net_profit" fin_rez f.

(** [result["company_info"]] from the [Документ] element. *)
Definition company_info_of (doc : Element) : gmap string cinfo :=
  let ci := ∅ in
  let ci :=
    match find_desc "СвНП" doc with
    | Some svnp =>
        let ci :=
          match find_desc "НПЮЛ" svnp with
          | Some npul =>
              <["address" := CStr (get_attr "АдрМН" npul)]>
                (<["name" := CStr (get_attr "НаимОрг" npul)]>
                  (<["kpp" := CStr (get_attr "КПП" npul)]>
                    (<["inn" := CStr (get_attr "ИННЮЛ" npul)]> ci)))
          | None => ci
          end in
        <["okfs" := CStr (get_attr "ОКФС" svnp)]>
          (<["okpo" := CStr (get_attr "ОКПО" svnp)]>
            (<["okopf" := CStr (get_attr "ОКОПФ" svnp)]>
              (<["okved" := CStr (get_attr "ОКВЭД2" svnp)]> ci)))
    | None => ci
    end in
  match find_desc "Подписант" doc with
  | Some podp =>
      match find_desc "ФИО" podp with
      | Some fio =>
          <["signatory" := CSignatory (get_attr "Фамилия" fio)
                             (get_attr "Имя" fio) (get_attr "Отчество" fio)]> ci
      | None => ci
      end
  | None => ci
  end.

(** [result["report_type"]] after the [Документ] element was read. *)
Definition report_type_of (doc : Element) : option pystr :=
  let rt := if bool_decide (get_attr "КНД" doc = Some (u "0710096"))
            then Some (u "Упрощенная форма") else None in
  let rt := match find_desc "Баланс" doc with
            | Some _ => Some (u "Бухгалтерский баланс")
            | None => rt
            end in
  match find_desc "ФинРез" doc with
  | Some _ =>
      if truthy rt
      then Some (default [] rt ++ u " + Отчет о финансовых результатах")
      else Some (u "Отчет о финансовых результатах")
  | None => rt
  end.

(** [multi_year["years"]] *)
Definition years_of `{Runtime} (report_year : option pystr) : list (option pystr) :=
  match report_year with
  | Some y =>
      if truthy report_year then
        match int_of_str y with
        | Some year_current =>
            [Some (str_of_int year_current);
             Some (str_of_int (year_current - 1));
             Some (str_of_int (year_current - 2))]
        | None => [Some y; Some (u "N/A"); Some (u "N/A")]
        end
      else []
  | None => []
  end.

(** [if key in details: multi_year["balance"][label] = [...]] *)
Definition add_row3 (key label : string) (d : gmap string triple)
    (m : gmap string (list pyval)) : gmap string (list pyval) :=
  match d !! key with
  | Some t => <[label := [of_opt (current3 t); of_opt (prev_year t); of_opt (prev_2years t)]]> m
  | None => m
  end.

Definition add_row2 (key label : string) (d : gmap string pair2)
    (m : gmap string (list pyval)) : gmap string (list pyval) :=
  match d !! key with
  | Some p => <[label := [of_opt (current2 p); of_opt (previous p)]]> m
  | None => m
  end.

Definition totals_row (s : side) : list pyval :=
  [of_opt (total_current s); of_opt (total_prev_year s); of_opt (total_prev_2years s)].

(** [multi_year["balance"]] *)
Definition multi_year_balance (balance : gmap string side) : gmap string (list pyval) :=
  let m := ∅ in
  let m :=
    match balance !! "active" with
    | Some active =>
        let m := <["АКТИВ (всего)" := totals_row active]> m in
        let m := add_row3 "non_current_assets" "Внеоборотные активы" (details active) m in
        let m := add_row3 "financial_investments" "Финансовые вложения" (details active) m in
        let m := add_row3 "inventory" "Запасы" (details active) m in
        let m := add_row3 "cash" "Денежные средства" (details active) m in
        add_row3 "intangible_assets" "Нематериальные активы" (details active) m
    | None => m
    end in
  match balance !! "passive" with
  | Some passive =>
      let m := <["ПАССИВ (всего)" := totals_row passive]> m in
      let m := add_row3 "equity" "Капитал и резервы" (details passive) m in
      let m := add_row3 "long_term_debt" "Долгосрочные заемные средства" (details passive) m in
      let m := add_row3 "other_long_term_liab" "Другие долгосрочные обязательства" (details passive) m in
      add_row3 "accounts_payable" "Кредиторская задолженность" (details passive) m
  | None => m
  end.

(** [multi_year["financial_results"]] *)
Definition multi_year_financial_results (fr : gmap string pair2) : gmap string (list pyval) :=
  let m := ∅ in
  let m := add_row2 "revenue" "Выручка" fr m in
  let m := add_row2 "expenses" "Расходы по обычной деятельности" fr m in
  let m := add_row2 "other_income" "Прочие доходы" fr m in
  let m := add_row2 "other_expenses" "Прочие расходы" fr m in
  let m := add_row2 "income_tax" "Налог на прибыль" fr m in
  add_row2 "net_profit" "Чистая прибыль (убыток)" fr m.

(** The table [multi_year] of the source, from the keys of [result] it
    reads. *)
Definition build_multi_year `{Runtime} (report_year : option pystr)
    (balance : gmap string side) (financial_results : gmap string pair2) : multi_year :=
  {| years := years_of report_year;
     my_balance :=
       if bool_decide (balance = ∅) then ∅ else multi_year_balance balance;
     my_financial_results :=
       if bool_decide (financial_results = ∅) then ∅
       else multi_year_financial_results financial_results |}.

(** [result["text"]] *)
Definition text_of (report_type report_year : option pystr) (ci : gmap string cinfo)
    (balance : gmap string side) (fr : gmap string pair2) : pystr :=
  let parts :=
    [u "=== " ++ fmt report_type ++ u " за " ++ fmt report_year ++ u " год ===" ++ [10%N];
     u "Компания: " ++ fmt_info ci "name";
     u "ИНН: " ++ fmt_info ci "inn";
     u "КПП: " ++ fmt_info ci "kpp" ++ [10%N]] in
  let total (k : string) : pystr :=
    match balance !! k with
    | Some s => fmt (total_current s)
    | None => u "N/A"
    end in
  let parts :=
    if bool_decide (balance = ∅) then parts
    else
      parts ++ [10%N :: u "--- БАЛАНС ---"]
        ++ (if bool_decide (is_Some (balance !! "active"))
            then [u "АКТИВ (всего): " ++ total "active" ++ u " тыс. руб."] else [])
        ++ (if bool_decide (is_Some (balance !! "passive"))
            then [u "ПАССИВ (всего): " ++ total "passive" ++ u " тыс. руб."] else []) in
  let cur (k : string) : pystr :=
    match fr !! k with
    | Some p => fmt (current2 p)
    | None => u "N/A"
    end in
  let parts :=
    if bool_decide (fr = ∅) then parts
    else
      parts ++ [10%N :: u "--- ФИНАНСОВЫЕ РЕЗУЛЬТАТЫ ---"]
        ++ (if bool_decide (is_Some (fr !! "revenue"))
            then [u "Выручка: " ++ cur "revenue" ++ u " тыс. руб."] else [])
        ++ (if bool_decide (is_Some (fr !! "net_profit"))
            then [u "Чистая прибыль: " ++ cur "net_profit" ++ u " тыс. руб."] else []) in
  join [10%N] parts.

(** The structured-schema parser.  [markup] is what reading the file as
    windows-1251 and [ET.fromstring] gave: the root element, or the
    exception. *)
Definition parse_accounting_xml `{Runtime} (filename : pystr)
    (markup : outcome Element) : xml_result :=
  match markup with
  | Raise e =>
      {| x_filename := filename; x_success := false;
         x_report_type := None; x_report_year := None; x_report_date := None;
         x_company_info := ∅; x_balance := ∅; x_financial_results := ∅;
         x_text := u "Ошибка парсинга XML: " ++ exn_str e;
         x_structured_data := None; x_multi_year_data := None;
         x_error := Some (exn_str e) |}
  | Return root =>
      let doc := find_desc "Документ" root in
      let report_year := doc ≫= get_attr "ОтчетГод" in
      let report_date := get_attr "ДатаДок" <$> doc in
      let report_type := doc ≫= report_type_of in
      let company_info := from_option company_info_of ∅ doc in
      let balance := from_option balance_of ∅ (doc ≫= find_desc "Баланс") in
      let financial_results :=
        from_option financial_results_of ∅ (doc ≫= find_desc "ФинРез") in
      let multi_year := build_multi_year report_year balance financial_results in
      {| x_filename := filename; x_success := true;
         x_report_type := report_type; x_report_year := report_year;
         x_report_date := report_date;
         x_company_info := company_info; x_balance := balance;
         x_financial_results := financial_results;
         x_text := text_of report_type report_year company_info balance financial_results;
         x_structured_data := Some (balance, financial_results);
         x_multi_year_data := Some multi_year;
         x_error := None |}
  end.

(** ** [parse_accounting_from_text] *)

(** [m.groups()] for a match of [p]. *)
Definition groups (p : pattern) (m : Match) : list (option pystr) :=
  m_group m <$> seq 1 (pat_groups p).

(** [s[i:j]] for [0 <= i]. *)
Definition slice (i j : nat) (s : pystr) : pystr := take (j - i) (drop i s).

Definition is_linebreak (c : N) : bool :=
  ((10 <=? c) && (c <=? 13) || (28 <=? c) && (c <=? 30) || (c =? 133)
   || (c =? 8232) || (c =? 8233))%N.

(** [s.splitlines()]; [after_cr] holds just after a carriage return, whose
    line feed belongs to the same boundary. *)
Fixpoint splitlines_go (s : pystr) (cur : pystr) (after_cr : bool) : list pystr :=
  match s with
  | [] => match cur with [] => [] | _ => [rev cur] end
  | c :: r =>
      if after_cr && (c =? 10)%N then splitlines_go r cur false
      else if is_linebreak c then rev cur :: splitlines_go r [] (c =? 13)%N
      else splitlines_go r (c :: cur) false
  end.

Definition splitlines (s : pystr) : list pystr := splitlines_go s [] false.

(** One side of the balance as the text parser fills it: the keys
    ["total_current"] and ["details"], each present or not. *)
Record hside := HSide {
  h_total_current : option pyval;
  h_details : option (gmap string pyval)
}.

Record text_result := TextResult {
  t_report_type : option pystr;
  t_report_year : option pystr;
  t_company_info : gmap string (option pystr);
  t_balance : gmap string hside;
  t_financial_results : gmap string pyval;
  t_structured_data : option (gmap string hside * gmap string pyval)
}.

Definition pat_year := Pattern "за\s+(\d{4})\s*(год|г\.)?" 2.
Definition pat_year_near := Pattern "(баланс|отчет).{0,30}?(\d{4})" 2.
Definition pat_inn := Pattern "ИНН[:\s]*([0-9]{10,12})" 1.
Definition pat_balance := Pattern "(баланс|БАЛАНС)" 1.
Definition pat_aktiv := Pattern "актив" 0.
Definition pat_digit := Pattern "\d" 0.
Definition pat_total_active :=
  Pattern "(итог\w*.*актив\w*|всего.*актив\w*).{0,40}?([0-9\-\(\)\s\.,]+)" 2.
Definition pat_total_passive :=
  Pattern "(итог\w*.*пассив\w*|всего.*пассив\w*).{0,40}?([0-9\-\(\)\s\.,]+)" 2.

(** The table [items]: label and pattern, in the order of the source. *)
Definition items : list (string * pattern) :=
  [("Внеоборотные активы", Pattern "Внеоборотн\w*\s+актив\w*\D*([0-9\-\(\)\s\.,]+)" 1);
   ("Запасы", Pattern "Запас\w*\D*([0-9\-\(\)\s\.,]+)" 1);
   ("Денежные средства", Pattern "Денежн\w*\s*ср\w*\D*([0-9\-\(\)\s\.,]+)" 1);
   ("Финансовые вложения", Pattern "Финан\w*\s*влож\w*\D*([0-9\-\(\)\s\.,]+)" 1);
   ("Нематериальные активы", Pattern "Нематер\w*\s*актив\w*\D*([0-9\-\(\)\s\.,]+)" 1);
   ("Капитал и резервы", Pattern "Капитал\w*.*резерв\w*\D*([0-9\-\(\)\s\.,]+)" 1);
   ("Долгосрочные заемные средства", Pattern "Долгосрочн\w*\s*заем\w*\s*средств\D*([0-9\-\(\)\s\.,]+)" 1);
   ("Кредиторская задолженность", Pattern "Кредитор\w*\s*задолж\w*\D*([0-9\-\(\)\s\.,]+)" 1)].

(** The labels the source lists as belonging to the active side. *)
Definition active_labels : list string :=
  ["Внеоборотные активы"; "Денежные средства"; "Финансовые вложения";
   "Нематериальные активы"; "Запасы"].

Definition pat_revenue := Pattern "Выруч\w*\D*([0-9\-\(\)\s\.,]+)" 1.

(** The table [fin_patterns]. *)
Definition fin_patterns : list (string * pattern) :=
  [("revenue", pat_revenue);
   ("net_profit", Pattern "Чист\w*\s*приб\w*\D*([0-9\-\(\)\s\.,]+)" 1);
   ("income_tax", Pattern "Нал(ог)?\s*на\s*прибыль\D*([0-9\-\(\)\s\.,]+)" 2);
   ("expenses", Pattern "Расх\w*\D*([0-9\-\(\)\s\.,]+)" 1)].

(** [year_match.group(1) if len(year_match.groups()) == 1 else year_match.group(2)] *)
Definition year_group (p : pattern) (m : Match) : option pystr :=
  if length (groups p m) =? 1 then m_group m 1 else m_group m 2.

(** Step 1: the report year. *)
Definition find_report_year `{Runtime} (txt : pystr) : option pystr :=
  let year_match :=
    match re_search pat_year true txt with
    | Some m => Some (pat_year, m)
    | None =>
        match re_search pat_year_near true txt with
        | Some m => Some (pat_year_near, m)
        | None => None
        end
    end in
  match year_match with
  | Some (p, m) => year_group p m
  | None => None
  end.

(** Steps 2 and 3: tax id and the line before it. *)
Definition find_company_info `{Runtime} (txt : pystr) : gmap string (option pystr) :=
  match re_search pat_inn true txt with
  | Some inn_match =>
      let ci : gmap string (option pystr) := {[ "inn" := m_group inn_match 1 ]} in
      let start := m_start inn_match - 200 in
      let snippet := slice start (m_start inn_match) txt in
      let lines := filter (λ l, l ≠ []) (strip <$> splitlines snippet) in
      match last lines with
      | Some l => <["name" := Some (take 200 l)]> ci
      | None => ci
      end
  | None => ∅
  end.

(** The loop over [items]: the details found for each side. *)
Fixpoint scan_items `{Runtime} (its : list (string * pattern)) (window : pystr)
    (active_details passive_details : gmap string pyval)
    : outcome (gmap string pyval * gmap string pyval) :=
  match its with
  | [] => Return (active_details, passive_details)
  | (label, pat) :: rest =>
      match re_search pat true window with
      | Some m =>
          val ← _clean_number_opt (m_group m 1);
          if bool_decide (is_Some (re_search pat_aktiv true (u label)))
             || bool_decide (label ∈ active_labels)
          then scan_items rest window (<[label := val]> active_details) passive_details
          else scan_items rest window active_details (<[label := val]> passive_details)
      | None => scan_items rest window active_details passive_details
      end
  end.

(** [res["balance"].setdefault(key, {})["total_current"] = v] *)
Definition set_total (key : string) (v : pyval) (b : gmap string hside) : gmap string hside :=
  let old := default (HSide None None) (b !! key) in
  <[key := HSide (Some v) (h_details old)]> b.

(** [res["balance"].setdefault(key, {})["details"] = d] *)
Definition set_details (key : string) (d : gmap string pyval) (b : gmap string hside)
    : gmap string hside :=
  let old := default (HSide None None) (b !! key) in
  <[key := HSide (h_total_current old) (Some d)]> b.

(** Step 4: the balance block. *)
Definition find_balance `{Runtime} (txt : pystr) : outcome (option pystr * gmap string hside) :=
  match re_search pat_balance true txt with
  | Some bal_match =>
      let start := m_start bal_match in
      let window := slice start (start + 5000) txt in
      '(active_details, passive_details) ← scan_items items window ∅ ∅;
      let total_active := re_search pat_total_active true window in
      let total_passive := re_search pat_total_passive true window in
      b ← match total_active with
          | Some m => v ← _clean_number_opt (m_group m 2); Return (set_total "active" v ∅)
          | None => Return ∅
          end;
      b ← match total_passive with
          | Some m => v ← _clean_number_opt (m_group m 2); Return (set_total "passive" v b)
          | None => Return b
          end;
      let b := if bool_decide (active_details = ∅) then b
               else set_details "active" active_details b in
      let b := if bool_decide (passive_details = ∅) then b
               else set_details "passive" passive_details b in
      Return (Some (u "Бухгалтерский баланс"), b)
  | None => Return (None, ∅)
  end.

(** The group the loop over [fin_patterns] reads: the last one that holds a
    digit, else the first. *)
Definition pick_group `{Runtime} (p : pattern) (m : Match) : option pystr :=
  let holds_digit (g : option pystr) : bool :=
    truthy g && bool_decide (is_Some (re_search pat_digit false (default [] g))) in
  let grp := default None (head (filter (λ g, holds_digit g = true) (rev (groups p m)))) in
  if truthy grp then grp else m_group m 1.

(** Step 5: the income block. *)
Fixpoint scan_fin `{Runtime} (pats : list (string * pattern)) (txt : pystr)
    (fr : gmap string pyval) : outcome (gmap string pyval) :=
  match pats with
  | [] => Return fr
  | (key, patt) :: rest =>
      match re_search patt true txt with
      | Some m =>
          v ← _clean_number_opt (pick_group patt m);
          scan_fin rest txt (<[key := v]> fr)
      | None => scan_fin rest txt fr
      end
  end.

(** The heuristic pattern extractor.  An entry of [financial_results] stands
    for the one-key dictionary [{"current": v}]. *)
Definition parse_accounting_from_text `{Runtime} (text : pystr) : outcome text_result :=
  if bool_decide (text = []) || bool_decide (strip text = []) then
    Return (TextResult None None ∅ ∅ ∅ None)
  else
    let txt := text in
    let report_year := find_report_year txt in
    let company_info := find_company_info txt in
    '(report_type, balance) ← find_balance txt;
    financial_results ← scan_fin fin_patterns txt ∅;
    Return {| t_report_type := report_type;
              t_report_year := report_year;
              t_company_info := company_info;
              t_balance := balance;
              t_financial_results := financial_results;
              t_structured_data := Some (balance, financial_results) |}.

(** ** Substrings *)

(** [s.startswith(p)] *)
Fixpoint starts_with (p s : pystr) : bool :=
  match p, s with
  | [], _ => true
  | _ :: _, [] => false
  | a :: p', b :: s' => (a =? b)%N && starts_with p' s'
  end.

(** [s.endswith(p)] *)
Definition ends_with (p s : pystr) : bool := starts_with (rev p) (rev s).

(** [s.find(sep)]: where [sep] first occurs in [s]. *)
Fixpoint find_sub (sep s : pystr) : option nat :=
  if starts_with sep s then Some 0
  else
    match s with
    | [] => None
    | _ :: r => S <$> find_sub sep r
    end.

(** [sep in s] *)
Definition contains (sep s : pystr) : bool :=
  match find_sub sep s with
  | Some _ => true
  | None => false
  end.

(** [s.split(sep)] for a non-empty [sep]; every cut removes a character, so
    [length s] rounds are enough. *)
Fixpoint split_fuel (fuel : nat) (sep s : pystr) : list pystr :=
  match fuel with
  | O => [s]
  | S n =>
      match find_sub sep s with
      | Some i => take i s :: split_fuel n sep (drop (i + length sep) s)
      | None => [s]
      end
  end.

Definition split (sep s : pystr) : list pystr := split_fuel (length s) sep s.

(** [l[i]], the empty string standing for the [IndexError] no call of the
    source can meet. *)
Definition item (i : nat) (l : list pystr) : pystr := default [] (l !! i).

(** [s.lower()] on the letters of the Latin and Russian alphabets; the
    other characters are left alone, which no test for [".xml"] depends on. *)
Definition lower_char (c : N) : N :=
  if ((65 <=? c) && (c <=? 90))%N then (c + 32)%N
  else if ((1040 <=? c) && (c <=? 1071))%N then (c + 32)%N
  else if (c =? 1025)%N then 1105%N
  else c.

Definition lower (s : pystr) : pystr := lower_char <$> s.

(** ** Files and what reading them gives *)

Definition table := list (list (option pystr)).

(** A page as engine A ([pdfplumber]) shows it: [extract_text] with the
    tolerances of the source, and [extract_tables]. *)
Record plumber_page := PlumberPage {
  pp_text : option pystr;
  pp_tables : outcome (list table)
}.

(** A downloaded file, by what each reader of the source obtains from it:
    - [f_header]: [open(path, 'rb').read(10)];
    - [f_utf8]: the file read as UTF-8 text;
    - [f_markup]: the file read as windows-1251 and given to [ET.fromstring];
    - [f_generic]: [ET.parse(path).getroot()];
    - [f_diag]: page count and encrypted flag, from the installed PDF library;
    - [f_plumber]: the pages of engine A with the tolerances of the first
      [extract_from_pdf];
    - [f_fitz]: the page texts engine B ([fitz]) had appended when it ended
      or failed;
    - [f_ocr]: the texts recognised on the rasterised pages;
    - [f_plumber_plain], [f_fitz_plain]: [page.extract_text()] and
      [doc[i].get_text()] of every page, as the second [extract_from_pdf]
      calls them;
    - [f_gemini]: [model.generate_content(parts).text]. *)
Record file := File {
  f_header : outcome (list N);
  f_utf8 : outcome pystr;
  f_markup : outcome Element;
  f_generic : outcome Element;
  f_diag : outcome (nat * bool);
  f_plumber : outcome (list plumber_page);
  f_fitz : list pystr;
  f_ocr : outcome (list pystr);
  f_plumber_plain : outcome (list (option pystr));
  f_fitz_plain : outcome (list pystr);
  f_gemini : outcome pystr
}.

(** The calls that leave the function for a parser, an engine or the
    service, in the order they are made. *)
Inductive event :=
| EvStructured
| EvGenericMarkup
| EvDiagnostic
| EvEngineA
| EvEngineB
| EvOcr
| EvHeuristic
| EvDelegatedAI.

#[export] Instance event_eq_dec : EqDecision event.
Proof. solve_decision. Defined.

(** The result of the plain extractors: [data] is
    [{"elements_count": n, "root_tag": t}]. *)
Record simple_result := SimpleResult {
  s_filename : pystr;
  s_success : bool;
  s_text : pystr;
  s_data : option (nat * string);
  s_error : option pystr
}.

(** The keys the structural diagnostic sets. *)
Record diag_part := DiagPart {
  pdf_info : option (option (nat * bool));
  pdf_diagnostic_error : option pystr
}.

(** The keys the text acquisition sets. *)
Record text_part := TextPart {
  extraction_method : option pystr;
  pages_processed : option nat;
  ocr_used : bool;
  p_text : pystr;
  p_success : bool
}.

(** The keys filled from the text parser. *)
Record parsed_part := ParsedPart {
  structured_data : option (gmap string hside * gmap string pyval);
  report_type : option pystr;
  report_year : option pystr;
  company_info : gmap string (option pystr);
  multi_year_data : option multi_year;
  parsing_error : option pystr
}.

(** The dictionary the first [extract_from_pdf] returns, its keys grouped
    by the step that sets them. *)
Record pdf_result := PdfResult {
  p_filename : pystr;
  p_diag : diag_part;
  p_acquired : text_part;
  p_parsed : parsed_part;
  p_error : option pystr
}.

Record ai_result := AiResult {
  a_filename : pystr;
  a_success : bool;
  a_report_type : json;
  a_report_year : json;
  a_company_info : json;
  a_multi_year_data : json;
  a_analysis : json;
  a_text : option pystr;
  a_error : option pystr;
  a_raw_response : option (option pystr)
}.

(** An entry of [parsed_files]. *)
Inductive record :=
| FromXml (r : xml_result)
| FromPlain (r : simple_result)
| FromPdf (r : pdf_result)
| FromAI (r : ai_result)
| Failed (filename error : pystr).

(** [parsed.get("success")] *)
Definition success (r : record) : bool :=
  match r with
  | FromXml x => x_success x
  | FromPlain s => s_success s
  | FromPdf p => p_success (p_acquired p)
  | FromAI a => a_success a
  | Failed _ _ => false
  end.

Definition hexd (n : N) : N := if (n <? 10)%N then (48 + n)%N else (87 + n)%N.

(** [repr] of a [bytes] object. *)
Definition bytes_repr (b : list N) : pystr :=
  let q := if existsb (N.eqb 39) b && negb (existsb (N.eqb 34) b) then 34%N else 39%N in
  let esc (c : N) : pystr :=
    if ((c =? q) || (c =? 92))%N then [92%N; c]
    else if (c =? 9)%N then u "\t"
    else if (c =? 10)%N then u "\n"
    else if (c =? 13)%N then u "\r"
    else if ((c <? 32) || (126 <? c))%N then [92%N; 120%N; hexd (c / 16); hexd (c mod 16)]
    else [c] in
  98%N :: q :: flat_map esc b ++ [q].

Definition page_separator : pystr :=
  [10%N; 10%N] ++ u "=== НОВАЯ СТРАНИЦА ===" ++ [10%N; 10%N].

(** ** Paths *)

(** [os.path.basename(path)] *)
Definition basename (path : pystr) : pystr := default [] (last (split [47%N] path)).

(** [os.path.join(a, b)] for a relative [b]. *)
Definition path_join (a b : pystr) : pystr :=
  if ends_with [47%N] a then a ++ b else a ++ 47%N :: b.

(** ** [extract_from_xml] *)

Definition concat_map {A B} (f : A → list B) : list A → list B :=
  fix go l :=
    match l with
    | [] => []
    | x :: r => f x ++ go r
    end.

(** [root.iter()] *)
Fixpoint iter (e : Element) : list Element :=
  match e with
  | Elem _ _ _ ch => e :: concat_map iter ch
  end.

(** [tag.split('}')[-1] if '}' in tag else tag] *)
Definition local_name (tag : pystr) : pystr :=
  if contains_char 125 tag then default [] (last (split [125%N] tag)) else tag.

Definition generic_lines (root : Element) : list pystr :=
  omap (λ e,
    match text_of_elem e with
    | Some t =>
        if bool_decide (t = []) || bool_decide (strip t = []) then None
        else Some (local_name (u (tag_of e)) ++ u ": " ++ strip t)
    | None => None
    end) (iter root).

Definition extract_from_xml `{Runtime} (xml_path : pystr) (f : file) : record * list event :=
  let accounting_result := parse_accounting_xml (basename xml_path) (f_markup f) in
  if x_success accounting_result then (FromXml accounting_result, [EvStructured])
  else
    (FromPlain
       match f_generic f with
       | Return root =>
           let elements := generic_lines root in
           {| s_filename := basename xml_path; s_success := true;
              s_text := join [10%N] elements;
              s_data := Some (length elements, tag_of root);
              s_error := None |}
       | Raise e =>
           {| s_filename := basename xml_path; s_success := false; s_text := [];
              s_data := None; s_error := Some (exn_str e) |}
       end,
     [EvStructured; EvGenericMarkup]).

(** ** The two definitions of [extract_from_pdf] *)

Definition pdf_magic : list N := [37%N; 80%N; 68%N; 70%N].

(** ['<?xml' in content or content.strip().startswith('<')] *)
Definition looks_like_markup (content : pystr) : bool :=
  contains (u "<?xml") content || starts_with [60%N] (strip content).

(** Truth value of a stored number. *)
Definition truthy_val (v : pyval) : bool :=
  match v with
  | PyNone => false
  | PyStr s => negb (bool_decide (s = []))
  | PyInt z => negb (z =? 0)%Z
  | PyFloat d => negb (dmant d =? 0)%N
  end.

(** Truth value of one side of the balance: a dictionary with a key. *)
Definition truthy_side (sd : hside) : bool :=
  bool_decide (is_Some (h_total_current sd)) || bool_decide (is_Some (h_details sd)).

(** The text of one page of engine A: its free text, then every table row
    with its cells joined by [" | "]. *)
Definition plumber_page_text (pg : plumber_page) : pystr :=
  let page_text := default [] (pp_text pg) in
  match pp_tables pg with
  | Return tables =>
      page_text ++
      concat_map (λ t : table,
        concat_map (λ row, 10%N :: join (u " | ") (default [] <$> row)) t) tables
  | Raise _ => page_text
  end.

Definition msg_encrypted : pystr := u "PDF защищен паролем или зашифрован".
Definition msg_no_pages : pystr := u "PDF не содержит страниц".
Definition msg_empty_text : pystr :=
  u "Пустой текст. Вероятно PDF — скан без текстового слоя. Установите OCR: pip install pdf2image pytesseract".

Definition no_diag : diag_part := DiagPart None None.
Definition no_text : text_part := TextPart None None false [] false.
Definition no_parsed : parsed_part := ParsedPart None None None ∅ None None.

(** The rows one side of the balance contributes: its total when it is a
    non-zero number, then one row for every detail. *)
Definition side_rows (balance : gmap string hside) (key total_label : string)
    (m : gmap string (list pyval)) : gmap string (list pyval) :=
  match balance !! key with
  | Some sd =>
      if truthy_side sd then
        let m := match h_total_current sd with
                 | Some v => if truthy_val v then <[total_label := [v]]> m else m
                 | None => m
                 end in
        match h_details sd with
        | Some d => ((λ v, [v]) <$> d) ∪ m
        | None => m
        end
      else m
  | None => m
  end.

Definition fin_row (fin_res : gmap string pyval) (key label : string)
    (m : gmap string (list pyval)) : gmap string (list pyval) :=
  match fin_res !! key with
  | Some v => <[label := [v]]> m
  | None => m
  end.

(** [multi_year_data] as the first [extract_from_pdf] builds it from the
    result of the text parser. *)
Definition multi_year_of_text (report_year : option pystr)
    (balance : gmap string hside) (fin_res : gmap string pyval) : multi_year :=
  {| years := [report_year];
     my_balance :=
       if bool_decide (balance = ∅) then ∅
       else side_rows balance "passive" "ПАССИВ (всего)"
              (side_rows balance "active" "АКТИВ (всего)" ∅);
     my_financial_results :=
       if bool_decide (fin_res = ∅) then ∅
       else fin_row fin_res "income_tax" "Налог на прибыль"
              (fin_row fin_res "expenses" "Расходы"
                 (fin_row fin_res "net_profit" "Чистая прибыль (убыток)"
                    (fin_row fin_res "revenue" "Выручка" ∅))) |}.

(** Step 0.5, the structural diagnostic: the keys it sets, the message of
    its early return if it takes it, and the calls it made. *)
Definition pdf_diagnostic `{Runtime} (f : file) : diag_part * option pystr * list event :=
  let checks (info : option (nat * bool)) : option pystr :=
    if from_option snd false info then Some msg_encrypted
    else if from_option fst 0 info =? 0 then Some msg_no_pages
    else None in
  match PDF_LIB with
  | Some _ =>
      match f_diag f with
      | Return info => (DiagPart (Some (Some info)) None, checks (Some info), [EvDiagnostic])
      | Raise e => (DiagPart None (Some (exn_str e)), None, [EvDiagnostic])
      end
  | None => (DiagPart (Some None) None, checks None, [])
  end.

(** Steps 1 and 2: the page texts and the engines that were run. *)
Definition acquire_text `{Runtime} (f : file) : list pystr * list event :=
  let '(extracted_text, ev) :=
    match PDF_LIB with
    | Some pdfplumber =>
        match f_plumber f with
        | Return pages => (plumber_page_text <$> pages, [EvEngineA])
        | Raise _ => ([], [EvEngineA])
        end
    | _ => ([], [])
    end in
  if (bool_decide (extracted_text = [])
      || forallb (λ p, bool_decide (strip p = [])) extracted_text)
     && bool_decide (PDF_LIB = Some pymupdf)
  then (extracted_text ++ f_fitz f, ev ++ [EvEngineB])
  else (extracted_text, ev).

(** Step 4: the keys filled from the text parser. *)
Definition parsed_keys `{Runtime} (joined : pystr) : parsed_part :=
  match parse_accounting_from_text joined with
  | Return parsed =>
      let sd := t_structured_data parsed in
      let bal := from_option fst ∅ sd in
      let fin := from_option snd ∅ sd in
      let year := if truthy (t_report_year parsed) then t_report_year parsed else None in
      {| structured_data := sd;
         report_type := t_report_type parsed;
         report_year := year;
         company_info := t_company_info parsed;
         multi_year_data :=
           if negb (bool_decide (bal = ∅)) || negb (bool_decide (fin = ∅))
           then Some (multi_year_of_text year bal fin) else None;
         parsing_error := None |}
  | Raise e =>
      {| structured_data := None; report_type := None; report_year := None;
         company_info := ∅; multi_year_data := None;
         parsing_error := Some (exn_str e) |}
  end.

Module Shadowed.

(** The first definition of [extract_from_pdf] (the multi-stage one).  The
    module binds the name again further down, so no call reaches it. *)
Definition extract_from_pdf `{Runtime} (pdf_path : pystr) (f : file) : record * list event :=
  let filename := basename pdf_path in
  let fail d t ev msg := (FromPdf (PdfResult filename d t no_parsed (Some msg)), ev) in
  match f_header f with
  | Raise e => fail no_diag no_text [] (u "Ошибка чтения файла: " ++ exn_str e)
  | Return header =>
      if negb (starts_with pdf_magic header) then
        let not_pdf := fail no_diag no_text []
                         (u "Не PDF файл. Заголовок: " ++ bytes_repr (take 20 header)) in
        match f_utf8 f with
        | Return content =>
            if looks_like_markup content
            then (FromXml (parse_accounting_xml filename (f_markup f)), [EvStructured])
            else not_pdf
        | Raise _ => not_pdf
        end
      else
        let '(d, stop, ev0) := pdf_diagnostic f in
        match stop with
        | Some msg => fail d no_text ev0 msg
        | None =>
            let '(extracted_text, ev1) := acquire_text f in
            let joined :=
              join page_separator
                (filter (λ p, p ≠ [] ∧ strip p ≠ []) extracted_text) in
            let finish method pages ocr joined ev :=
              (FromPdf (PdfResult filename d (TextPart (Some method) pages ocr joined true)
                          (parsed_keys joined) None),
               ev ++ [EvHeuristic]) in
            if bool_decide (strip joined = []) then
              let none_yet := TextPart (Some (u "none")) (Some (length extracted_text))
                                false [] false in
              if OCR_AVAILABLE then
                match f_ocr f with
                | Return ocr_texts =>
                    finish (u "ocr") (Some (length extracted_text)) true
                      (join page_separator ocr_texts) (ev0 ++ ev1 ++ [EvOcr])
                | Raise e =>
                    fail d none_yet (ev0 ++ ev1 ++ [EvOcr])
                      (u "OCR доступен, но произошла ошибка: " ++ exn_str e)
                end
              else fail d none_yet (ev0 ++ ev1) msg_empty_text
            else
              finish
                match PDF_LIB with
                | Some pdfplumber => u "pdfplumber"
                | Some pymupdf => u "pymupdf"
                | None => u "unknown"
                end None false joined (ev0 ++ ev1)
        end
  end.

End Shadowed.

(** The second definition of [extract_from_pdf], the one the name is bound
    to once the module is loaded. *)
Definition extract_from_pdf `{Runtime} (pdf_path : pystr) (f : file) : record * list event :=
  let filename := basename pdf_path in
  let plain ok text err := FromPlain (SimpleResult filename ok text None err) in
  match f_header f with
  | Raise e => (plain false [] (Some (exn_str e)), [])
  | Return header =>
      if negb (starts_with pdf_magic header) then
        let not_pdf := (plain false [] (Some (u "Не PDF. Заголовок: " ++ bytes_repr header)), []) in
        match f_utf8 f with
        | Return content =>
            if looks_like_markup content then extract_from_xml pdf_path f else not_pdf
        | Raise _ => not_pdf
        end
      else
        match PDF_LIB with
        | Some pdfplumber =>
            match f_plumber_plain f with
            | Return pages =>
                let texts := filter (λ t, t ≠ []) (omap id pages) in
                (plain true (join page_separator texts) None, [EvEngineA])
            | Raise e => (plain false [] (Some (exn_str e)), [EvEngineA])
            end
        | Some pymupdf =>
            match f_fitz_plain f with
            | Return texts => (plain true (join page_separator texts) None, [EvEngineB])
            | Raise e => (plain false [] (Some (exn_str e)), [EvEngineB])
            end
        | None => (plain false [] (Some (u "Нет библиотеки для PDF")), [])
        end
  end.

(** ** [analyze_pdf_with_gemini] *)

Definition fence : pystr := [96%N; 96%N; 96%N].
Definition fence_json : pystr := fence ++ u "json".

(** The text handed to [json.loads]: the response stripped of white space
    and, when it holds a fence marker, cut down to what stands between the
    first marker and the next. *)
Definition strip_fences (text : pystr) : pystr :=
  let response_text := strip text in
  if contains fence_json response_text then
    strip (item 0 (split fence (item 1 (split fence_json response_text))))
  else if contains fence response_text then
    strip (item 0 (split fence (item 1 (split fence response_text))))
  else response_text.

(** A payload between fence markers, with and without the language tag. *)
Definition fenced_json (j : pystr) : pystr := fence_json ++ 10%N :: j ++ 10%N :: fence.
Definition fenced_plain (j : pystr) : pystr := fence ++ 10%N :: j ++ 10%N :: fence.

Definition type_name (j : json) : pystr :=
  match j with
  | JNull => u "NoneType"
  | JBool _ => u "bool"
  | JInt _ => u "int"
  | JFloat _ => u "float"
  | JStr _ => u "str"
  | JArr _ => u "list"
  | JObj _ => u "dict"
  end.

Fixpoint assoc (key : pystr) (fields : list (pystr * json)) : option json :=
  match fields with
  | [] => None
  | (k, v) :: r => if bool_decide (k = key) then Some v else assoc key r
  end.

(** [data.get(key, dflt)]; a [JObj] lists every key once. *)
Definition json_get (key : string) (dflt : json) (data : json) : outcome json :=
  match data with
  | JObj fields => Return (default dflt (assoc (u key) fields))
  | _ => Raise (AttributeError
                  (u "'" ++ type_name data ++ u "' object has no attribute 'get'"))
  end.

Definition initial_ai_result (filename : pystr) : ai_result :=
  {| a_filename := filename; a_success := false;
     a_report_type := JNull; a_report_year := JNull; a_company_info := JObj [];
     a_multi_year_data := JNull; a_analysis := JNull;
     a_text := None; a_error := None; a_raw_response := None |}.

(** The two handlers of the function. [response_text] is the local
    variable of that name, once it is bound. *)
Definition ai_failure (r : ai_result) (response_text : option pystr) (e : exn) : ai_result :=
  match e with
  | JSONDecodeError m =>
      {| a_filename := a_filename r; a_success := a_success r;
         a_report_type := a_report_type r; a_report_year := a_report_year r;
         a_company_info := a_company_info r;
         a_multi_year_data := a_multi_year_data r; a_analysis := a_analysis r;
         a_text := a_text r;
         a_error := Some (u "Ошибка парсинга JSON от AI: " ++ m);
         a_raw_response := Some response_text |}
  | _ =>
      {| a_filename := a_filename r; a_success := a_success r;
         a_report_type := a_report_type r; a_report_year := a_report_year r;
         a_company_info := a_company_info r;
         a_multi_year_data := a_multi_year_data r; a_analysis := a_analysis r;
         a_text := a_text r;
         a_error := Some (u "Ошибка AI-анализа: " ++ exn_str e);
         a_raw_response := a_raw_response r |}
  end.

(** What the function does with the text of the response. *)
Definition read_response `{Runtime} (filename : pystr) (text : pystr) : ai_result :=
  let result := initial_ai_result filename in
  let response_text := strip_fences text in
  match json_loads response_text with
  | Raise e => ai_failure result (Some response_text) e
  | Return data =>
      let result :=
        {| a_filename := filename; a_success := true;
           a_report_type := JNull; a_report_year := JNull; a_company_info := JObj [];
           a_multi_year_data := JNull; a_analysis := JNull;
           a_text := None; a_error := None; a_raw_response := None |} in
      let filled :=
        report_type ← json_get "report_type" JNull data;
        report_year ← json_get "report_year" JNull data;
        company_info ← json_get "company_info" (JObj []) data;
        multi_year_data ← json_get "multi_year_data" JNull data;
        analysis ← json_get "analysis" JNull data;
        Return {| a_filename := filename; a_success := true;
                  a_report_type := report_type; a_report_year := report_year;
                  a_company_info := company_info;
                  a_multi_year_data := multi_year_data; a_analysis := analysis;
                  a_text := Some []; a_error := None; a_raw_response := None |} in
      match filled with
      | Return r => r
      | Raise e => ai_failure result (Some response_text) e
      end
  end.

Definition analyze_pdf_with_gemini `{Runtime} (f : file) (filename : pystr) : ai_result :=
  match f_gemini f with
  | Return text => read_response filename text
  | Raise e => ai_failure (initial_ai_result filename) None e
  end.

(** ** The dispatch of [download_and_parse_boh] *)

(** [is_xml = '.xml' in href.lower()] *)
Definition link_is_xml (href : pystr) : bool := contains (u ".xml") (lower href).

(** [filename = f"report_{inn}_{idx}{ext}"] *)
Definition link_filename (inn : pystr) (idx : nat) (href : pystr) : pystr :=
  let ext := if link_is_xml href then u ".xml" else u ".pdf" in
  u "report_" ++ inn ++ u "_" ++ str_of_int (Z.of_nat idx) ++ ext.

(** [path = os.path.join(out_dir, filename)] *)
Definition link_path (inn : pystr) (idx : nat) (href : pystr) : pystr :=
  let out_dir := u "reports_" ++ inn in
  path_join out_dir (link_filename inn idx href).

(** The body of the loop for a link that has an [href]: [download] is the
    file written to [path], or the exception of the request. *)
Definition process_link `{Runtime} (inn : pystr) (idx : nat) (href : pystr)
    (download : outcome file) : record * list event :=
  let is_xml := link_is_xml href in
  let filename := link_filename inn idx href in
  let path := link_path inn idx href in
  match download with
  | Raise e => (Failed filename (exn_str e), [])
  | Return f =>
      if is_xml || ends_with (u ".xml") path then extract_from_xml path f
      else (FromAI (analyze_pdf_with_gemini f filename), [EvDelegatedAI])
  end.

(** One round of the loop over the links: a link without [href] is
    skipped. *)
Definition loop_step `{Runtime} (inn : pystr) (idx : nat) (href : option pystr)
    (download : outcome file) : option (record * list event) :=
  if truthy href then Some (process_link inn idx (default [] href) download) else None.

(** ** A runtime to compute with *)

(** A runtime whose conversions read plain decimal numerals and nothing
    else, whose [re] finds nothing and whose [json] accepts the empty
    object only. *)
Definition plain_runtime : Runtime := {|
  int_of_str := decimal_int;
  float_of_str := decimal_float;
  re_search := λ _ _ _, None;
  json_loads := λ s,
    if bool_decide (s = u "{}") then Return (JObj [])
    else Raise (JSONDecodeError (u "Expecting value: line 1 column 1 (char 0)"));
  PDF_LIB := Some pdfplumber;
  OCR_AVAILABLE := false
|}.

(** A runtime for the two transcripts below.  Its [re] answers as
    CPython's does on them: ["за 2020 год"] matches the year pattern at 0
    with the groups ["2020"] and ["год"], ["Выручка 1 000 000"] matches the
    revenue pattern at 0 with the group ["1 000 000"], no other pattern of
    the parser matches either, and [\d] finds the first digit. *)
Definition sample_search (p : pattern) (ignore_case : bool) (s : pystr) : option Match :=
  if bool_decide (p = pat_digit) then
    (λ i, MkMatch (fst i) (λ _, None)) <$> list_find (λ c, is_digit c = true) s
  else if bool_decide (p = pat_year ∧ s = u "за 2020 год") then
    Some (MkMatch 0 (λ k, match k with
                          | 1 => Some (u "2020")
                          | 2 => Some (u "год")
                          | _ => None
                          end))
  else if bool_decide (p = pat_revenue ∧ s = u "Выручка 1 000 000") then
    Some (MkMatch 0 (λ k, match k with
                          | 1 => Some (u "1 000 000")
                          | _ => None
                          end))
  else None.

(** [json.loads] on the empty object, on an unsigned integer numeral
    without a leading zero and on a lone quotation mark; the sample runtime
    refuses every other text. *)
Definition sample_loads (s : pystr) : outcome json :=
  if bool_decide (s = u "{}") then Return (JObj [])
  else if bool_decide (s = [34%N]) then
    Raise (JSONDecodeError (u "Unterminated string starting at: line 1 column 1 (char 0)"))
  else
    match s, all_digits_value s with
    | c :: r, Some n =>
        if (c =? 48)%N && negb (bool_decide (r = []))
        then Raise (JSONDecodeError (u "Extra data: line 1 column 2 (char 1)"))
        else Return (JInt (Z.of_N n))
    | _, _ => Raise (JSONDecodeError (u "Expecting value: line 1 column 1 (char 0)"))
    end.

Definition sample_runtime : Runtime := {|
  int_of_str := decimal_int;
  float_of_str := decimal_float;
  re_search := sample_search;
  json_loads := sample_loads;
  PDF_LIB := Some pdfplumber;
  OCR_AVAILABLE := false
|}.

(** ** Documents to compute with *)

Definition attrs (l : list (string * string)) : gmap string pystr :=
  list_to_map (prod_map id u <$> l).

(** A balance block with one detail line. *)
Definition balance_block : Element :=
  Elem "Баланс" ∅ None
    [Elem "Актив" (attrs [("СумОтч", "100"); ("СумПрдШв", "90")]) None
       [Elem "Запасы" (attrs [("СумОтч", "5")]) None []]].

(** An income block with the revenue line. *)
Definition income_block : Element :=
  Elem "ФинРез" ∅ None
    [Elem "Выруч" (attrs [("СумОтч", "7"); ("СумПред", "6")]) None []].

(** A document for 2023 with both blocks. *)
Definition full_doc : Element :=
  Elem "Файл" ∅ None
    [Elem "Документ" (attrs [("ОтчетГод", "2023"); ("КНД", "0710099")]) None
       [balance_block; income_block]].

(** A document for 2023 with the balance block only. *)
Definition balance_only_doc : Element :=
  Elem "Файл" ∅ None
    [Elem "Документ" (attrs [("ОтчетГод", "2023"); ("КНД", "0710099")]) None
       [balance_block]].

(** Well-formed markup that is no accounting report. *)
Definition bare_doc : Element := Elem "Файл" ∅ None [].

(** A JSON string whose text holds fence markers: ["```1```"] between
    quotation marks. *)
Definition quoted_fences : pystr := 34%N :: fence ++ 49%N :: fence ++ [34%N].

(** ** Files to compute with *)

Definition unread {A} : outcome A := Raise (OtherError (u "not a PDF")).

(** A file holding the markup of [full_doc]; the service answers [{}]. *)
Definition markup_file : file := {|
  f_header := Return (bytes_of_string "<?xml vers");
  f_utf8 := Return (u "<?xml version='1.0' encoding='windows-1251'?><Файл/>");
  f_markup := Return full_doc;
  f_generic := Return full_doc;
  f_diag := unread;
  f_plumber := unread;
  f_fitz := [];
  f_ocr := unread;
  f_plumber_plain := unread;
  f_fitz_plain := unread;
  f_gemini := Return (u "{}")
|}.

Definition not_markup {A} : outcome A := Raise (OtherError (u "syntax error: line 1, column 0")).

(** A PDF container without a page. *)
Definition zero_page_pdf : file := {|
  f_header := Return (bytes_of_string "%PDF-1.4 %");
  f_utf8 := Raise (OtherError (u "'utf-8' codec can't decode byte"));
  f_markup := not_markup;
  f_generic := not_markup;
  f_diag := Return (0, false);
  f_plumber := Return [];
  f_fitz := [];
  f_ocr := Return [];
  f_plumber_plain := Return [];
  f_fitz_plain := Return [];
  f_gemini := Return (u "{}")
|}.

(** An encrypted PDF of three pages whose text the engines still read as
    blank. *)
Definition encrypted_pdf : file := {|
  f_header := Return (bytes_of_string "%PDF-1.6 %");
  f_utf8 := Raise (OtherError (u "'utf-8' codec can't decode byte"));
  f_markup := not_markup;
  f_generic := not_markup;
  f_diag := Return (3, true);
  f_plumber := Return [PlumberPage None (Return []); PlumberPage None (Return []);
                       PlumberPage None (Return [])];
  f_fitz := [];
  f_ocr := Return [];
  f_plumber_plain := Return [None; None; None];
  f_fitz_plain := Return [[]; []; []];
  f_gemini := Return (u "{}")
|}.

(** A scan of one page: no text layer, nothing wrong with the container. *)
Definition scanned_pdf : file := {|
  f_header := Return (bytes_of_string "%PDF-1.4 %");
  f_utf8 := Raise (OtherError (u "'utf-8' codec can't decode byte"));
  f_markup := not_markup;
  f_generic := not_markup;
  f_diag := Return (1, false);
  f_plumber := Return [PlumberPage None (Return [])];
  f_fitz := [];
  f_ocr := Return [];
  f_plumber_plain := Return [None];
  f_fitz_plain := Return [[]];
  f_gemini := Return (u "{}")
|}.

(** ** The invariants of the canonical table, as the specification words them *)

(** Every sequence under [multi_year_data] is as long as [years]. *)
Definition aligned (my : multi_year) : Prop :=
  map_Forall (λ _ row, length row = length (years my)) (my_balance my)
  ∧ map_Forall (λ _ row, length row = length (years my)) (my_financial_results my).

Definition numeric_or_null (v : pyval) : Prop :=
  match v with
  | PyNone | PyInt _ | PyFloat _ => True
  | PyStr _ => False
  end.

Definition text_or_null (v : pyval) : Prop :=
  match v with
  | PyNone | PyStr _ => True
  | PyInt _ | PyFloat _ => False
  end.

(** Every element of every sequence satisfies [P]. *)
Definition all_values (P : pyval → Prop) (my : multi_year) : Prop :=
  map_Forall (λ _ row, Forall P row) (my_balance my)
  ∧ map_Forall (λ _ row, Forall P row) (my_financial_results my).

(** Some sequence holds a number. *)
Definition has_number (my : multi_year) : Prop :=
  ∃ (k : string) (row : list pyval) (v : pyval),
    (my_balance my !! k = Some row ∨ my_financial_results my !! k = Some row)
    ∧ v ∈ row ∧ v ≠ PyNone ∧ numeric_or_null v.

(** ** Notions the proofs use *)

(** The first character of [s], if any, is not one [p] strips. *)
Definition edge_ok (p : N → bool) (s : pystr) : bool :=
  match s with
  | [] => true
  | c :: _ => negb (p c)
  end.

(** A row of [n] positions, each null or an attribute text. *)
Definition row_of (n : nat) (row : list pyval) : Prop :=
  length row = n ∧ Forall text_or_null row.

(** The table [parse_accounting_xml] attaches to a parsed document. *)
Definition xml_table `{Runtime} (root : Element) : multi_year :=
  let doc := find_desc "Документ" root in
  build_multi_year (doc ≫= get_attr "ОтчетГод")
    (from_option balance_of ∅ (doc ≫= find_desc "Баланс"))
    (from_option financial_results_of ∅ (doc ≫= find_desc "ФинРез")).

(** The sums of an element as a row of the balance and as a row of the
    income statement: each position is the attribute as [e.get] gives it,
    its text or [None]. *)
Definition attr_row3 (e : Element) : list pyval :=
  [of_opt (get_attr "СумОтч" e); of_opt (get_attr "СумПрдШв" e);
   of_opt (get_attr "СумПрдЩ" e)].

Definition attr_row2 (e : Element) : list pyval :=
  [of_opt (get_attr "СумОтч" e); of_opt (get_attr "СумПред" e)].

(** The tag of the element each row of the table is read from. *)
Definition balance_row_tags : list (string * string) :=
  [("АКТИВ (всего)", "Актив");
   ("Внеоборотные активы", "МатВнеАкт");
   ("Финансовые вложения", "ФинВлож");
   ("Запасы", "Запасы");
   ("Денежные средства", "ДенежнСр");
   ("Нематериальные активы", "НеМатФинАкт");
   ("ПАССИВ (всего)", "Пассив");
   ("Капитал и резервы", "КапРез");
   ("Долгосрочные заемные средства", "ДлгЗаемСредств");
   ("Другие долгосрочные обязательства", "ДрДолгосрОбяз");
   ("Кредиторская задолженность", "КредитЗадолж")].

Definition financial_row_tags : list (string * string) :=
  [("Выручка", "Выруч");
   ("Расходы по обычной деятельности", "РасхОбДеят");
   ("Прочие доходы", "ПрочДоход");
   ("Прочие расходы", "ПрочРасход");
   ("Налог на прибыль", "НалПрибДох");
   ("Чистая прибыль (убыток)", "ЧистПрибУб")].

(** The same for the keys of [result["balance"][side]["details"]] and of
    [result["financial_results"]]. *)
Definition active_detail_tags : list (string * string) :=
  [("non_current_assets", "МатВнеАкт");
   ("financial_investments", "ФинВлож");
   ("inventory", "Запасы");
   ("cash", "ДенежнСр");
   ("intangible_assets", "НеМатФинАкт")].

Definition passive_detail_tags : list (string * string) :=
  [("equity", "КапРез");
   ("long_term_debt", "ДлгЗаемСредств");
   ("other_long_term_liab", "ДрДолгосрОбяз");
   ("accounts_payable", "КредитЗадолж")].

Definition financial_key_tags : list (string * string) :=
  [("revenue", "Выруч");
   ("expenses", "РасхОбДеят");
   ("other_income", "ПрочДоход");
   ("other_expenses", "ПрочРасход");
   ("income_tax", "НалПрибДох");
   ("net_profit", "ЧистПрибУб")].

(** The value [v] stored under [label] is what [sums] reads from an
    element of the document [root] that has the tag of [label]. *)
Definition row_from {V} (root : Element) (tags : list (string * string))
    (sums : Element → V) (label : string) (v : V) : Prop :=
  ∃ tag e, (label, tag) ∈ tags ∧ e ∈ iter root ∧ tag_of e = tag ∧ v = sums e.

(** A side of the balance is read from an element of [root] tagged [tag]:
    its totals and each of its details. *)
Definition side_from (root : Element) (tag : string) (tags : list (string * string))
    (s : side) : Prop :=
  (∃ e, e ∈ iter root ∧ tag_of e = tag ∧ totals_row s = attr_row3 e)
  ∧ map_Forall (row_from root tags sums3) (details s).

(** The numbers of one side of the balance are numbers or null. *)
Definition side_numeric (sd : hside) : Prop :=
  (∀ v, h_total_current sd = Some v → numeric_or_null v)
  ∧ (∀ d, h_details sd = Some d → map_Forall (λ _, numeric_or_null) d).

(** A row of one position, a number or null. *)
Definition unit_row (row : list pyval) : Prop :=
  length row = 1 ∧ Forall numeric_or_null row.

(** The piece of [s] before the first [sep]. *)
Definition before (sep s : pystr) : pystr :=
  match find_sub sep s with
  | Some k => take k s
  | None => s
  end.

(** ** [safe_get] *)

(** [safe_get(data, *keys)]: [None] is [JNull]. *)
Fixpoint safe_get (data : json) (keys : list pystr) : json :=
  match keys with
  | [] => data
  | key :: rest =>
      match data with
      | JObj fields =>
          match default JNull (assoc key fields) with
          | JNull => JNull
          | v => safe_get v rest
          end
      | _ => JNull
      end
  end.

(** ** [clean_name], the helper of [build_company_network_diagram] *)

(** [clean_name(name)] for a name that is a string or [None]. *)
Definition clean_name (name : option pystr) : pystr :=
  if truthy name then
    take 50 (replace_char 41 [] (replace_char 40 [] (replace_char 93 []
              (replace_char 91 [] (replace_char 34 [] (default [] name))))))
  else u "N/A".

(** ** [download_and_parse_boh] *)

(** Truth value of a JSON value.  A float counts as zero when its numeral
    is; rounding is not modelled, as for [decimal]. *)
Definition json_truthy (j : json) : bool :=
  match j with
  | JNull => false
  | JBool b => b
  | JInt z => negb (z =? 0)%Z
  | JFloat d => negb (dmant d =? 0)%N
  | JStr s => match s with [] => false | _ => true end
  | JArr l => match l with [] => false | _ => true end
  | JObj fields => match fields with [] => false | _ => true end
  end.

(** The exception of the lines that report on [parsed] after it was
    appended, inside the [try] of the loop.  Only a successful record with
    a true [analysis] can raise there: [analysis.get] when the analysis is
    no object, the lookup of the rating among the marks when the rating is
    a list or an object. *)
Definition display_error (parsed : record) : option exn :=
  match parsed with
  | FromAI a =>
      if a_success a && json_truthy (a_analysis a) then
        match a_analysis a with
        | JObj fields =>
            match default (JStr (u "N/A")) (assoc (u "investment_rating") fields) with
            | JArr _ => Some (OtherError (u "unhashable type: 'list'"))
            | JObj _ => Some (OtherError (u "unhashable type: 'dict'"))
            | _ => None
            end
        | analysis =>
            Some (AttributeError
                    (u "'" ++ type_name analysis ++ u "' object has no attribute 'get'"))
        end
      else None
  | _ => None
  end.

(** What one link with an [href] appends to [parsed_files]: the record,
    and after it the entry of the handler when the report on the record
    raises. *)
Definition link_entries `{Runtime} (inn : pystr) (idx : nat) (href : pystr)
    (download : outcome file) : list record :=
  let parsed := (process_link inn idx href download).1 in
  match display_error parsed with
  | Some e => [parsed; Failed (link_filename inn idx href) (exn_str e)]
  | None => [parsed]
  end.

(** [for idx, link in enumerate(links, idx)]: the entries appended, or the
    exception that ends the loop, and the seconds slept.  [join_url href]
    is [urljoin(BASE_BOH_URL, href)]: the call stands before the [try] of
    the loop, so that an [href] it refuses ends the function with its
    exception.  [downloads idx url] is what the request for link [idx] at
    [url] gives. *)
Fixpoint link_loop `{Runtime} (inn : pystr) (idx : nat) (links : list (option pystr))
    (join_url : pystr → outcome pystr) (downloads : nat → pystr → outcome file) :
    outcome (list record) * list nat :=
  match links with
  | [] => (Return [], [])
  | href :: rest =>
      if truthy href then
        let waits := if 1 <? idx then [20] else [] in
        match join_url (default [] href) with
        | Raise e => (Raise e, waits)
        | Return url =>
            let entries := link_entries inn idx (default [] href) (downloads idx url) in
            let '(r, more) := link_loop inn (S idx) rest join_url downloads in
            (later ← r; mret (entries ++ later), waits ++ more)
        end
      else link_loop inn (S idx) rest join_url downloads
  end.

(** What a request for the listing gives: the [href] of each link named
    [Скачать], the status of an [HTTPError], or another exception. *)
Inductive listing :=
| Listing (links : list (option pystr))
| HttpError (status : nat)
| RequestError (e : exn).

(** An entry of [boh_parsed]. *)
Inductive boh_entry :=
| Entry (r : record)
| ListingError (error : pystr).

(** [for attempt in range(3)], over the attempts left: the links, or what
    the function returns or raises, and the seconds slept.  The loop never
    runs out of attempts, the third returns; the name [resp] would be
    unbound if it did. *)
Fixpoint request_listing (server : nat → listing) (attempts : list nat) :
    (list (option pystr) + outcome (list boh_entry)) * list nat :=
  match attempts with
  | [] => (inr (Raise (OtherError (u "local variable 'resp' referenced before assignment"))),
           [])
  | attempt :: rest =>
      match server attempt with
      | Listing links => (inl links, [])
      | HttpError status =>
          if status =? 429 then
            let wait := 60 * (attempt + 1) in
            if attempt =? 2 then (inr (Return [ListingError (u "429")]), [wait])
            else let '(r, waits) := request_listing server rest in (r, wait :: waits)
          else (inr (Return [ListingError (u "HTTP " ++ str_of_int (Z.of_nat status))]), [])
      | RequestError e => (inr (Raise e), [])
      end
  end.

(** [download_and_parse_boh(state)["boh_parsed"]], or the exception that
    leaves the function, and the seconds slept; [state_inn] is
    [state["inn"]].  The directory of the reports can be made, and the
    calls that only display a message return. *)
Definition download_and_parse_boh `{Runtime} (state_inn : pystr) (server : nat → listing)
    (join_url : pystr → outcome pystr) (downloads : nat → pystr → outcome file) :
    outcome (list boh_entry) * list nat :=
  let inn := normalize_inn state_inn in
  let '(r, waits) := request_listing server [0; 1; 2] in
  match r with
  | inr out => (out, 20 :: waits)
  | inl links =>
      if bool_decide (links = []) then (Return [], 20 :: waits)
      else
        let '(found, more) := link_loop inn 1 links join_url downloads in
        (match found with
         | Return entries => Return (Entry <$> entries)
         | Raise e => Raise e
         end,
         20 :: waits ++ more)
  end.

(** A runtime whose [json.loads] reads the one answer
    [{"analysis": "ok"}], as CPython does, and refuses every other text. *)
Definition answer_text : pystr :=
  [123; 34; 97; 110; 97; 108; 121; 115; 105; 115; 34; 58; 32; 34; 111; 107; 34; 125]%N.

Definition answer_runtime : Runtime := {|
  int_of_str := decimal_int;
  float_of_str := decimal_float;
  re_search := λ _ _ _, None;
  json_loads := λ s,
    if bool_decide (s = answer_text) then Return (JObj [(u "analysis", JStr (u "ok"))])
    else Raise (JSONDecodeError (u "Expecting value: line 1 column 1 (char 0)"));
  PDF_LIB := Some pdfplumber;
  OCR_AVAILABLE := false
|}.

(** A scanned report to which the service answers [answer_text]. *)
Definition text_analysis_answer : file := {|
  f_header := f_header scanned_pdf;
  f_utf8 := f_utf8 scanned_pdf;
  f_markup := f_markup scanned_pdf;
  f_generic := f_generic scanned_pdf;
  f_diag := f_diag scanned_pdf;
  f_plumber := f_plumber scanned_pdf;
  f_fitz := f_fitz scanned_pdf;
  f_ocr := f_ocr scanned_pdf;
  f_plumber_plain := f_plumber_plain scanned_pdf;
  f_fitz_plain := f_fitz_plain scanned_pdf;
  f_gemini := Return answer_text
|}.

(** A scanned report to which the service answers with a bare number. *)
Definition number_answer : file := {|
  f_header := f_header scanned_pdf;
  f_utf8 := f_utf8 scanned_pdf;
  f_markup := f_markup scanned_pdf;
  f_generic := f_generic scanned_pdf;
  f_diag := f_diag scanned_pdf;
  f_plumber := f_plumber scanned_pdf;
  f_fitz := f_fitz scanned_pdf;
  f_ocr := f_ocr scanned_pdf;
  f_plumber_plain := f_plumber_plain scanned_pdf;
  f_fitz_plain := f_fitz_plain scanned_pdf;
  f_gemini := Return (u "42")
|}.

(** The document of [full_doc] without the enclosing [Файл] element. *)
Definition document_root : Element :=
  Elem "Документ" (attrs [("ОтчетГод", "2023"); ("КНД", "0710099")]) None
    [balance_block; income_block].

(** ** Notions of the further properties *)

(** The number of links that have an [href]. *)
Definition with_href (links : list (option pystr)) : nat :=
  length (filter (λ h, truthy h = true) links).

(** A listing of three links, the second without [href]. *)
Definition sample_listing : list (option pystr) :=
  [Some (u "/files/1.xml"); None; Some (u "/files/3.pdf")].

(** A listing whose second link has an [href] that [urljoin] refuses. *)
Definition broken_listing : list (option pystr) :=
  [Some (u "/files/1.xml"); Some (u "//["); Some (u "/files/3.pdf")].

(** [urljoin("https://egrul.itsoft.ru/bo/", href)] on the links of the two
    listings: an absolute path replaces the path of the base, and ["//["]
    is refused. *)
Definition sample_join_url (href : pystr) : outcome pystr :=
  if bool_decide (href = u "//[") then Raise (ValueError (u "Invalid IPv6 URL"))
  else Return (u "https://egrul.itsoft.ru" ++ href).

(** Every link that has an [href] has one that [join_url] accepts. *)
Definition joinable (join_url : pystr → outcome pystr) (links : list (option pystr)) : Prop :=
  Forall (λ h, truthy h = true → ∃ url, join_url (default [] h) = Return url) links.


(** The digits of a token, and the number they write. *)
Definition digits_of (t : pystr) : pystr := filter (λ c, is_digit c = true) t.

Definition number_of (ds : pystr) : N := fold_left (λ acc c, acc * 10 + (c - 48))%N ds 0%N.

(** A digit or one of the three separators of thousands: space,
    no-break space, thin space. *)
Definition digit_or_gap (c : N) : bool :=
  (is_digit c || (c =? 32) || (c =? 160) || (c =? 8201))%N.

(** A digit or a plain space: what a token of grouped digits is made of
    once the two other separators are replaced. *)
Definition digit_or_space (c : N) : bool := is_digit c || (c =? 32)%N.

(** The conversion that ends [_clean_number]: the text left by the
    removals, and whether it stood between parentheses. *)
Definition convert `{Runtime} (neg : bool) (s : pystr) : outcome pyval :=
  let s := if contains_char 44 s && negb (contains_char 46 s)
           then replace_char 44 [46%N] s else s in
  try_except
    (if bool_decide (s = []) then Return PyNone
     else if contains_char 46 s then
       match float_of_str s with
       | Some val => Return (PyFloat (if neg then fneg val else val))
       | None => Raise (ValueError [])
       end
     else
       match int_of_str s with
       | Some val => Return (PyInt (if neg then (- val)%Z else val))
       | None => Raise (ValueError [])
       end)
    (λ _, Return PyNone).

Definition is_object (j : json) : bool :=
  match j with
  | JObj _ => true
  | _ => false
  end.

(** * Properties *)

(** ** Stripping *)

Lemma lstrip_fix p s : edge_ok p s = true → lstrip_with p s = s.
Proof.
  destruct s as [|c r]; simpl; [done|].
  intros Hc. apply negb_true_iff in Hc. by rewrite Hc.
Qed.

Lemma edge_ok_lstrip p s : edge_ok p (lstrip_with p s) = true.
Proof.
  induction s as [|c r IH]; simpl; [done|].
  destruct (p c) eqn:Hc; [done|]. simpl. by rewrite Hc.
Qed.

Lemma lstrip_snoc p a c : p c = false → lstrip_with p (a ++ [c]) = lstrip_with p a ++ [c].
Proof.
  intros Hc. induction a as [|d a IH]; simpl.
  - by rewrite Hc.
  - destruct (p d); [exact IH|done].
Qed.

Lemma rstrip_cons p c s : p c = false → rstrip_with p (c :: s) = c :: rstrip_with p s.
Proof.
  intros Hc. unfold rstrip_with. simpl.
  rewrite lstrip_snoc by done. by rewrite rev_app_distr.
Qed.

Lemma edge_ok_rstrip p s : edge_ok p s = true → edge_ok p (rstrip_with p s) = true.
Proof.
  destruct s as [|c r]; [done|]. simpl. intros Hc.
  apply negb_true_iff in Hc. rewrite rstrip_cons by done. simpl. by rewrite Hc.
Qed.

Lemma rstrip_fix p s : edge_ok p (rev s) = true → rstrip_with p s = s.
Proof.
  intros H. unfold rstrip_with. rewrite lstrip_fix by done. apply rev_involutive.
Qed.

Lemma strip_with_fix p s :
  edge_ok p s = true → edge_ok p (rev s) = true → strip_with p s = s.
Proof.
  intros H1 H2. unfold strip_with. rewrite lstrip_fix by done. by apply rstrip_fix.
Qed.

Lemma strip_with_edges p s :
  edge_ok p (strip_with p s) = true ∧ edge_ok p (rev (strip_with p s)) = true.
Proof.
  unfold strip_with. split.
  - apply edge_ok_rstrip, edge_ok_lstrip.
  - unfold rstrip_with. rewrite rev_involutive. apply edge_ok_lstrip.
Qed.

Lemma strip_idem s : strip (strip s) = strip s.
Proof.
  unfold strip. destruct (strip_with_edges isspace s) as [H1 H2].
  by apply strip_with_fix.
Qed.

Lemma edge_ok_app p a x b : edge_ok p (a ++ x :: b) = edge_ok p (a ++ [x]).
Proof. by destruct a. Qed.

(** ** [zfill] and [normalize_inn] *)

Lemma zfill_length w s : length (zfill w s) = max w (length s).
Proof.
  unfold zfill. destruct (w <=? length s) eqn:Hw.
  - apply Nat.leb_le in Hw. lia.
  - apply Nat.leb_gt in Hw.
    destruct s as [|c r]; simpl in *.
    + rewrite repeat_length. lia.
    + destruct (is_sign c); simpl; rewrite length_app, repeat_length; simpl; lia.
Qed.

Lemma zfill_unsigned w s :
  has_sign s = false → zfill w s = left_pad_zeros w s.
Proof.
  unfold zfill, left_pad_zeros. intros Hs.
  destruct (w <=? length s) eqn:Hw.
  - apply Nat.leb_le in Hw. by replace (w - length s) with 0 by lia.
  - destruct s as [|c r]; simpl in *; [by rewrite app_nil_r|]. by rewrite Hs.
Qed.

Lemma zfill_signed w c r :
  is_sign c = true → length (c :: r) < w →
  zfill w (c :: r) = c :: repeat 48%N (w - length (c :: r)) ++ r.
Proof.
  unfold zfill. intros Hc Hw.
  destruct (w <=? length (c :: r)) eqn:E; [apply Nat.leb_le in E; lia|].
  by rewrite Hc.
Qed.

Lemma rev_repeat {A} (x : A) n : rev (repeat x n) = repeat x n.
Proof.
  induction n as [|n IH]; [done|]. simpl. rewrite IH.
  change ([x]) with (repeat x 1). rewrite <- repeat_app.
  by replace (n + 1) with (S n) by lia.
Qed.

Lemma zfill_strip_fix w s : strip s = s → strip (zfill w s) = zfill w s.
Proof.
  intros Hs. unfold zfill. destruct (w <=? length s) eqn:Hw; [done|].
  apply Nat.leb_gt in Hw.
  destruct (strip_with_edges isspace s) as [H1 H2].
  fold (strip s) in H1, H2. rewrite Hs in H1, H2.
  destruct (w - length s) as [|k] eqn:Hk; [lia|].
  assert (Hrev : rev (repeat 48%N (S k)) = 48%N :: repeat 48%N k) by (by rewrite rev_repeat).
  apply strip_with_fix.
  - destruct s as [|c r]; [done|]. by destruct (is_sign c).
  - destruct s as [|c r]; [by rewrite Hrev|].
    destruct (is_sign c) eqn:Hc.
    + change (c :: repeat 48%N (S k) ++ r) with ([c] ++ repeat 48%N (S k) ++ r).
      rewrite !rev_app_distr, Hrev. destruct r as [|d r']; [done|].
      simpl in H2 |- *. rewrite <- !app_assoc in *. simpl in H2 |- *.
      rewrite edge_ok_app in H2. by rewrite edge_ok_app.
    + rewrite rev_app_distr. simpl in H2 |- *.
      rewrite <- app_assoc. simpl. rewrite edge_ok_app.
      destruct (rev r); [|done]. simpl in *. by rewrite H1.
Qed.

(** ** [_clean_number] *)

Lemma clean_number_returns `{Runtime} s :
  ∃ v, _clean_number s = Return v ∧ numeric_or_null v.
Proof.
  unfold _clean_number. case_bool_decide; [by exists PyNone|].
  set (neg := paren_wrapped _). set (t := if _ && _ then _ else _).
  clearbody t neg. case_bool_decide; [by exists PyNone|].
  destruct (contains_char 46 t).
  - destruct (float_of_str t); simpl; eauto.
    + eexists; split; [done|done].
    + by exists PyNone.
  - destruct (int_of_str t); simpl.
    + eexists; split; [done|done].
    + by exists PyNone.
Qed.

Lemma clean_number_opt_returns `{Runtime} g :
  ∃ v, _clean_number_opt g = Return v ∧ numeric_or_null v.
Proof.
  destruct g as [s|]; simpl; [apply clean_number_returns|by exists PyNone].
Qed.

(** The plain runtime obeys the laws. *)
#[export] Instance plain_runtime_laws : @RuntimeLaws plain_runtime.
Proof. by split. Qed.

(** ** C10: [normalize_inn] *)

Lemma normalize_inn_cases inn :
  normalize_inn inn =
    if length (strip inn) <? 10 then zfill 10 (strip inn)
    else if length (strip inn) =? 11 then zfill 12 (strip inn)
    else strip inn.
Proof.
  unfold normalize_inn.
  destruct (length (strip inn) <? 10) eqn:H10; [done|].
  apply Nat.ltb_ge in H10.
  destruct (length (strip inn) =? 11) eqn:H11.
  - apply Nat.eqb_eq in H11. by rewrite H11.
  - apply Nat.eqb_neq in H11.
    destruct (length (strip inn) <? 12) eqn:H12; [|done].
    apply Nat.ltb_lt in H12.
    destruct (10 <? length (strip inn)) eqn:H; [apply Nat.ltb_lt in H; lia|done].
Qed.

Lemma normalize_inn_fixed s :
  strip s = s → 10 ≤ length s → length s ≠ 11 → normalize_inn s = s.
Proof.
  intros Hs H10 H11. rewrite normalize_inn_cases, Hs.
  destruct (length s <? 10) eqn:E; [apply Nat.ltb_lt in E; lia|].
  destruct (length s =? 11) eqn:E'; [apply Nat.eqb_eq in E'; lia|done].
Qed.

(** C10, as the claim words it, fails: a stripped input shorter than ten
    characters that begins with a sign is not left-padded; the zeros are put
    after the sign.  Here [normalize_inn("-1") = "-000000001"], while the
    left-padded string is ["00000000-1"]. *)
Lemma normalize_inn_sign_counterexample :
  length (strip (u "-1")) < 10
  ∧ normalize_inn (u "-1") = u "-000000001"
  ∧ left_pad_zeros 10 (strip (u "-1")) = u "00000000-1"
  ∧ normalize_inn (u "-1") ≠ left_pad_zeros 10 (strip (u "-1")).
Proof. vm_compute. repeat split; [lia|discriminate]. Qed.

(** C10, amended: [normalize_inn] strips the surrounding white space; a
    stripped string shorter than 10 characters is zero-filled to length 10
    and one of exactly 11 characters to length 12, the zeros standing in
    front of the string, or after its first character when that is a sign;
    any other string (length 10, 12 or more) is returned as stripped; and
    [normalize_inn] is idempotent. *)
Theorem normalize_inn_zero_fills (inn : pystr) :
  let t := strip inn in
  (length t < 10 →
     length (normalize_inn inn) = 10
     ∧ (has_sign t = false → normalize_inn inn = left_pad_zeros 10 t)
     ∧ (∀ c r, t = c :: r → is_sign c = true →
          normalize_inn inn = c :: repeat 48%N (10 - length t) ++ r))
  ∧ (length t = 11 →
       length (normalize_inn inn) = 12
       ∧ (has_sign t = false → normalize_inn inn = left_pad_zeros 12 t)
       ∧ (∀ c r, t = c :: r → is_sign c = true →
            normalize_inn inn = c :: repeat 48%N (12 - length t) ++ r))
  ∧ (length t = 10 ∨ 12 ≤ length t → normalize_inn inn = t)
  ∧ normalize_inn (normalize_inn inn) = normalize_inn inn.
Proof.
  intros t. pose proof (normalize_inn_cases inn) as Hc. fold t in Hc.
  pose proof (strip_idem inn) as Ht. fold t in Ht.
  split; [|split; [|split]].
  - intros Hlt. apply Nat.ltb_lt in Hlt as Hb. rewrite Hc, Hb.
    split; [rewrite zfill_length; lia|].
    split; [intros Hs; by apply zfill_unsigned|].
    intros c r Heq Hs. rewrite Heq in *. by apply zfill_signed.
  - intros H11.
    assert (E1 : (length t <? 10) = false) by (apply Nat.ltb_ge; lia).
    assert (E2 : (length t =? 11) = true) by (by apply Nat.eqb_eq).
    rewrite Hc, E1, E2.
    split; [rewrite zfill_length; lia|].
    split; [intros Hs; by apply zfill_unsigned|].
    intros c r Heq Hs. rewrite Heq in *. apply zfill_signed; [done|lia].
  - intros Hlen. rewrite Hc.
    destruct (length t <? 10) eqn:E; [apply Nat.ltb_lt in E; lia|].
    destruct (length t =? 11) eqn:E'; [apply Nat.eqb_eq in E'; lia|done].
  - rewrite Hc.
    destruct (length t <? 10) eqn:E.
    + apply Nat.ltb_lt in E. apply normalize_inn_fixed.
      * by apply zfill_strip_fix.
      * rewrite zfill_length. lia.
      * rewrite zfill_length. lia.
    + apply Nat.ltb_ge in E. destruct (length t =? 11) eqn:E'.
      * apply Nat.eqb_eq in E'. apply normalize_inn_fixed.
        -- by apply zfill_strip_fix.
        -- rewrite zfill_length. lia.
        -- rewrite zfill_length. lia.
      * apply Nat.eqb_neq in E'. by apply normalize_inn_fixed.
Qed.

(** ** C5: the numeric normaliser *)

(** C5: [_clean_number] is total on strings: on every input it returns, the
    value being a number or [None], and it never raises; and
    [_clean_number("(1 234,5)") = -1234.5], [_clean_number("") = None],
    [_clean_number("abc") = None]. *)
Theorem clean_number_total `{Runtime} `{!RuntimeLaws} :
  (∀ s, ∃ v, _clean_number s = Return v ∧ numeric_or_null v)
  ∧ _clean_number (u "(1 234,5)") = Return (PyFloat (Decimal true 12345 1))
  ∧ _clean_number (u "") = Return PyNone
  ∧ _clean_number (u "abc") = Return PyNone.
Proof.
  split; [apply clean_number_returns|].
  split; [|by split].
  unfold _clean_number.
  set (s := if _ && _ then _ else _).
  assert (Hs : s = u "1234.5") by (by vm_compute).
  rewrite Hs. clear s Hs.
  change (bool_decide (u "(1 234,5)" = [])) with false.
  change (bool_decide (u "1234.5" = [])) with false.
  change (contains_char 46 (u "1234.5")) with true.
  rewrite float_of_str_clean by (done || (vm_compute; lia)).
  by vm_compute.
Qed.

(** The claim on the plain runtime. *)
Lemma clean_number_total_witness :
  (∀ s, ∃ v, @_clean_number plain_runtime s = Return v ∧ numeric_or_null v)
  ∧ @_clean_number plain_runtime (u "(1 234,5)") = Return (PyFloat (Decimal true 12345 1))
  ∧ @_clean_number plain_runtime (u "") = Return PyNone
  ∧ @_clean_number plain_runtime (u "abc") = Return PyNone.
Proof. exact (@clean_number_total plain_runtime plain_runtime_laws). Defined.

(** ** Descendants of an element *)

Lemma Element_ind' (P : Element → Prop) :
  (∀ t a x ch, Forall P ch → P (Elem t a x ch)) → ∀ e, P e.
Proof.
  intros HP. fix IH 1. intros [t a x ch]. apply HP.
  induction ch as [|c r IHr]; constructor; [apply IH|exact IHr].
Qed.

Lemma head_filter_app {A} (P : A → Prop) `{∀ x, Decision (P x)} (a b : list A) :
  head (filter P (a ++ b))
  = match head (filter P a) with Some y => Some y | None => head (filter P b) end.
Proof. rewrite filter_app. by destruct (filter P a). Qed.

Lemma first_some_head {A B} (f : A → option B) (g : A → list B)
    (P : B → Prop) `{∀ x, Decision (P x)} (l : list A) :
  Forall (λ x, f x = head (filter P (g x))) l →
  first_some f l = head (filter P (concat_map g l)).
Proof.
  induction 1 as [|x r Hx _ IH]; [done|]. simpl. by rewrite head_filter_app, Hx, IH.
Qed.

Lemma find_from_head t e :
  find_from t e = head (filter (λ d, tag_of d = t) (iter e)).
Proof.
  induction e as [tg a x ch IH] using Element_ind'. simpl.
  rewrite filter_cons. simpl. case_bool_decide as Ht.
  - by rewrite decide_True.
  - rewrite decide_False by done. by apply first_some_head.
Qed.

Lemma find_desc_head t e :
  find_desc t e = head (filter (λ d, tag_of d = t) (concat_map iter (children_of e))).
Proof.
  unfold find_desc. apply first_some_head. apply Forall_forall. intros c _.
  apply find_from_head.
Qed.

Lemma head_filter_none {A} (P : A → Prop) `{∀ x, Decision (P x)} (l : list A) :
  head (filter P l) = None ↔ Forall (λ x, ¬ P x) l.
Proof.
  induction l as [|d l IH]; [done|]. rewrite filter_cons.
  destruct (decide (P d)) as [Hd|Hd]; simpl.
  - split; [done|]. intros [Hne _]%Forall_cons. done.
  - rewrite IH. split; [by constructor|]. by intros [_ ?]%Forall_cons.
Qed.

(** ** The table of the structured-schema parser *)

Lemma of_opt_text o : text_or_null (of_opt o).
Proof. by destruct o. Qed.

Lemma add_row3_rows key label d m :
  map_Forall (λ _, row_of 3) m → map_Forall (λ _, row_of 3) (add_row3 key label d m).
Proof.
  intros Hm. unfold add_row3. destruct (d !! key) as [t|]; [|done].
  apply map_Forall_insert_2; [|done].
  split; [done|]. repeat constructor; apply of_opt_text.
Qed.

Lemma add_row2_rows key label d m :
  map_Forall (λ _, row_of 2) m → map_Forall (λ _, row_of 2) (add_row2 key label d m).
Proof.
  intros Hm. unfold add_row2. destruct (d !! key) as [t|]; [|done].
  apply map_Forall_insert_2; [|done].
  split; [done|]. repeat constructor; apply of_opt_text.
Qed.

Lemma totals_row_rows s : row_of 3 (totals_row s).
Proof. split; [done|]. repeat constructor; apply of_opt_text. Qed.

Lemma multi_year_balance_rows b : map_Forall (λ _, row_of 3) (multi_year_balance b).
Proof.
  unfold multi_year_balance.
  assert (Ha : map_Forall (λ _ : string, row_of 3)
    match b !! "active" with
    | Some active =>
        add_row3 "intangible_assets" "Нематериальные активы" (details active)
          (add_row3 "cash" "Денежные средства" (details active)
             (add_row3 "inventory" "Запасы" (details active)
                (add_row3 "financial_investments" "Финансовые вложения" (details active)
                   (add_row3 "non_current_assets" "Внеоборотные активы" (details active)
                      (<["АКТИВ (всего)" := totals_row active]> ∅)))))
    | None => ∅
    end).
  { destruct (b !! "active") as [a|]; [|apply map_Forall_empty].
    repeat apply add_row3_rows.
    apply map_Forall_insert_2; [apply totals_row_rows|apply map_Forall_empty]. }
  destruct (b !! "passive") as [p|]; [|exact Ha].
  repeat apply add_row3_rows.
  apply map_Forall_insert_2; [apply totals_row_rows|exact Ha].
Qed.

Lemma multi_year_financial_results_rows fr :
  map_Forall (λ _, row_of 2) (multi_year_financial_results fr).
Proof.
  unfold multi_year_financial_results.
  repeat apply add_row2_rows. apply map_Forall_empty.
Qed.

Lemma years_of_length `{Runtime} y :
  (truthy y = true → length (years_of y) = 3)
  ∧ (truthy y = false → years_of y = []).
Proof.
  unfold years_of. destruct y as [s|]; [|done].
  destruct (truthy (Some s)); split; try done.
  intros _. by destruct (int_of_str s).
Qed.

Lemma parse_accounting_xml_table `{Runtime} filename root :
  x_multi_year_data (parse_accounting_xml filename (Return root)) = Some (xml_table root).
Proof. done. Qed.

(** *** The rows are the attributes of the elements *)

Lemma elem_of_concat_map {A B} (f : A → list B) (l : list A) (x : B) :
  x ∈ concat_map f l ↔ ∃ y, y ∈ l ∧ x ∈ f y.
Proof.
  induction l as [|a l IH]; simpl.
  - split; [by intros ?%elem_of_nil|by intros (? & ?%elem_of_nil & _)].
  - rewrite elem_of_app, IH. split.
    + intros [Hx|(y & Hy & Hx)]; [exists a; split; [by left|done]|].
      exists y. split; [by right|done].
    + intros (y & [->|Hy]%elem_of_cons & Hx); [by left|]. right. eauto.
Qed.

Lemma iter_self e : e ∈ iter e.
Proof. destruct e. by left. Qed.

Lemma iter_trans d e r : d ∈ iter e → e ∈ iter r → d ∈ iter r.
Proof.
  intros Hd. induction r as [t a x ch IH] using Element_ind'.
  simpl. intros [->|He]%elem_of_cons; [exact Hd|]. right.
  apply elem_of_concat_map in He as (c & Hc & He). apply elem_of_concat_map.
  exists c. split; [done|]. rewrite Forall_forall in IH. by apply IH.
Qed.

Lemma find_desc_elem t e d : find_desc t e = Some d → d ∈ iter e ∧ tag_of d = t.
Proof.
  rewrite find_desc_head. intros Hh.
  assert (Hin : d ∈ filter (λ d, tag_of d = t) (concat_map iter (children_of e))).
  { destruct (filter _ _) as [|y l]; [done|]. injection Hh as ->. by left. }
  apply list_elem_of_filter in Hin as [Ht Hin]. split; [|done].
  destruct e as [tg a x ch]. simpl in *. by right.
Qed.

Lemma add_triple_from root tags tag key parent d :
  parent ∈ iter root → (key, tag) ∈ tags →
  map_Forall (row_from root tags sums3) d →
  map_Forall (row_from root tags sums3) (add_triple tag key parent d).
Proof.
  intros Hp Hk Hd. unfold add_triple. destruct (find_desc tag parent) as [e|] eqn:He; [|done].
  apply find_desc_elem in He as [He Ht]. apply map_Forall_insert_2; [|done].
  exists tag, e. split; [done|]. split; [by eapply iter_trans|done].
Qed.

Lemma add_pair_from root tags tag key parent d :
  parent ∈ iter root → (key, tag) ∈ tags →
  map_Forall (row_from root tags sums2) d →
  map_Forall (row_from root tags sums2) (add_pair tag key parent d).
Proof.
  intros Hp Hk Hd. unfold add_pair. destruct (find_desc tag parent) as [e|] eqn:He; [|done].
  apply find_desc_elem in He as [He Ht]. apply map_Forall_insert_2; [|done].
  exists tag, e. split; [done|]. split; [by eapply iter_trans|done].
Qed.

Ltac listed := repeat constructor.

Ltac one_tag :=
  let tg := fresh "tg" in
  let Hin := fresh "Hin" in
  intros tg Hin;
  repeat (apply elem_of_cons in Hin as [Hin|Hin]; [by simplify_eq|]);
  by apply elem_of_nil in Hin.

Lemma active_side_from root act :
  act ∈ iter root → tag_of act = "Актив" →
  side_from root "Актив" active_detail_tags (active_side act).
Proof.
  intros Ha Ht. split; [by exists act|]. unfold active_side. cbv zeta. simpl details.
  repeat (apply add_triple_from; [done|listed|]). apply map_Forall_empty.
Qed.

Lemma passive_side_from root pas :
  pas ∈ iter root → tag_of pas = "Пассив" →
  side_from root "Пассив" passive_detail_tags (passive_side pas).
Proof.
  intros Ha Ht. split; [by exists pas|]. unfold passive_side. cbv zeta. simpl details.
  repeat (apply add_triple_from; [done|listed|]). apply map_Forall_empty.
Qed.

Lemma balance_of_lookup bal :
  balance_of bal !! "active" = active_side <$> find_desc "Актив" bal
  ∧ balance_of bal !! "passive" = passive_side <$> find_desc "Пассив" bal.
Proof.
  unfold balance_of. cbv zeta.
  destruct (find_desc "Актив" bal), (find_desc "Пассив" bal); simpl; split;
    rewrite ?lookup_insert_eq, ?lookup_insert_ne, ?lookup_insert_eq, ?lookup_empty by done;
    done.
Qed.

Lemma add_row3_from root key label tag tags d m :
  map_Forall (row_from root tags sums3) d →
  (∀ tg, (key, tg) ∈ tags → tg = tag) → (label, tag) ∈ balance_row_tags →
  map_Forall (row_from root balance_row_tags attr_row3) m →
  map_Forall (row_from root balance_row_tags attr_row3) (add_row3 key label d m).
Proof.
  intros Hd Htag Hl Hm. unfold add_row3. destruct (d !! key) as [t|] eqn:Hk; [|done].
  apply map_Forall_insert_2; [|done].
  destruct (Hd key t Hk) as (tg & e & Hin & He & Ht & ->).
  rewrite (Htag tg Hin) in Ht. by exists tag, e.
Qed.

Lemma add_row2_from root key label tag d m :
  map_Forall (row_from root financial_key_tags sums2) d →
  (∀ tg, (key, tg) ∈ financial_key_tags → tg = tag) → (label, tag) ∈ financial_row_tags →
  map_Forall (row_from root financial_row_tags attr_row2) m →
  map_Forall (row_from root financial_row_tags attr_row2) (add_row2 key label d m).
Proof.
  intros Hd Htag Hl Hm. unfold add_row2. destruct (d !! key) as [t|] eqn:Hk; [|done].
  apply map_Forall_insert_2; [|done].
  destruct (Hd key t Hk) as (tg & e & Hin & He & Ht & ->).
  rewrite (Htag tg Hin) in Ht. by exists tag, e.
Qed.

Lemma multi_year_balance_from root balance :
  (∀ s, balance !! "active" = Some s → side_from root "Актив" active_detail_tags s) →
  (∀ s, balance !! "passive" = Some s → side_from root "Пассив" passive_detail_tags s) →
  map_Forall (row_from root balance_row_tags attr_row3) (multi_year_balance balance).
Proof.
  intros Ha Hp. unfold multi_year_balance. cbv zeta.
  assert (Hact : map_Forall (row_from root balance_row_tags attr_row3)
            match balance !! "active" with
            | Some active =>
                add_row3 "intangible_assets" "Нематериальные активы" (details active)
                  (add_row3 "cash" "Денежные средства" (details active)
                    (add_row3 "inventory" "Запасы" (details active)
                      (add_row3 "financial_investments" "Финансовые вложения"
                         (details active)
                        (add_row3 "non_current_assets" "Внеоборотные активы"
                           (details active)
                           (<["АКТИВ (всего)" := totals_row active]> ∅)))))
            | None => ∅
            end).
  { destruct (balance !! "active") as [s|] eqn:Hs; [|apply map_Forall_empty].
    destruct (Ha s eq_refl) as [(e & He & Ht & Hrow) Hd].
    repeat (eapply add_row3_from; [exact Hd|one_tag|listed|]).
    apply map_Forall_insert_2; [|apply map_Forall_empty].
    exists "Актив", e. split; [listed|done]. }
  revert Hact. generalize (match balance !! "active" with
            | Some active =>
                add_row3 "intangible_assets" "Нематериальные активы" (details active)
                  (add_row3 "cash" "Денежные средства" (details active)
                    (add_row3 "inventory" "Запасы" (details active)
                      (add_row3 "financial_investments" "Финансовые вложения"
                         (details active)
                        (add_row3 "non_current_assets" "Внеоборотные активы"
                           (details active)
                           (<["АКТИВ (всего)" := totals_row active]> ∅)))))
            | None => ∅
            end).
  intros m Hm. destruct (balance !! "passive") as [s|] eqn:Hs; [|done].
  destruct (Hp s eq_refl) as [(e & He & Ht & Hrow) Hd].
  repeat (eapply add_row3_from; [exact Hd|one_tag|listed|]).
  apply map_Forall_insert_2; [|done].
  exists "Пассив", e. split; [listed|done].
Qed.

Lemma financial_results_of_from root fr :
  fr ∈ iter root →
  map_Forall (row_from root financial_key_tags sums2) (financial_results_of fr).
Proof.
  intros Hf. unfold financial_results_of. cbv zeta.
  repeat (apply add_pair_from; [done|listed|]). apply map_Forall_empty.
Qed.

Lemma multi_year_financial_results_from root frm :
  map_Forall (row_from root financial_key_tags sums2) frm →
  map_Forall (row_from root financial_row_tags attr_row2) (multi_year_financial_results frm).
Proof.
  intros Hd. unfold multi_year_financial_results. cbv zeta.
  repeat (eapply add_row2_from; [exact Hd|one_tag|listed|]). apply map_Forall_empty.
Qed.

Lemma xml_table_from `{Runtime} root :
  map_Forall (row_from root balance_row_tags attr_row3) (my_balance (xml_table root))
  ∧ map_Forall (row_from root financial_row_tags attr_row2)
      (my_financial_results (xml_table root)).
Proof.
  unfold xml_table, build_multi_year. cbv zeta. simpl my_balance. simpl my_financial_results.
  destruct (find_desc "Документ" root) as [doc|] eqn:Hdoc; simpl.
  2: { split; apply map_Forall_empty. }
  apply find_desc_elem in Hdoc as [Hdoc _]. split.
  - case_bool_decide; [apply map_Forall_empty|].
    destruct (find_desc "Баланс" doc) as [bal|] eqn:Hbal; [|apply map_Forall_empty].
    apply find_desc_elem in Hbal as [Hbal _].
    assert (Hb : bal ∈ iter root) by by eapply iter_trans.
    simpl. destruct (balance_of_lookup bal) as [Hla Hlp].
    apply multi_year_balance_from; intros s Hs.
    + rewrite Hla in Hs. destruct (find_desc "Актив" bal) as [act|] eqn:Ha; [|done].
      injection Hs as <-. apply find_desc_elem in Ha as [Ha Ht].
      apply active_side_from; [by eapply iter_trans|done].
    + rewrite Hlp in Hs. destruct (find_desc "Пассив" bal) as [pas|] eqn:Ha; [|done].
      injection Hs as <-. apply find_desc_elem in Ha as [Ha Ht].
      apply passive_side_from; [by eapply iter_trans|done].
  - case_bool_decide; [apply map_Forall_empty|].
    destruct (find_desc "ФинРез" doc) as [fr|] eqn:Hfr; [|apply map_Forall_empty].
    apply find_desc_elem in Hfr as [Hfr _]. simpl.
    apply multi_year_financial_results_from, financial_results_of_from.
    by eapply iter_trans.
Qed.

Lemma xml_table_rows `{Runtime} root :
  map_Forall (λ _, row_of 3) (my_balance (xml_table root))
  ∧ map_Forall (λ _, row_of 2) (my_financial_results (xml_table root)).
Proof.
  unfold xml_table, build_multi_year. simpl. split.
  - case_bool_decide; [apply map_Forall_empty|apply multi_year_balance_rows].
  - case_bool_decide; [apply map_Forall_empty|apply multi_year_financial_results_rows].
Qed.

(** ** The table built from the text parser *)

Lemma bind_return {A B} (m : outcome A) (f : A → outcome B) b :
  m ≫= f = Return b → ∃ a, m = Return a ∧ f a = Return b.
Proof. destruct m as [a|e]; simpl; [eauto|done]. Qed.

Lemma scan_items_numeric `{Runtime} its window a p a' p' :
  map_Forall (λ _, numeric_or_null) a → map_Forall (λ _, numeric_or_null) p →
  scan_items its window a p = Return (a', p') →
  map_Forall (λ _, numeric_or_null) a' ∧ map_Forall (λ _, numeric_or_null) p'.
Proof.
  revert a p. induction its as [|[label pat] rest IH]; intros a p Ha Hp; simpl.
  - intros [= <- <-]. done.
  - destruct (re_search pat true window) as [m|]; [|by apply IH].
    destruct (clean_number_opt_returns (m_group m 1)) as (v & Hv & Hnum).
    rewrite Hv. simpl.
    destruct (_ || _); apply IH; try done; by apply map_Forall_insert_2.
Qed.

Lemma set_total_numeric key v b :
  numeric_or_null v → map_Forall (λ _, side_numeric) b →
  map_Forall (λ _, side_numeric) (set_total key v b).
Proof.
  intros Hv Hb. unfold set_total. apply map_Forall_insert_2; [|done].
  split; simpl.
  - by intros ? [= <-].
  - intros d Hd. destruct (b !! key) as [sd|] eqn:E; simpl in Hd; [|done].
    by apply (Hb _ _ E).
Qed.

Lemma set_details_numeric key d b :
  map_Forall (λ _, numeric_or_null) d → map_Forall (λ _, side_numeric) b →
  map_Forall (λ _, side_numeric) (set_details key d b).
Proof.
  intros Hd Hb. unfold set_details. apply map_Forall_insert_2; [|done].
  split; simpl.
  - intros v Hv. destruct (b !! key) as [sd|] eqn:E; simpl in Hv; [|done].
    by apply (Hb _ _ E).
  - by intros ? [= <-].
Qed.

Lemma find_balance_numeric `{Runtime} txt rt b :
  find_balance txt = Return (rt, b) → map_Forall (λ _, side_numeric) b.
Proof.
  unfold find_balance.
  destruct (re_search pat_balance true txt) as [bm|];
    [|intros [= <- <-]; apply map_Forall_empty].
  intros Hb. apply bind_return in Hb as ([ad pd] & Hscan & Hb).
  apply scan_items_numeric in Hscan as [Had Hpd]; [|apply map_Forall_empty..].
  apply bind_return in Hb as (b1 & Hb1 & Hb).
  apply bind_return in Hb as (b2 & Hb2 & Hb).
  injection Hb as <- <-.
  assert (H1 : map_Forall (λ _, side_numeric) b1).
  { destruct (re_search pat_total_active true _) as [m|].
    - destruct (clean_number_opt_returns (m_group m 2)) as (v & Hv & Hnum).
      rewrite Hv in Hb1. injection Hb1 as <-.
      apply set_total_numeric; [done|apply map_Forall_empty].
    - injection Hb1 as <-. apply map_Forall_empty. }
  assert (H2 : map_Forall (λ _, side_numeric) b2).
  { destruct (re_search pat_total_passive true _) as [m|].
    - destruct (clean_number_opt_returns (m_group m 2)) as (v & Hv & Hnum).
      rewrite Hv in Hb2. injection Hb2 as <-.
      by apply set_total_numeric.
    - by injection Hb2 as <-. }
  repeat case_bool_decide; repeat apply set_details_numeric; done.
Qed.

Lemma scan_fin_numeric `{Runtime} pats txt fr fr' :
  map_Forall (λ _, numeric_or_null) fr →
  scan_fin pats txt fr = Return fr' → map_Forall (λ _, numeric_or_null) fr'.
Proof.
  revert fr. induction pats as [|[key patt] rest IH]; intros fr Hfr; simpl.
  - by intros [= <-].
  - destruct (re_search patt true txt) as [m|]; [|by apply IH].
    destruct (clean_number_opt_returns (pick_group patt m)) as (v & Hv & Hnum).
    rewrite Hv. simpl. apply IH. by apply map_Forall_insert_2.
Qed.

Lemma parse_accounting_from_text_numeric `{Runtime} text parsed bal fin :
  parse_accounting_from_text text = Return parsed →
  t_structured_data parsed = Some (bal, fin) →
  map_Forall (λ _, side_numeric) bal ∧ map_Forall (λ _, numeric_or_null) fin.
Proof.
  unfold parse_accounting_from_text. destruct (_ || _).
  - by intros [= <-].
  - intros Hp. apply bind_return in Hp as ([rt b] & Hb & Hp).
    apply bind_return in Hp as (fr & Hfr & Hp).
    injection Hp as <-. simpl. intros [= <- <-]. split.
    + by apply find_balance_numeric in Hb.
    + apply scan_fin_numeric in Hfr; [done|apply map_Forall_empty].
Qed.

Lemma side_rows_unit balance key label m :
  map_Forall (λ _, side_numeric) balance →
  map_Forall (λ _, unit_row) m → map_Forall (λ _, unit_row) (side_rows balance key label m).
Proof.
  intros Hb Hm. unfold side_rows.
  destruct (balance !! key) as [sd|] eqn:E; [|done].
  destruct (truthy_side sd); [|done].
  destruct (Hb _ _ E) as [Ht Hd].
  assert (Hm' : map_Forall (λ _, unit_row)
    match h_total_current sd with
    | Some v => if truthy_val v then <[label := [v]]> m else m
    | None => m
    end).
  { destruct (h_total_current sd) as [v|]; [|done].
    destruct (truthy_val v); [|done].
    apply map_Forall_insert_2; [|done]. split; [done|]. constructor; [|done]. by apply Ht. }
  destruct (h_details sd) as [d|]; [|done].
  apply map_Forall_union_2; [|done].
  intros k row Hk. apply lookup_fmap_Some in Hk as (v & <- & Hv).
  split; [done|]. constructor; [|done]. by apply (Hd d eq_refl k v).
Qed.

Lemma fin_row_unit fin key label m :
  map_Forall (λ _, numeric_or_null) fin →
  map_Forall (λ _, unit_row) m → map_Forall (λ _, unit_row) (fin_row fin key label m).
Proof.
  intros Hf Hm. unfold fin_row. destruct (fin !! key) as [v|] eqn:E; [|done].
  apply map_Forall_insert_2; [|done]. split; [done|]. constructor; [|done].
  by apply (Hf _ _ E).
Qed.

Lemma multi_year_of_text_rows year bal fin :
  map_Forall (λ _, side_numeric) bal → map_Forall (λ _, numeric_or_null) fin →
  length (years (multi_year_of_text year bal fin)) = 1
  ∧ map_Forall (λ _, unit_row) (my_balance (multi_year_of_text year bal fin))
  ∧ map_Forall (λ _, unit_row) (my_financial_results (multi_year_of_text year bal fin)).
Proof.
  intros Hb Hf. unfold multi_year_of_text. simpl. split; [done|]. split.
  - case_bool_decide; [apply map_Forall_empty|].
    repeat apply side_rows_unit; first [done|apply map_Forall_empty].
  - case_bool_decide; [apply map_Forall_empty|].
    repeat apply fin_row_unit; first [done|apply map_Forall_empty].
Qed.

Lemma parsed_keys_rows `{Runtime} joined my :
  multi_year_data (parsed_keys joined) = Some my →
  length (years my) = 1
  ∧ map_Forall (λ _, unit_row) (my_balance my)
  ∧ map_Forall (λ _, unit_row) (my_financial_results my).
Proof.
  unfold parsed_keys.
  destruct (parse_accounting_from_text joined) as [parsed|e] eqn:Hp; simpl; [|done].
  destruct (_ || _); [|done]. intros [= <-].
  destruct (t_structured_data parsed) as [[bal fin]|] eqn:Hsd; simpl.
  - destruct (parse_accounting_from_text_numeric _ _ _ _ Hp Hsd) as [Hb Hf].
    by apply (multi_year_of_text_rows None).
  - apply (multi_year_of_text_rows None); apply map_Forall_empty.
Qed.

#[export] Instance sample_runtime_laws : @RuntimeLaws sample_runtime.
Proof. by split. Qed.

(** ** C1: the length of the sequences *)

Lemma full_doc_revenue_row :
  my_financial_results (@xml_table plain_runtime full_doc) !! "Выручка"
    = Some [PyStr (u "7"); PyStr (u "6")].
Proof. vm_compute. reflexivity. Qed.

Lemma full_doc_years : length (years (@xml_table plain_runtime full_doc)) = 3.
Proof. vm_compute. reflexivity. Qed.

(** C1, as the claim words it, fails: in the table [parse_accounting_xml]
    builds for a document with an income block, the row of the revenue has
    two positions under three year labels. *)
Lemma financial_rows_shorter_counterexample :
  ∃ my row,
    x_multi_year_data (@parse_accounting_xml plain_runtime (u "report.xml") (Return full_doc))
      = Some my
    ∧ my_financial_results my !! "Выручка" = Some row
    ∧ length row = 2
    ∧ length (years my) = 3
    ∧ ¬ aligned my.
Proof.
  exists (@xml_table plain_runtime full_doc), [PyStr (u "7"); PyStr (u "6")].
  split; [reflexivity|]. split; [exact full_doc_revenue_row|].
  split; [reflexivity|]. split; [exact full_doc_years|].
  intros [_ Hfin]. specialize (Hfin _ _ full_doc_revenue_row).
  rewrite full_doc_years in Hfin. discriminate.
Qed.

(** C1, amended: in every table [parse_accounting_xml] builds, each
    sequence under [balance] has exactly 3 positions and each sequence under
    [financial_results] exactly 2 (current, previous), an absent attribute
    being an explicit null; [years] has 3 labels when the report year is
    present and non-empty and none otherwise, so that the balance sequences
    are as long as [years] whenever the report year is known.  In every
    table built from the text parser [years] has one label and every
    sequence one position. *)
Theorem multi_year_shape `{Runtime} :
  (∀ filename root my,
     x_multi_year_data (parse_accounting_xml filename (Return root)) = Some my →
     map_Forall (λ _ row, length row = 3) (my_balance my)
     ∧ map_Forall (λ _ row, length row = 2) (my_financial_results my)
     ∧ (length (years my) = 3 ∨ years my = [])
     ∧ (truthy (x_report_year (parse_accounting_xml filename (Return root))) = true →
          length (years my) = 3
          ∧ map_Forall (λ _ row, length row = length (years my)) (my_balance my))
     ∧ (truthy (x_report_year (parse_accounting_xml filename (Return root))) = false →
          years my = []))
  ∧ (∀ joined my,
       multi_year_data (parsed_keys joined) = Some my →
       length (years my) = 1 ∧ aligned my).
Proof.
  split.
  - intros filename root my. rewrite parse_accounting_xml_table. intros [= <-].
    destruct (xml_table_rows root) as [Hb Hf].
    assert (Hb3 : map_Forall (λ _ row, length row = 3) (my_balance (xml_table root))).
    { intros k row Hk. by destruct (Hb k row Hk). }
    split; [done|]. split; [intros k row Hk; by destruct (Hf k row Hk)|].
    pose proof (years_of_length (find_desc "Документ" root ≫= get_attr "ОтчетГод")) as [Hy1 Hy0].
    split.
    + simpl. destruct (truthy _); [left; by apply Hy1|right; by apply Hy0].
    + split; [|exact Hy0].
      simpl. intros Ht. specialize (Hy1 Ht). split; [done|].
      intros k row Hk. simpl in *. rewrite Hy1. by apply (Hb3 k row).
  - intros joined my Hmy. apply parsed_keys_rows in Hmy as (Hy & Hb & Hf).
    split; [done|]. split; intros k row Hk; rewrite Hy.
    + by destruct (Hb k row Hk).
    + by destruct (Hf k row Hk).
Qed.

(** The tables of [full_doc] and of the transcript ["Выручка 1 000 000"]. *)
Lemma multi_year_shape_witness :
  (map_Forall (λ _ row, length row = 3) (my_balance (@xml_table sample_runtime full_doc))
   ∧ map_Forall (λ _ row, length row = 2)
       (my_financial_results (@xml_table sample_runtime full_doc))
   ∧ (length (years (@xml_table sample_runtime full_doc)) = 3
      ∨ years (@xml_table sample_runtime full_doc) = [])
   ∧ (truthy (x_report_year
                (@parse_accounting_xml sample_runtime (u "report.xml") (Return full_doc)))
        = true →
      length (years (@xml_table sample_runtime full_doc)) = 3
      ∧ map_Forall (λ _ row, length row = length (years (@xml_table sample_runtime full_doc)))
          (my_balance (@xml_table sample_runtime full_doc)))
   ∧ (truthy (x_report_year
                (@parse_accounting_xml sample_runtime (u "report.xml") (Return full_doc)))
        = false →
      years (@xml_table sample_runtime full_doc) = []))
  ∧ (map_Forall (λ _ row, length row = 3) (my_balance (@xml_table sample_runtime bare_doc))
     ∧ map_Forall (λ _ row, length row = 2)
         (my_financial_results (@xml_table sample_runtime bare_doc))
     ∧ (length (years (@xml_table sample_runtime bare_doc)) = 3
        ∨ years (@xml_table sample_runtime bare_doc) = [])
     ∧ (truthy (x_report_year
                  (@parse_accounting_xml sample_runtime (u "report.xml") (Return bare_doc)))
          = true →
        length (years (@xml_table sample_runtime bare_doc)) = 3
        ∧ map_Forall
            (λ _ row, length row = length (years (@xml_table sample_runtime bare_doc)))
            (my_balance (@xml_table sample_runtime bare_doc)))
     ∧ (truthy (x_report_year
                  (@parse_accounting_xml sample_runtime (u "report.xml") (Return bare_doc)))
          = false →
        years (@xml_table sample_runtime bare_doc) = []))
  ∧ (length (years (multi_year_of_text None ∅ {[ "revenue" := PyInt 1000000 ]})) = 1
     ∧ aligned (multi_year_of_text None ∅ {[ "revenue" := PyInt 1000000 ]})).
Proof.
  split; [|split].
  - apply (proj1 (@multi_year_shape sample_runtime) (u "report.xml") full_doc).
    reflexivity.
  - apply (proj1 (@multi_year_shape sample_runtime) (u "report.xml") bare_doc).
    reflexivity.
  - apply (proj2 (@multi_year_shape sample_runtime) (u "Выручка 1 000 000")).
    vm_compute. reflexivity.
Defined.

(** ** C2: what the sequences hold *)

Lemma full_doc_active_row :
  my_balance (@xml_table plain_runtime full_doc) !! "АКТИВ (всего)"
    = Some [PyStr (u "100"); PyStr (u "90"); PyNone].
Proof. vm_compute. reflexivity. Qed.

(** C2, as the claim words it, fails: the table [parse_accounting_xml]
    builds holds the attribute texts of the markup as they were read; the
    total of the active side of [full_doc] is the string ["100"], not a
    number. *)
Lemma raw_strings_counterexample :
  ∃ my,
    x_multi_year_data (@parse_accounting_xml plain_runtime (u "report.xml") (Return full_doc))
      = Some my
    ∧ my_balance my !! "АКТИВ (всего)" = Some [PyStr (u "100"); PyStr (u "90"); PyNone]
    ∧ ¬ all_values numeric_or_null my.
Proof.
  exists (@xml_table plain_runtime full_doc).
  split; [reflexivity|]. split; [exact full_doc_active_row|].
  intros [Hbal _]. specialize (Hbal _ _ full_doc_active_row).
  apply Forall_cons in Hbal as [Hv _]. exact Hv.
Qed.

(** C2, amended: every element of every sequence of a table built from the
    text parser is a number or null, each having passed through
    [_clean_number]; every element of every sequence of a table built by
    [parse_accounting_xml] is null or the text of an attribute exactly as
    the markup gave it, never a number: that parser does not call the
    normaliser.  Each row of its balance is, position by position, what
    [get] gives for [СумОтч], [СумПрдШв] and [СумПрдЩ] on an element of the
    document that has the tag of the row, and each row of its income
    statement what [get] gives for [СумОтч] and [СумПред]. *)
Theorem multi_year_values `{Runtime} :
  (∀ joined my,
     multi_year_data (parsed_keys joined) = Some my → all_values numeric_or_null my)
  ∧ (∀ filename root my,
       x_multi_year_data (parse_accounting_xml filename (Return root)) = Some my →
       all_values text_or_null my)
  ∧ (∀ filename root doc balance active,
       find_desc "Документ" root = Some doc →
       find_desc "Баланс" doc = Some balance →
       find_desc "Актив" balance = Some active →
       x_balance (parse_accounting_xml filename (Return root)) !! "active"
         = Some (active_side active)
       ∧ totals_row (active_side active)
         = [of_opt (get_attr "СумОтч" active); of_opt (get_attr "СумПрдШв" active);
            of_opt (get_attr "СумПрдЩ" active)])
  ∧ (∀ filename root my,
       x_multi_year_data (parse_accounting_xml filename (Return root)) = Some my →
       map_Forall (row_from root balance_row_tags attr_row3) (my_balance my)
       ∧ map_Forall (row_from root financial_row_tags attr_row2)
           (my_financial_results my)).
Proof.
  split; [|split; [|split]]; cycle 3.
  { intros filename root my. rewrite parse_accounting_xml_table. intros [= <-].
    apply xml_table_from. }
  - intros joined my Hmy. apply parsed_keys_rows in Hmy as (_ & Hb & Hf).
    split; intros k row Hk.
    + by destruct (Hb k row Hk).
    + by destruct (Hf k row Hk).
  - intros filename root my. rewrite parse_accounting_xml_table. intros [= <-].
    destruct (xml_table_rows root) as [Hb Hf].
    split; intros k row Hk.
    + by destruct (Hb k row Hk).
    + by destruct (Hf k row Hk).
  - intros filename root doc balance active Hdoc Hbal Hact. split; [|done].
    simpl. rewrite Hdoc. simpl. rewrite Hbal. simpl.
    unfold balance_of. rewrite Hact.
    destruct (find_desc "Пассив" balance).
    + rewrite lookup_insert_ne by done. apply lookup_insert_eq.
    + apply lookup_insert_eq.
Qed.

(** The tables of the transcript ["Выручка 1 000 000"] and of [full_doc]. *)
Lemma multi_year_values_witness :
  all_values numeric_or_null (multi_year_of_text None ∅ {[ "revenue" := PyInt 1000000 ]})
  ∧ all_values text_or_null (@xml_table sample_runtime full_doc)
  ∧ map_Forall (row_from full_doc balance_row_tags attr_row3)
      (my_balance (@xml_table sample_runtime full_doc))
  ∧ map_Forall (row_from full_doc financial_row_tags attr_row2)
      (my_financial_results (@xml_table sample_runtime full_doc)).
Proof.
  split; [|split].
  - apply (proj1 (@multi_year_values sample_runtime) (u "Выручка 1 000 000")).
    vm_compute. reflexivity.
  - apply (proj1 (proj2 (@multi_year_values sample_runtime)) (u "report.xml") full_doc).
    reflexivity.
  - apply (proj2 (proj2 (proj2 (@multi_year_values sample_runtime)))
             (u "report.xml") full_doc).
    reflexivity.
Defined.

(** ** C3: the success flag *)

(** C3, as the claim words it, fails: well-formed markup without a
    [Документ] element is parsed with [success = true] although its table
    has no year, no row and so no number. *)
Lemma empty_success_counterexample :
  x_success (@parse_accounting_xml plain_runtime (u "report.xml") (Return bare_doc)) = true
  ∧ x_multi_year_data (@parse_accounting_xml plain_runtime (u "report.xml") (Return bare_doc))
    = Some (MultiYear [] ∅ ∅)
  ∧ ¬ has_number (MultiYear [] ∅ ∅).
Proof.
  split; [reflexivity|]. split; [vm_compute; reflexivity|].
  intros (k & row & v & [Hk|Hk] & _); simpl in Hk; by rewrite lookup_empty in Hk.
Qed.

(** C3, amended: [parse_accounting_xml] sets [success = true] exactly when
    the markup was read and parsed without an exception; [multi_year_data]
    is then present, whatever it holds (it may have no year and no row); a
    result with [success = false] has no [multi_year_data] and carries the
    parser's error. *)
Theorem success_means_parsed `{Runtime} filename (markup : outcome Element) :
  let r := parse_accounting_xml filename markup in
  (x_success r = true ↔ ∃ root, markup = Return root)
  ∧ (x_success r = true ↔ is_Some (x_multi_year_data r))
  ∧ (x_success r = false ↔ x_multi_year_data r = None)
  ∧ (x_success r = false → ∃ e, markup = Raise e ∧ x_error r = Some (exn_str e)).
Proof.
  destruct markup as [root|e]; simpl.
  - split; [split; eauto|]. split; [split; eauto|].
    split; [split; done|done].
  - split; [split; [done|by intros [? ?]]|].
    split; [split; [done|by intros [? ?]]|].
    split; [done|]. eauto.
Qed.

(** ** C6: a document with a balance block only *)




Lemma balance_only_doc_years :
  years (@xml_table plain_runtime balance_only_doc)
    = [Some (u "2023"); Some (u "2022"); Some (u "2021")]
  ∧ my_balance (@xml_table plain_runtime balance_only_doc) !! "Запасы"
    = Some [PyStr (u "5"); PyNone; PyNone].
Proof. split; vm_compute; reflexivity. Qed.

(** ** Occurrences of a separator *)

Lemma starts_with_before sep j c r :
  c ∉ sep → starts_with sep (j ++ c :: r) = starts_with sep j.
Proof.
  revert j. induction sep as [|a sep IH]; intros j Hc; [by destruct j|].
  apply not_elem_of_cons in Hc as [Hac Hc].
  destruct j as [|b j]; simpl.
  - destruct (N.eqb_spec a c); [congruence|done].
  - by rewrite IH.
Qed.

Lemma find_sub_unfold sep s :
  find_sub sep s =
    if starts_with sep s then Some 0
    else match s with
         | [] => None
         | _ :: r => S <$> find_sub sep r
         end.
Proof. by destruct s. Qed.

Lemma find_sub_none_inv sep x s :
  find_sub sep (x :: s) = None → starts_with sep (x :: s) = false ∧ find_sub sep s = None.
Proof.
  rewrite find_sub_unfold. destruct (starts_with sep (x :: s)); [done|].
  by destruct (find_sub sep s).
Qed.

Lemma find_sub_cons sep x s :
  starts_with sep (x :: s) = false → find_sub sep (x :: s) = S <$> find_sub sep s.
Proof. intros Hs. by rewrite find_sub_unfold, Hs. Qed.

(** An occurrence cannot start in a part that is free of the separator and
    is followed by a character the separator does not hold. *)
Lemma find_sub_past sep j c r :
  c ∉ sep → sep ≠ [] → find_sub sep j = None →
  find_sub sep (j ++ c :: r) = (λ k, length j + 1 + k) <$> find_sub sep r.
Proof.
  intros Hc Hne. induction j as [|b j IH]; intros Hj.
  - simpl app. rewrite find_sub_cons.
    + by destruct (find_sub sep r).
    + destruct sep as [|a sep]; [done|]. simpl.
      apply not_elem_of_cons in Hc as [Hac _].
      destruct (N.eqb_spec a c); [congruence|done].
  - apply find_sub_none_inv in Hj as [Hs Hj].
    change ((b :: j) ++ c :: r) with (b :: (j ++ c :: r)).
    rewrite find_sub_cons.
    + rewrite IH by done. by destruct (find_sub sep r).
    + change (b :: (j ++ c :: r)) with ((b :: j) ++ c :: r).
      by rewrite starts_with_before.
Qed.

Lemma find_sub_end sep j c :
  c ∉ sep → sep ≠ [] → find_sub sep j = None → find_sub sep (j ++ [c]) = None.
Proof.
  intros Hc Hne Hj. rewrite find_sub_past by done.
  destruct sep; [done|done].
Qed.

Lemma starts_with_app p t s : starts_with (p ++ t) s = true → starts_with p s = true.
Proof.
  revert s. induction p as [|a p IH]; intros s; [done|].
  destruct s as [|b s]; simpl; [done|].
  intros H. apply andb_true_iff in H as [-> H]. by apply IH.
Qed.

Lemma find_sub_longer p t s : find_sub p s = None → find_sub (p ++ t) s = None.
Proof.
  induction s as [|x s IH]; intros Hs.
  - rewrite find_sub_unfold in *. destruct (starts_with (p ++ t) []) eqn:E; [|done].
    apply starts_with_app in E. by rewrite E in Hs.
  - apply find_sub_none_inv in Hs as [Hst Hs].
    rewrite find_sub_cons.
    + by rewrite IH.
    + destruct (starts_with (p ++ t) (x :: s)) eqn:E; [|done].
      apply starts_with_app in E. congruence.
Qed.

Lemma starts_with_extend sep a b :
  starts_with sep a = true → starts_with sep (a ++ b) = true.
Proof.
  revert a. induction sep as [|x sep IH]; intros a; [done|].
  destruct a as [|y a]; simpl; [done|].
  intros H. apply andb_true_iff in H as [-> H]. by rewrite IH.
Qed.

Lemma find_sub_none_app sep a b :
  find_sub sep (a ++ b) = None → find_sub sep a = None ∧ find_sub sep b = None.
Proof.
  induction a as [|x a IH]; intros H.
  - split; [|done]. destruct sep; [by rewrite find_sub_unfold in H|done].
  - change ((x :: a) ++ b) with (x :: (a ++ b)) in H.
    apply find_sub_none_inv in H as [Hst H]. destruct (IH H) as [Ha Hb].
    split; [|done]. rewrite find_sub_cons; [by rewrite Ha|].
    destruct (starts_with sep (x :: a)) eqn:E; [|done].
    apply (starts_with_extend _ _ b) in E.
    change ((x :: a) ++ b) with (x :: (a ++ b)) in E. congruence.
Qed.

Lemma lstrip_suffix p s : ∃ a, s = a ++ lstrip_with p s.
Proof.
  induction s as [|c s [a IH]]; [by exists []|]. simpl.
  destruct (p c); [|by exists []]. exists (c :: a). simpl. by rewrite <- IH.
Qed.

Lemma rstrip_prefix p s : ∃ b, s = rstrip_with p s ++ b.
Proof.
  unfold rstrip_with. destruct (lstrip_suffix p (rev s)) as [a Ha].
  exists (rev a). rewrite <- rev_app_distr, <- Ha. by rewrite rev_involutive.
Qed.

Lemma find_sub_strip sep s : find_sub sep s = None → find_sub sep (strip s) = None.
Proof.
  intros H. unfold strip, strip_with.
  destruct (lstrip_suffix isspace s) as [a Ha]. rewrite Ha in H.
  apply find_sub_none_app in H as [_ H].
  destruct (rstrip_prefix isspace (lstrip_with isspace s)) as [b Hb]. rewrite Hb in H.
  by apply find_sub_none_app in H as [H _].
Qed.

Lemma strip_between j : strip (10%N :: j ++ [10%N]) = strip j.
Proof.
  unfold strip, strip_with. change (lstrip_with isspace (10%N :: j ++ [10%N]))
    with (lstrip_with isspace (j ++ [10%N])).
  assert (Hl : lstrip_with isspace (j ++ [10%N]) =
               match lstrip_with isspace j with [] => [] | l => l ++ [10%N] end).
  { induction j as [|c j IH]; [done|]. simpl. destruct (isspace c); [exact IH|done]. }
  rewrite Hl. destruct (lstrip_with isspace j) as [|c l]; [done|].
  unfold rstrip_with. change ((c :: l) ++ [10%N]) with ((c :: l) ++ [10%N]).
  by rewrite rev_app_distr.
Qed.

Lemma item0_split_fuel n sep r :
  sep ≠ [] → length r ≤ n → item 0 (split_fuel n sep r) = before sep r.
Proof.
  intros Hne Hlen. unfold before. destruct n as [|n]; simpl.
  - destruct r; [|simpl in Hlen; lia]. by destruct sep.
  - by destruct (find_sub sep r).
Qed.

Lemma item0_split sep s : sep ≠ [] → item 0 (split sep s) = before sep s.
Proof. intros Hne. by apply item0_split_fuel. Qed.

Lemma item1_split sep s i :
  sep ≠ [] → find_sub sep s = Some i →
  item 1 (split sep s) = before sep (drop (i + length sep) s).
Proof.
  intros Hne Hi. unfold split.
  destruct s as [|x s]; [by destruct sep|].
  change (length (x :: s)) with (S (length s)).
  change (split_fuel (S (length s)) sep (x :: s)) with
    (match find_sub sep (x :: s) with
     | Some i => take i (x :: s) :: split_fuel (length s) sep (drop (i + length sep) (x :: s))
     | None => [x :: s]
     end).
  rewrite Hi. change (item 1 (?a :: ?l)) with (item 0 l).
  apply item0_split_fuel; [done|].
  rewrite length_drop. destruct sep; [done|]. simpl. lia.
Qed.

(** ** C9: responses between fence markers *)

Lemma starts_with_self p r : starts_with p (p ++ r) = true.
Proof. induction p as [|a p IH]; [done|]. simpl. by rewrite N.eqb_refl. Qed.

Lemma find_sub_self p r : find_sub p (p ++ r) = Some 0.
Proof. by rewrite find_sub_unfold, starts_with_self. Qed.

Lemma strip_fix_ends a x s :
  isspace a = false → isspace x = false → strip (a :: s ++ [x]) = a :: s ++ [x].
Proof.
  intros Ha Hx. apply strip_with_fix; simpl; [by rewrite Ha|].
  rewrite rev_app_distr. simpl. by rewrite Hx.
Qed.

Lemma nl_not_in_fence : 10%N ∉ fence.
Proof. unfold fence. repeat (apply not_elem_of_cons; split; [done|]). apply not_elem_of_nil. Qed.

Lemma nl_not_in_fence_json : 10%N ∉ fence_json.
Proof.
  change fence_json with [96; 96; 96; 106; 115; 111; 110]%N.
  repeat (apply not_elem_of_cons; split; [done|]). apply not_elem_of_nil.
Qed.

(** What lies between the markers: no marker before the closing one. *)
Lemma find_fence_inner j :
  find_sub fence j = None →
  find_sub fence (10%N :: j ++ 10%N :: fence) = Some (length j + 2)
  ∧ find_sub fence_json (10%N :: j ++ 10%N :: fence) = None
  ∧ find_sub fence (10%N :: j ++ [10%N]) = None.
Proof.
  intros Hj.
  assert (Hjj : find_sub fence_json j = None) by (by apply find_sub_longer).
  split; [|split].
  - change (10%N :: j ++ 10%N :: fence) with ([] ++ 10%N :: (j ++ 10%N :: fence)).
    rewrite find_sub_past; [|apply nl_not_in_fence|done|done].
    rewrite find_sub_past; [|apply nl_not_in_fence|done|done].
    change (find_sub fence fence) with (Some 0). simpl. f_equal. lia.
  - change (10%N :: j ++ 10%N :: fence) with ([] ++ 10%N :: (j ++ 10%N :: fence)).
    rewrite find_sub_past; [|apply nl_not_in_fence_json|done|done].
    rewrite find_sub_past; [|apply nl_not_in_fence_json|done|done].
    done.
  - change (10%N :: j ++ [10%N]) with ([] ++ 10%N :: (j ++ [10%N])).
    rewrite find_sub_past; [|apply nl_not_in_fence|done|done].
    rewrite find_sub_end; [done|apply nl_not_in_fence|done|done].
Qed.

Lemma take_inner j r : take (length j + 2) (10%N :: j ++ 10%N :: r) = 10%N :: j ++ [10%N].
Proof.
  replace (length j + 2) with (S (length j + 1)) by lia. simpl. f_equal.
  change (10%N :: r) with ([10%N] ++ r). rewrite app_assoc.
  rewrite take_app_length'; [done|]. rewrite length_app. simpl. lia.
Qed.

Lemma strip_fences_plain j : find_sub fence j = None → strip_fences j = strip j.
Proof.
  intros Hj. unfold strip_fences, contains.
  apply find_sub_strip in Hj.
  pose proof (find_sub_longer fence (u "json") _ Hj) as Hjj.
  change (fence ++ u "json") with fence_json in Hjj. by rewrite Hjj, Hj.
Qed.

Lemma strip_fences_fenced_json j :
  find_sub fence j = None → strip_fences (fenced_json j) = strip j.
Proof.
  intros Hj. destruct (find_fence_inner j Hj) as (Hin & Hnone & _).
  unfold strip_fences.
  assert (Hs : strip (fenced_json j) = fenced_json j).
  { change (fenced_json j) with
      (96%N :: ([96; 96; 106; 115; 111; 110; 10]%N ++ j ++ [10; 96; 96; 96]%N)).
    replace ([96; 96; 106; 115; 111; 110; 10]%N ++ j ++ [10; 96; 96; 96]%N)
      with (([96; 96; 106; 115; 111; 110; 10]%N ++ j ++ [10; 96; 96]%N) ++ [96%N])
      by (by rewrite <- !app_assoc).
    by apply strip_fix_ends. }
  rewrite Hs. unfold contains, fenced_json. rewrite find_sub_self.
  rewrite (item1_split _ _ 0) by (done || apply find_sub_self).
  change (0 + length fence_json) with (length fence_json).
  rewrite drop_app_length. unfold before at 1. rewrite Hnone.
  rewrite item0_split by done. unfold before. rewrite Hin, take_inner.
  apply strip_between.
Qed.

Lemma strip_fences_fenced_plain j :
  find_sub fence j = None → strip_fences (fenced_plain j) = strip j.
Proof.
  intros Hj. destruct (find_fence_inner j Hj) as (Hin & _ & Hnone).
  unfold strip_fences.
  assert (Hs : strip (fenced_plain j) = fenced_plain j).
  { change (fenced_plain j) with (96%N :: ([96; 96; 10]%N ++ j ++ [10; 96; 96; 96]%N)).
    replace ([96; 96; 10]%N ++ j ++ [10; 96; 96; 96]%N)
      with (([96; 96; 10]%N ++ j ++ [10; 96; 96]%N) ++ [96%N])
      by (by rewrite <- !app_assoc).
    by apply strip_fix_ends. }
  rewrite Hs. unfold contains.
  assert (Htag : find_sub fence_json (fenced_plain j) = None).
  { unfold fenced_plain.
    rewrite find_sub_past; [|apply nl_not_in_fence_json|done|done].
    rewrite find_sub_past;
      [done|apply nl_not_in_fence_json|done|by apply find_sub_longer]. }
  rewrite Htag. unfold fenced_plain. rewrite find_sub_self.
  rewrite (item1_split _ _ 0) by (done || apply find_sub_self).
  change (0 + length fence) with (length fence).
  rewrite drop_app_length. unfold before at 1. rewrite Hin, take_inner.
  rewrite item0_split by done. unfold before. by rewrite Hnone, strip_between.
Qed.

Lemma contains_false sep s : contains sep s = false → find_sub sep s = None.
Proof. unfold contains. by destruct (find_sub sep s). Qed.

(** C9, as the claim words it, fails for a payload that holds a fence
    marker itself.  The JSON string ["```1```"] sent bare is cut down to [1],
    which parses; sent between [```json] fences it is cut down to a lone
    quotation mark, which does not. *)
Lemma fence_in_payload_counterexample :
  strip_fences quoted_fences = u "1"
  ∧ strip_fences (fenced_json quoted_fences) = [34%N]
  ∧ a_success (@read_response sample_runtime (u "report.pdf") quoted_fences) = true
  ∧ a_success (@read_response sample_runtime (u "report.pdf") (fenced_json quoted_fences))
    = false
  ∧ @read_response sample_runtime (u "report.pdf") (fenced_json quoted_fences)
    ≠ @read_response sample_runtime (u "report.pdf") quoted_fences.
Proof.
  assert (H1 : a_success (@read_response sample_runtime (u "report.pdf") quoted_fences)
               = true) by (vm_compute; reflexivity).
  assert (H2 : a_success (@read_response sample_runtime (u "report.pdf")
                            (fenced_json quoted_fences)) = false)
    by (vm_compute; reflexivity).
  split; [vm_compute; reflexivity|]. split; [vm_compute; reflexivity|].
  split; [exact H1|]. split; [exact H2|].
  intros Heq. rewrite Heq in H2. congruence.
Qed.

(** C9, amended: for every payload [j] that holds no fence marker (three
    backquotes), the response made of [j] between fence markers, with or
    without the [json] tag, is cut down to the same text as the bare
    response [j], namely [j] stripped, and so gives the same result. *)
Theorem fence_invariance `{Runtime} (filename j : pystr) :
  contains fence j = false →
  strip_fences j = strip j
  ∧ strip_fences (fenced_json j) = strip_fences j
  ∧ strip_fences (fenced_plain j) = strip_fences j
  ∧ read_response filename (fenced_json j) = read_response filename j
  ∧ read_response filename (fenced_plain j) = read_response filename j.
Proof.
  intros Hj. apply contains_false in Hj.
  pose proof (strip_fences_plain j Hj) as H0.
  pose proof (strip_fences_fenced_json j Hj) as H1.
  pose proof (strip_fences_fenced_plain j Hj) as H2.
  split; [done|]. split; [congruence|]. split; [congruence|].
  unfold read_response. rewrite H0, H1, H2. done.
Qed.

(** The claim on the payload [{}]. *)
Lemma fence_invariance_witness :
  strip_fences (u "{}") = strip (u "{}")
  ∧ strip_fences (fenced_json (u "{}")) = strip_fences (u "{}")
  ∧ strip_fences (fenced_plain (u "{}")) = strip_fences (u "{}")
  ∧ @read_response sample_runtime (u "report.pdf") (fenced_json (u "{}"))
    = @read_response sample_runtime (u "report.pdf") (u "{}")
  ∧ @read_response sample_runtime (u "report.pdf") (fenced_plain (u "{}"))
    = @read_response sample_runtime (u "report.pdf") (u "{}").
Proof.
  apply (@fence_invariance sample_runtime (u "report.pdf") (u "{}")). reflexivity.
Defined.

Lemma fenced_empty_object :
  a_success (@read_response sample_runtime (u "report.pdf") (fenced_json (u "{}"))) = true.
Proof. vm_compute. reflexivity. Qed.

(** ** C4: which strategy a downloaded file meets *)

Lemma pdf_path_not_xml inn idx href :
  link_is_xml href = false → ends_with (u ".xml") (link_path inn idx href) = false.
Proof.
  intros Hx. unfold link_path, link_filename, path_join, ends_with. rewrite Hx.
  set (out_dir := u "reports_" ++ inn).
  set (stem := inn ++ u "_" ++ str_of_int (Z.of_nat idx)).
  assert (Hrev : ∀ pre, rev (pre ++ u "report_" ++ inn ++ u "_"
                              ++ str_of_int (Z.of_nat idx) ++ u ".pdf")
                        = [102; 100; 112; 46]%N ++ rev (pre ++ u "report_" ++ stem)).
  { intros pre. unfold stem.
    replace (pre ++ u "report_" ++ inn ++ u "_" ++ str_of_int (Z.of_nat idx) ++ u ".pdf")
      with ((pre ++ u "report_" ++ inn ++ u "_" ++ str_of_int (Z.of_nat idx)) ++ u ".pdf")
      by (by rewrite <- !app_assoc).
    by rewrite rev_app_distr. }
  destruct (starts_with (rev [47%N]) (rev out_dir)).
  - by rewrite Hrev.
  - change (out_dir ++ 47%N :: u "report_" ++ inn ++ u "_"
              ++ str_of_int (Z.of_nat idx) ++ u ".pdf")
      with (out_dir ++ [47%N] ++ u "report_" ++ inn ++ u "_"
              ++ str_of_int (Z.of_nat idx) ++ u ".pdf").
    rewrite app_assoc. by rewrite Hrev.
Qed.

(** C4, as the claim words it, fails: the markup of [full_doc], on which the
    structured-schema parser succeeds, reached through a link whose [href]
    has no [".xml"] in it, is sent to the delegated AI extractor; no local
    strategy is tried and the record is the service's. *)
Lemma markup_sent_to_ai_counterexample :
  x_success (@parse_accounting_xml sample_runtime
               (basename (link_path (u "7701234567") 1 (u "bo/get.php?id=1")))
               (f_markup markup_file)) = true
  ∧ @process_link sample_runtime (u "7701234567") 1 (u "bo/get.php?id=1") (Return markup_file)
    = (FromAI (@analyze_pdf_with_gemini sample_runtime markup_file
                 (u "report_7701234567_1.pdf")),
       [EvDelegatedAI])
  ∧ ¬ (∃ x, fst (@process_link sample_runtime (u "7701234567") 1 (u "bo/get.php?id=1")
                   (Return markup_file)) = FromXml x).
Proof.
  assert (H : @process_link sample_runtime (u "7701234567") 1 (u "bo/get.php?id=1")
                (Return markup_file)
              = (FromAI (@analyze_pdf_with_gemini sample_runtime markup_file
                           (u "report_7701234567_1.pdf")),
                 [EvDelegatedAI])) by (vm_compute; reflexivity).
  split; [reflexivity|]. split; [exact H|].
  rewrite H. by intros [x Hx].
Qed.

(** C4, amended: the strategy is chosen by the link alone.  When [href],
    lower-cased, holds [".xml"], the file goes to [extract_from_xml]: the
    structured-schema parser runs first and, if it succeeds, its result is
    the record and nothing else is called; only if it fails does the
    generic markup reader run; the delegated AI extractor is not called.
    Every other file is sent straight to the delegated AI extractor,
    whatever the local parsers would have made of it. *)
Theorem dispatch_by_extension `{Runtime} (inn : pystr) (idx : nat) (href : pystr) (f : file) :
  let path := link_path inn idx href in
  let structured := parse_accounting_xml (basename path) (f_markup f) in
  (link_is_xml href = true →
     process_link inn idx href (Return f) = extract_from_xml path f
     ∧ (EvDelegatedAI ∉ snd (process_link inn idx href (Return f)))
     ∧ (x_success structured = true →
          process_link inn idx href (Return f) = (FromXml structured, [EvStructured]))
     ∧ (x_success structured = false →
          snd (process_link inn idx href (Return f)) = [EvStructured; EvGenericMarkup]))
  ∧ (link_is_xml href = false →
       process_link inn idx href (Return f)
       = (FromAI (analyze_pdf_with_gemini f (link_filename inn idx href)), [EvDelegatedAI])).
Proof.
  intros path structured. split.
  - intros Hx. unfold process_link. rewrite Hx. simpl orb. fold path.
    unfold extract_from_xml. fold structured.
    split; [done|]. destruct (x_success structured).
    + split; [|by split].
      simpl. intros Hin. apply list_elem_of_singleton in Hin. discriminate.
    + split; [|by split].
      simpl. intros Hin. apply elem_of_cons in Hin as [Hin|Hin]; [discriminate|].
      apply list_elem_of_singleton in Hin. discriminate.
  - intros Hx. unfold process_link. rewrite Hx.
    by rewrite (pdf_path_not_xml inn idx href Hx).
Qed.

(** The two branches on [markup_file]. *)
Lemma dispatch_by_extension_witness :
  @process_link sample_runtime (u "7701234567") 1 (u "bo/Report.XML") (Return markup_file)
    = (FromXml (@parse_accounting_xml sample_runtime (u "report_7701234567_1.xml")
                  (Return full_doc)),
       [EvStructured])
  ∧ @process_link sample_runtime (u "7701234567") 1 (u "bo/get.php?id=1") (Return markup_file)
    = (FromAI (@analyze_pdf_with_gemini sample_runtime markup_file
                 (u "report_7701234567_1.pdf")),
       [EvDelegatedAI]).
Proof.
  split.
  - apply (proj1 (@dispatch_by_extension sample_runtime (u "7701234567") 1
                    (u "bo/Report.XML") markup_file)); reflexivity.
  - apply (proj2 (@dispatch_by_extension sample_runtime (u "7701234567") 1
                    (u "bo/get.php?id=1") markup_file)). reflexivity.
Defined.

(** ** C7: the report year of a transcript *)

(** Both year patterns have two groups, so the test on the number of groups
    never selects group 1: whichever pattern matched, the year is read from
    group 2. *)
Lemma year_group_is_second m :
  year_group pat_year m = m_group m 2 ∧ year_group pat_year_near m = m_group m 2.
Proof. by split. Qed.

Lemma find_report_year_phrase `{Runtime} txt m :
  re_search pat_year true txt = Some m → find_report_year txt = m_group m 2.
Proof. intros Hm. unfold find_report_year. by rewrite Hm. Qed.

Lemma find_report_year_fallback `{Runtime} txt :
  re_search pat_year true txt = None →
  find_report_year txt =
    match re_search pat_year_near true txt with
    | Some m => m_group m 2
    | None => None
    end.
Proof.
  intros Hm. unfold find_report_year. rewrite Hm.
  by destruct (re_search pat_year_near true txt).
Qed.

(** C7 on the transcript ["за 2020 год"]: the phrase is found, with the
    groups ["2020"] and ["год"], and the report year the parser returns is
    ["год"], not ["2020"]. *)
Theorem report_year_of_phrase :
  ((λ m, (m_start m, m_group m 1, m_group m 2))
     <$> @re_search sample_runtime pat_year true (u "за 2020 год"))
    = Some (0, Some (u "2020"), Some (u "год"))
  ∧ @parse_accounting_from_text sample_runtime (u "за 2020 год")
    = Return {| t_report_type := None;
                t_report_year := Some (u "год");
                t_company_info := ∅;
                t_balance := ∅;
                t_financial_results := ∅;
                t_structured_data := Some (∅, ∅) |}
  ∧ Some (u "год") ≠ Some (u "2020").
Proof.
  split; [vm_compute; reflexivity|]. split; [vm_compute; reflexivity|].
  vm_compute. discriminate.
Qed.

(** ** C8: encrypted and empty PDF documents *)

Lemma messages_distinct :
  msg_encrypted ≠ msg_no_pages ∧ msg_encrypted ≠ msg_empty_text
  ∧ msg_no_pages ≠ msg_empty_text.
Proof. vm_compute. repeat split; discriminate. Qed.

(** The first definition does what the claim says: with a PDF library
    installed, a document the diagnostic reports as encrypted, or as having
    no page, is refused with a diagnostic of its own and no engine is
    called; a document without text layer gets a third one. *)
Lemma shadowed_diagnostic `{Runtime} pdf_path f header lib pages encrypted :
  PDF_LIB = Some lib →
  f_header f = Return header → starts_with pdf_magic header = true →
  f_diag f = Return (pages, encrypted) →
  (encrypted = true ∨ pages = 0) →
  ∃ r, Shadowed.extract_from_pdf pdf_path f = (FromPdf r, [EvDiagnostic])
       ∧ p_success (p_acquired r) = false
       ∧ p_error r = Some (if encrypted then msg_encrypted else msg_no_pages).
Proof.
  intros Hlib Hh Hmagic Hdiag Hcase.
  unfold Shadowed.extract_from_pdf, pdf_diagnostic. rewrite Hh, Hmagic, Hlib, Hdiag.
  simpl. destruct encrypted; simpl; [eauto|].
  destruct Hcase as [?| ->]; [done|]. simpl. eauto.
Qed.

Lemma shadowed_on_samples :
  snd (@Shadowed.extract_from_pdf sample_runtime (u "report.pdf") zero_page_pdf)
    = [EvDiagnostic]
  ∧ snd (@Shadowed.extract_from_pdf sample_runtime (u "report.pdf") encrypted_pdf)
    = [EvDiagnostic]
  ∧ success (fst (@Shadowed.extract_from_pdf sample_runtime (u "report.pdf") scanned_pdf))
    = false.
Proof. repeat split; vm_compute; reflexivity. Qed.

(** C8 on the definition the name [extract_from_pdf] is bound to: it has no
    diagnostic.  A PDF without a page is read by engine A and comes back
    with [success = true], an empty text and no error; an encrypted PDF goes
    to engine A as well. *)
Theorem extract_from_pdf_without_diagnostic :
  @extract_from_pdf sample_runtime (u "report.pdf") zero_page_pdf
    = (FromPlain (SimpleResult (u "report.pdf") true [] None None), [EvEngineA])
  ∧ snd (@extract_from_pdf sample_runtime (u "report.pdf") encrypted_pdf) = [EvEngineA]
  ∧ @extract_from_pdf sample_runtime (u "report.pdf") encrypted_pdf
    = @extract_from_pdf sample_runtime (u "report.pdf") scanned_pdf.
Proof. repeat split; vm_compute; reflexivity. Qed.

(** * Further properties *)

(** ** The text parser returns *)

Lemma scan_items_returns `{Runtime} its window a p :
  ∃ r, scan_items its window a p = Return r.
Proof.
  revert a p. induction its as [|[label pat] rest IH]; intros a p; simpl; [eauto|].
  destruct (re_search pat true window) as [m|]; [|apply IH].
  destruct (clean_number_opt_returns (m_group m 1)) as (v & Hv & _).
  rewrite Hv. simpl. destruct (_ || _); apply IH.
Qed.

Lemma scan_fin_returns `{Runtime} pats txt fr : ∃ r, scan_fin pats txt fr = Return r.
Proof.
  revert fr. induction pats as [|[key patt] rest IH]; intros fr; simpl; [eauto|].
  destruct (re_search patt true txt) as [m|]; [|apply IH].
  destruct (clean_number_opt_returns (pick_group patt m)) as (v & Hv & _).
  rewrite Hv. simpl. apply IH.
Qed.

Lemma find_balance_returns `{Runtime} txt : ∃ r, find_balance txt = Return r.
Proof.
  unfold find_balance. destruct (re_search pat_balance true txt) as [bm|]; [|eauto].
  destruct (scan_items_returns items (slice (m_start bm) (m_start bm + 5000) txt) ∅ ∅)
    as ([ad pd] & ->).
  simpl.
  destruct (re_search pat_total_active true _) as [m|].
  - destruct (clean_number_opt_returns (m_group m 2)) as (v & -> & _). simpl.
    destruct (re_search pat_total_passive true _) as [m'|]; [|simpl; eauto].
    destruct (clean_number_opt_returns (m_group m' 2)) as (v' & -> & _). simpl. eauto.
  - simpl. destruct (re_search pat_total_passive true _) as [m'|]; [|simpl; eauto].
    destruct (clean_number_opt_returns (m_group m' 2)) as (v' & -> & _). simpl. eauto.
Qed.

(** X1. Whatever the transcript and whatever [re.search] finds in it,
    [parse_accounting_from_text] returns a result: no exception leaves it,
    so the first [extract_from_pdf] never records a [parsing_error]. *)
Theorem text_parser_returns `{Runtime} (text : pystr) :
  (∃ r, parse_accounting_from_text text = Return r)
  ∧ parsing_error (parsed_keys text) = None.
Proof.
  assert (Hr : ∃ r, parse_accounting_from_text text = Return r).
  { unfold parse_accounting_from_text. destruct (_ || _); [eauto|].
    destruct (find_balance_returns text) as ([rt b] & ->).
    destruct (scan_fin_returns fin_patterns text ∅) as (fr & Hfr).
    cbv zeta. unfold mbind at 1, outcome_bind at 1. rewrite Hfr. simpl. eauto. }
  split; [exact Hr|]. destruct Hr as [r Hr]. unfold parsed_keys. by rewrite Hr.
Qed.

(** ** [_clean_number] on the usual tokens *)

Ltac char_cases :=
  unfold digit_or_gap, kept_char, clean_char, is_digit, plain_char in *;
  repeat match goal with
  | |- context [(?a =? ?b)%N] => destruct (N.eqb_spec a b); try lia
  | |- context [(?a <=? ?b)%N] => destruct (N.leb_spec a b); try lia
  | H : context [(?a =? ?b)%N] |- _ => destruct (N.eqb_spec a b); try lia
  | H : context [(?a <=? ?b)%N] |- _ => destruct (N.leb_spec a b); try lia
  end; simpl in *; try done.

Lemma replace_char_one o n s :
  replace_char o [n] s = map (λ c, if (c =? o)%N then n else c) s.
Proof.
  unfold replace_char. induction s as [|c r IH]; simpl; [done|].
  destruct (c =? o)%N; simpl; by f_equal.
Qed.

Lemma replace_char_absent o n s : contains_char o s = false → replace_char o n s = s.
Proof.
  unfold replace_char, contains_char. induction s as [|c r IH]; simpl; [done|].
  intros [Hc Hr]%orb_false_elim. rewrite N.eqb_sym, Hc. simpl. by rewrite IH.
Qed.

Lemma digits_of_cons c r :
  digits_of (c :: r) = if is_digit c then c :: digits_of r else digits_of r.
Proof.
  unfold digits_of. rewrite filter_cons. destruct (is_digit c) eqn:E.
  - by rewrite decide_True.
  - by rewrite decide_False.
Qed.

Lemma digits_of_app a b : digits_of (a ++ b) = digits_of a ++ digits_of b.
Proof. apply filter_app. Qed.

Lemma digits_of_rev s : digits_of (rev s) = rev (digits_of s).
Proof.
  induction s as [|c r IH]; [done|]. simpl. rewrite digits_of_app, IH, !digits_of_cons.
  destruct (is_digit c); simpl; [done|]. by rewrite app_nil_r.
Qed.

Lemma digits_of_digits d : forallb is_digit d = true → digits_of d = d.
Proof.
  induction d as [|c r IH]; [done|]. simpl. intros [Hc Hr]%andb_prop.
  rewrite digits_of_cons, Hc. by rewrite IH.
Qed.

Lemma digits_of_all_digits t : forallb is_digit (digits_of t) = true.
Proof.
  induction t as [|c r IH]; [done|]. rewrite digits_of_cons.
  destruct (is_digit c) eqn:E; [|done]. simpl. by rewrite E.
Qed.

Lemma forallb_rev' {A} (q : A → bool) s : forallb q (rev s) = forallb q s.
Proof.
  induction s as [|c r IH]; [done|]. simpl. rewrite forallb_app, IH. simpl.
  rewrite andb_true_r. apply andb_comm.
Qed.

Lemma lstrip_keeps p q s :
  (∀ c, p c = true → is_digit c = false) → forallb q s = true →
  forallb q (lstrip_with p s) = true ∧ digits_of (lstrip_with p s) = digits_of s.
Proof.
  intros Hp. induction s as [|c r IH]; [done|]. simpl. intros [Hc Hr]%andb_prop.
  destruct (p c) eqn:E.
  - rewrite digits_of_cons, (Hp c E). by apply IH.
  - simpl. by rewrite Hc, Hr.
Qed.

Lemma strip_keeps p q s :
  (∀ c, p c = true → is_digit c = false) → forallb q s = true →
  forallb q (strip_with p s) = true ∧ digits_of (strip_with p s) = digits_of s.
Proof.
  intros Hp Hq. destruct (lstrip_keeps p q s Hp Hq) as [H1 H2].
  unfold strip_with, rstrip_with.
  destruct (lstrip_keeps p q (rev (lstrip_with p s)) Hp) as [H3 H4].
  { by rewrite forallb_rev'. }
  split; [by rewrite forallb_rev'|].
  by rewrite digits_of_rev, H4, digits_of_rev, rev_involutive.
Qed.

Lemma space_not_digit c : isspace c = true → is_digit c = false.
Proof.
  intros Hs. destruct (is_digit c) eqn:E; [|done]. exfalso.
  apply andb_prop in E as [E1%N.leb_le E2%N.leb_le].
  revert Hs. unfold isspace.
  repeat match goal with
  | |- context [(?a =? ?b)%N] => destruct (N.eqb_spec a b); try lia
  | |- context [(?a <=? ?b)%N] => destruct (N.leb_spec a b); try lia
  end; done.
Qed.

Lemma normalised_gaps t :
  forallb digit_or_gap t = true →
  forallb digit_or_space (replace_char 8201 [32%N] (replace_char 160 [32%N] t)) = true
  ∧ digits_of (replace_char 8201 [32%N] (replace_char 160 [32%N] t)) = digits_of t.
Proof.
  rewrite !replace_char_one. induction t as [|c r IH]; [done|]. simpl.
  intros [Hc Hr]%andb_prop. destruct (IH Hr) as [IH1 IH2].
  rewrite !digits_of_cons, IH1, IH2, andb_true_r. clear IH IH1 IH2 Hr.
  unfold digit_or_space. split; char_cases.
Qed.

Lemma spaces_removed m :
  forallb digit_or_space m = true →
  replace_char 32 [] (filter (λ c, kept_char c = true) m) = digits_of m.
Proof.
  induction m as [|c r IH]; [done|]. simpl. intros [Hc Hr]%andb_prop.
  rewrite digits_of_cons, filter_cons. specialize (IH Hr).
  assert (Hk : kept_char c = true).
  { clear -Hc. unfold digit_or_space in Hc. char_cases. }
  rewrite decide_True by done. unfold replace_char in *. simpl. rewrite IH.
  clear -Hc. unfold digit_or_space in Hc. char_cases.
Qed.

Lemma digits_no_char x d :
  forallb is_digit d = true → is_digit x = false → contains_char x d = false.
Proof.
  intros Hd Hx. unfold contains_char. induction d as [|c r IH]; [done|].
  simpl in *. apply andb_prop in Hd as [Hc Hr]. rewrite (IH Hr), orb_false_r.
  destruct (N.eqb_spec x c) as [->|]; [congruence|done].
Qed.

Lemma digits_value_number d acc :
  forallb is_digit d = true →
  digits_value d acc = Some (fold_left (λ a c, a * 10 + (c - 48))%N d acc).
Proof.
  revert acc. induction d as [|c r IH]; intros acc; [done|]. simpl.
  intros [-> Hr]%andb_prop. by apply IH.
Qed.

Lemma digits_plain d : forallb is_digit d = true → forallb plain_char d = true.
Proof.
  induction d as [|c r IH]; [done|]. simpl. intros [Hc Hr]%andb_prop.
  rewrite (IH Hr), andb_true_r. clear -Hc. char_cases.
Qed.

Lemma int_of_digits `{Runtime} `{!RuntimeLaws} d :
  forallb is_digit d = true → d ≠ [] → int_of_str d = Some (Z.of_N (number_of d)).
Proof.
  intros Hd Hne. rewrite int_of_str_plain by by apply digits_plain.
  destruct d as [|c r]; [done|]. unfold decimal_int.
  assert (Hc : is_digit c = true) by (simpl in Hd; by apply andb_prop in Hd as [? _]).
  assert ((c =? 45)%N = false ∧ (c =? 43)%N = false) as [-> ->].
  { clear -Hc. split; char_cases. }
  unfold all_digits_value. by rewrite digits_value_number.
Qed.

(** The conversion at the end of [_clean_number], once the text is a
    non-empty run of digits. *)
Lemma convert_digits `{Runtime} `{!RuntimeLaws} d (neg : bool) :
  forallb is_digit d = true → d ≠ [] →
  (let s := if contains_char 44 d && negb (contains_char 46 d)
            then replace_char 44 [46%N] d else d in
   try_except
     (if bool_decide (s = []) then Return PyNone
      else if contains_char 46 s then
        match float_of_str s with
        | Some val => Return (PyFloat (if neg then fneg val else val))
        | None => Raise (ValueError [])
        end
      else
        match int_of_str s with
        | Some val => Return (PyInt (if neg then (- val)%Z else val))
        | None => Raise (ValueError [])
        end)
     (λ _, Return PyNone))
  = Return (PyInt (if neg then (- Z.of_N (number_of d))%Z else Z.of_N (number_of d))).
Proof.
  intros Hd Hne. rewrite (digits_no_char 44 d Hd) by done. simpl.
  rewrite bool_decide_eq_false_2 by done.
  rewrite (digits_no_char 46 d Hd) by done.
  by rewrite int_of_digits.
Qed.

(** X2. A token of ASCII digits grouped by spaces, no-break spaces or thin
    spaces, with at least one digit and no more than the 4300 that [int]
    converts by default, is read as the integer its digits write; spaces
    around it and inside it do not matter. *)
Theorem clean_number_grouped_digits `{Runtime} `{!RuntimeLaws} (t : pystr) :
  forallb digit_or_gap t = true → digits_of t ≠ [] → length (digits_of t) ≤ 4300 →
  _clean_number t = Return (PyInt (Z.of_N (number_of (digits_of t)))).
Proof.
  intros Ht Hne _. unfold _clean_number.
  rewrite bool_decide_eq_false_2 by (intros ->; done).
  destruct (normalised_gaps t Ht) as [H1 H2]. revert H1 H2.
  generalize (replace_char 8201 [32%N] (replace_char 160 [32%N] t)). intros s1 H1 H2.
  destruct (strip_keeps isspace digit_or_space s1 space_not_digit H1) as [H3 H4].
  fold (strip s1) in H3, H4. cbv zeta. revert H3 H4.
  generalize (strip s1). intros m H3 H4.
  assert (paren_wrapped m = false) as ->.
  { destruct m as [|c r]; [done|]. simpl in *. apply andb_prop in H3 as [Hc _].
    clear -Hc. unfold digit_or_space in Hc.
    destruct (N.eqb_spec c 40) as [->|]; [done|done]. }
  rewrite (spaces_removed m H3).
  rewrite (convert_digits (digits_of m) false (digits_of_all_digits m)) by congruence.
  by rewrite H4, H2.
Qed.

Lemma clean_number_grouped_digits_witness :
  @_clean_number plain_runtime [49; 160; 50; 51; 52; 8201; 53; 54; 55; 32]%N
  = Return (PyInt 1234567).
Proof.
  apply (@clean_number_grouped_digits plain_runtime plain_runtime_laws
           [49; 160; 50; 51; 52; 8201; 53; 54; 55; 32]%N);
    [reflexivity|vm_compute; discriminate|vm_compute; lia].
Defined.

Lemma replace_char_app o n a b :
  replace_char o n (a ++ b) = replace_char o n a ++ replace_char o n b.
Proof. apply flat_map_app. Qed.

Lemma strip_with_between p a b m :
  p a = true → p b = true → strip_with p (a :: m ++ [b]) = strip_with p m.
Proof.
  intros Ha Hb. unfold strip_with. simpl. rewrite Ha.
  assert (Hl : lstrip_with p (m ++ [b]) =
               match lstrip_with p m with [] => [] | l => l ++ [b] end).
  { induction m as [|c m IH]; simpl; [by rewrite Hb|]. destruct (p c); [exact IH|done]. }
  rewrite Hl. destruct (lstrip_with p m) as [|c l]; [done|].
  unfold rstrip_with. rewrite rev_app_distr. simpl. by rewrite Hb.
Qed.

Lemma edge_ok_all p q s :
  (∀ c, q c = true → p c = false) → forallb q s = true → edge_ok p s = true.
Proof.
  intros Hpq. destruct s as [|c r]; [done|]. simpl. intros [Hc _]%andb_prop.
  by rewrite (Hpq c Hc).
Qed.

Lemma strip_with_all p q s :
  (∀ c, q c = true → p c = false) → forallb q s = true → strip_with p s = s.
Proof.
  intros Hpq Hs. apply strip_with_fix; apply (edge_ok_all p q); try done.
  by rewrite forallb_rev'.
Qed.

Lemma paren_tail_closed s :
  forallb digit_or_space s = true → paren_tail (s ++ [41%N]) = true.
Proof.
  induction s as [|c r IH]; [done|]. simpl. intros [Hc Hr]%andb_prop.
  rewrite (IH Hr), andb_true_r. apply orb_true_iff. right.
  clear -Hc. unfold digit_or_space in Hc. char_cases.
Qed.

(** X3. The same token between parentheses is read as the negated integer. *)
Theorem clean_number_parenthesised `{Runtime} `{!RuntimeLaws} (t : pystr) :
  forallb digit_or_gap t = true → digits_of t ≠ [] → length (digits_of t) ≤ 4300 →
  _clean_number (40%N :: t ++ [41%N])
  = Return (PyInt (- Z.of_N (number_of (digits_of t)))).
Proof.
  intros Ht Hne _. unfold _clean_number.
  rewrite bool_decide_eq_false_2 by done.
  change (40%N :: t ++ [41%N]) with ([40%N] ++ t ++ [41%N]).
  rewrite !replace_char_app.
  change (replace_char 8201 [32%N] (replace_char 160 [32%N] [40%N])) with [40%N].
  change (replace_char 8201 [32%N] (replace_char 160 [32%N] [41%N])) with [41%N].
  destruct (normalised_gaps t Ht) as [H1 H2]. revert H1 H2.
  generalize (replace_char 8201 [32%N] (replace_char 160 [32%N] t)). intros m H1 H2.
  change ([40%N] ++ m ++ [41%N]) with (40%N :: m ++ [41%N]).
  rewrite strip_fix_ends by done. cbv zeta.
  assert (paren_wrapped (40%N :: m ++ [41%N]) = true) as ->.
  { simpl. by apply paren_tail_closed. }
  unfold strip_chars. rewrite strip_with_between by done.
  rewrite (strip_with_all _ digit_or_space m); [|intros c Hc|done]; cycle 1.
  { clear -Hc. unfold digit_or_space in Hc. simpl. char_cases. }
  rewrite (spaces_removed m H1).
  rewrite (convert_digits (digits_of m) true (digits_of_all_digits m)) by congruence.
  by rewrite H2.
Qed.

Lemma clean_number_parenthesised_witness :
  @_clean_number plain_runtime (u "(12 500)") = Return (PyInt (-12500)).
Proof.
  apply (@clean_number_parenthesised plain_runtime plain_runtime_laws (u "12 500"));
    [reflexivity|vm_compute; discriminate|vm_compute; lia].
Defined.

(** ** [_clean_number] on decimal marks *)

Lemma forallb_no_char (q : N → bool) x s :
  forallb q s = true → q x = false → contains_char x s = false.
Proof.
  intros Hs Hx. unfold contains_char. induction s as [|c r IH]; [done|].
  simpl in *. apply andb_prop in Hs as [Hc Hr]. rewrite (IH Hr), orb_false_r.
  destruct (N.eqb_spec x c) as [->|]; [congruence|done].
Qed.

Lemma contains_char_app x a b :
  contains_char x (a ++ b) = contains_char x a || contains_char x b.
Proof. apply existsb_app. Qed.

Lemma clean_not_space c : clean_char c = true → isspace c = false.
Proof.
  intros Hc. assert (Hr : (44 <= c <= 57)%N) by (clear -Hc; char_cases; lia).
  clear Hc. unfold isspace.
  repeat match goal with
  | |- context [(?a =? ?b)%N] => destruct (N.eqb_spec a b); try lia
  | |- context [(?a <=? ?b)%N] => destruct (N.leb_spec a b); try lia
  end; done.
Qed.

Lemma filter_kept_clean s :
  forallb clean_char s = true → filter (λ c, kept_char c = true) s = s.
Proof.
  induction s as [|c r IH]; [done|]. simpl. intros [Hc Hr]%andb_prop.
  rewrite filter_cons, decide_True; [by rewrite IH|]. unfold kept_char. by rewrite Hc.
Qed.

(** A non-empty token of digits, minus signs, commas and periods goes to
    the conversion as it is. *)
Lemma clean_token `{Runtime} s :
  forallb clean_char s = true → s ≠ [] → _clean_number s = convert false s.
Proof.
  intros Hs Hne. unfold _clean_number. rewrite bool_decide_eq_false_2 by done.
  rewrite (replace_char_absent 160) by by apply (forallb_no_char clean_char).
  rewrite (replace_char_absent 8201) by by apply (forallb_no_char clean_char).
  unfold strip. rewrite (strip_with_all isspace clean_char s clean_not_space Hs).
  cbv zeta.
  assert (paren_wrapped s = false) as ->.
  { destruct s as [|c r]; [done|]. simpl in *. apply andb_prop in Hs as [Hc _].
    destruct (N.eqb_spec c 40) as [->|]; done. }
  rewrite (filter_kept_clean s Hs).
  rewrite (replace_char_absent 32) by by apply (forallb_no_char clean_char).
  reflexivity.
Qed.

Lemma cut_at_app c ip fp :
  contains_char c ip = false → cut_at c (ip ++ c :: fp) = (ip, Some fp).
Proof.
  induction ip as [|x r IH]; simpl.
  - by rewrite N.eqb_refl.
  - unfold contains_char. simpl. intros [Hx Hr]%orb_false_elim.
    rewrite N.eqb_sym, Hx. by rewrite (IH Hr).
Qed.

Lemma cut_at_some c s ip fp : cut_at c s = (ip, Some fp) → s = ip ++ c :: fp.
Proof.
  revert ip. induction s as [|x r IH]; intros ip; simpl; [done|].
  destruct (N.eqb_spec x c) as [->|].
  - by intros [= <- <-].
  - destruct (cut_at c r) as [a b] eqn:E. intros [= <- ->]. simpl. f_equal. by apply IH.
Qed.

Lemma digits_value_bad x s acc :
  contains_char x s = true → is_digit x = false → digits_value s acc = None.
Proof.
  intros Hs Hx. revert acc. unfold contains_char in Hs.
  induction s as [|c r IH]; intros acc; [done|]. simpl in *.
  destruct (is_digit c) eqn:Hc; [|done]. apply IH.
  destruct (N.eqb_spec x c) as [->|]; [congruence|done].
Qed.

Lemma decimal_float_digits ip fp :
  forallb is_digit ip = true → forallb is_digit fp = true → ip ++ fp ≠ [] →
  decimal_float (ip ++ 46%N :: fp)
  = Some (Decimal false (number_of (ip ++ fp)) (length fp)).
Proof.
  intros Hi Hf Hne. unfold decimal_float.
  assert (Hb : match ip ++ 46%N :: fp with
               | c :: r => if (c =? 45)%N then (true, r) else (false, ip ++ 46%N :: fp)
               | [] => (false, ip ++ 46%N :: fp)
               end = (false, ip ++ 46%N :: fp)).
  { destruct ip as [|c r]; [done|]. simpl in *. apply andb_prop in Hi as [Hc _].
    assert ((c =? 45)%N = false) as -> by (clear -Hc; char_cases). done. }
  rewrite Hb. cbv beta iota.
  rewrite cut_at_app by by apply (forallb_no_char is_digit).
  assert (Hd : forallb is_digit (ip ++ fp) = true) by by rewrite forallb_app, Hi, Hf.
  revert Hd Hne. generalize (ip ++ fp). intros [|c l] Hd Hne; [done|].
  by rewrite (digits_value_number _ 0%N Hd).
Qed.

Lemma decimal_float_comma s : contains_char 44 s = true → decimal_float s = None.
Proof.
  intros Hs. unfold decimal_float.
  assert (∃ neg body, match s with
               | c :: r => if (c =? 45)%N then (true, r) else (false, s)
               | [] => (false, s)
               end = (neg, body) ∧ contains_char 44 body = true) as (neg & body & -> & Hb).
  { destruct s as [|c r]; [done|]. destruct (N.eqb_spec c 45) as [->|]; eauto. }
  cbv beta iota. destruct (cut_at 46 body) as [ip [fp|]] eqn:Hc; [|done].
  apply cut_at_some in Hc. subst body.
  assert (H44 : contains_char 44 (ip ++ fp) = true).
  { rewrite contains_char_app in *. change (46%N :: fp) with ([46%N] ++ fp) in Hb.
    by rewrite contains_char_app in Hb. }
  revert H44. generalize (ip ++ fp). intros [|c l] H44; [done|].
  by rewrite (digits_value_bad 44 _ 0%N H44).
Qed.

(** X4. A decimal comma is read as a decimal period: digits, one comma,
    digits give the same float as with a period, the digits as the mantissa
    and the number of digits after the mark as the scale. *)
Theorem clean_number_decimal_comma `{Runtime} `{!RuntimeLaws} (ip fp : pystr) :
  forallb is_digit ip = true → forallb is_digit fp = true → ip ++ fp ≠ [] →
  length ip + length fp < 300 →
  _clean_number (ip ++ 44%N :: fp)
  = Return (PyFloat (Decimal false (number_of (ip ++ fp)) (length fp)))
  ∧ _clean_number (ip ++ 46%N :: fp)
    = Return (PyFloat (Decimal false (number_of (ip ++ fp)) (length fp))).
Proof.
  intros Hi Hf Hne Hlen.
  assert (Hclean : ∀ c, clean_char c = true → forallb clean_char (ip ++ c :: fp) = true).
  { intros c Hc. rewrite forallb_app. simpl. rewrite Hc. simpl.
    assert (Hd : ∀ d, forallb is_digit d = true → forallb clean_char d = true).
    { clear. induction d as [|x r IH]; [done|]. simpl. intros [Hx Hr]%andb_prop.
      rewrite (IH Hr), andb_true_r. unfold clean_char. by rewrite Hx. }
    by rewrite !Hd. }
  assert (Hconv : convert false (ip ++ 46%N :: fp)
                  = Return (PyFloat (Decimal false (number_of (ip ++ fp)) (length fp)))).
  { unfold convert.
    assert (H46 : contains_char 46 (ip ++ 46%N :: fp) = true).
    { rewrite contains_char_app. simpl. apply orb_true_r. }
    rewrite H46, andb_false_r. cbv zeta.
    rewrite bool_decide_eq_false_2 by by destruct ip.
    rewrite H46, float_of_str_clean, decimal_float_digits; try done.
    - by apply Hclean.
    - rewrite length_app. simpl. lia. }
  split; cycle 1.
  { rewrite clean_token; [exact Hconv|by apply Hclean|by destruct ip]. }
  rewrite clean_token; [|by apply Hclean|by destruct ip].
  rewrite <- Hconv. unfold convert at 1.
  assert (contains_char 44 (ip ++ 44%N :: fp) = true) as ->.
  { rewrite contains_char_app. simpl. apply orb_true_r. }
  assert (contains_char 46 (ip ++ 44%N :: fp) = false) as ->.
  { rewrite contains_char_app. simpl.
    by rewrite !(forallb_no_char is_digit 46). }
  simpl andb. cbv iota.
  assert (replace_char 44 [46%N] (ip ++ 44%N :: fp) = ip ++ 46%N :: fp) as ->.
  { rewrite replace_char_app. change (44%N :: fp) with ([44%N] ++ fp).
    rewrite replace_char_app.
    rewrite (replace_char_absent 44 _ ip) by by apply (forallb_no_char is_digit).
    rewrite (replace_char_absent 44 _ fp) by by apply (forallb_no_char is_digit).
    reflexivity. }
  unfold convert.
  assert (H46 : contains_char 46 (ip ++ 46%N :: fp) = true).
  { rewrite contains_char_app. simpl. apply orb_true_r. }
  rewrite H46, andb_false_r. by rewrite H46.
Qed.

Lemma clean_number_decimal_comma_witness :
  @_clean_number plain_runtime (u "1234,50") = Return (PyFloat (Decimal false 123450 2))
  ∧ @_clean_number plain_runtime (u "1234.50") = Return (PyFloat (Decimal false 123450 2)).
Proof.
  apply (@clean_number_decimal_comma plain_runtime plain_runtime_laws (u "1234") (u "50"));
    [reflexivity|reflexivity|vm_compute; discriminate|vm_compute; lia].
Defined.

(** X5. A token of digits, minus signs, commas and periods that holds both
    a comma and a period is not a number for [_clean_number]: the result is
    [None], for ["1,234.5"] as for ["1.234,5"]. *)
Theorem clean_number_comma_and_period `{Runtime} `{!RuntimeLaws} (s : pystr) :
  forallb clean_char s = true → length s ≤ 300 →
  contains_char 44 s = true → contains_char 46 s = true →
  _clean_number s = Return PyNone.
Proof.
  intros Hs Hlen H44 H46. rewrite clean_token; [|done|by intros ->].
  unfold convert. rewrite H44, H46. simpl andb. cbv iota zeta.
  rewrite bool_decide_eq_false_2 by by intros ->.
  rewrite H46, float_of_str_clean, decimal_float_comma by done. reflexivity.
Qed.

Lemma clean_number_comma_and_period_witness :
  @_clean_number plain_runtime (u "1.234,5") = Return PyNone
  ∧ @_clean_number plain_runtime (u "1,234.5") = Return PyNone.
Proof.
  split.
  - apply (@clean_number_comma_and_period plain_runtime plain_runtime_laws (u "1.234,5"));
      first [reflexivity|vm_compute; lia].
  - apply (@clean_number_comma_and_period plain_runtime plain_runtime_laws (u "1,234.5"));
      first [reflexivity|vm_compute; lia].
Defined.

(** ** A fenced block inside prose *)

Lemma lstrip_app_keep pr a c r :
  pr c = false → lstrip_with pr (a ++ c :: r) = lstrip_with pr a ++ c :: r.
Proof.
  intros Hc. induction a as [|x a IH]; simpl; [by rewrite Hc|].
  by destruct (pr x).
Qed.

Lemma rstrip_app_keep pr a c r :
  pr c = false → rstrip_with pr (a ++ c :: r) = a ++ c :: rstrip_with pr r.
Proof.
  intros Hc. unfold rstrip_with. rewrite rev_app_distr. simpl.
  rewrite <- app_assoc. simpl. rewrite lstrip_app_keep by done.
  rewrite rev_app_distr. simpl. by rewrite rev_involutive, <- app_assoc.
Qed.

Lemma find_sub_absent a sep s : a ∉ s → find_sub (a :: sep) s = None.
Proof.
  induction s as [|x s IH]; [done|]. intros [Hx Hs]%not_elem_of_cons.
  rewrite find_sub_unfold. simpl.
  destruct (N.eqb_spec a x) as [->|]; [done|]. simpl. by rewrite IH.
Qed.

Lemma find_sub_clean_prefix a sep p r :
  a ∉ p → find_sub (a :: sep) (p ++ (a :: sep) ++ r) = Some (length p).
Proof.
  induction p as [|x p IH]; [intros _; apply (find_sub_self (a :: sep) r)|].
  intros [Hx Hp]%not_elem_of_cons.
  change ((x :: p) ++ (a :: sep) ++ r) with (x :: (p ++ (a :: sep) ++ r)).
  rewrite find_sub_cons; [by rewrite IH|].
  simpl. by destruct (N.eqb_spec a x) as [->|].
Qed.

Lemma strip_app_keep pr p a m b q :
  pr a = false → pr b = false →
  strip_with pr (p ++ (a :: m ++ [b]) ++ q)
  = lstrip_with pr p ++ (a :: m ++ [b]) ++ rstrip_with pr q.
Proof.
  intros Ha Hb. unfold strip_with. simpl. rewrite lstrip_app_keep by done.
  replace (lstrip_with pr p ++ a :: (m ++ [b]) ++ q)
    with ((lstrip_with pr p ++ a :: m) ++ b :: q) by (by rewrite <- !app_assoc).
  rewrite rstrip_app_keep by done. by rewrite <- !app_assoc.
Qed.

(** After the closing marker, the tagged marker can only stand at once. *)
Lemma tag_after_fence q :
  96%N ∉ q →
  find_sub fence_json (fence ++ q) = Some 0 ∨ find_sub fence_json (fence ++ q) = None.
Proof.
  intros Hq. rewrite find_sub_unfold.
  destruct (starts_with fence_json (fence ++ q)); [by left|right].
  change (fence ++ q) with (96%N :: 96%N :: 96%N :: q). cbv iota.
  change fence_json with (96%N :: [96; 96; 106; 115; 111; 110]%N).
  assert (H3 : find_sub (96%N :: [96; 96; 106; 115; 111; 110]%N) q = None)
    by by apply find_sub_absent.
  assert (Hh : ∀ t, starts_with (96%N :: t) q = false).
  { intros t. destruct q as [|x q']; [done|]. apply not_elem_of_cons in Hq as [Hx _].
    change (((96 =? x)%N && starts_with t q') = false).
    by rewrite (proj2 (N.eqb_neq _ _) Hx). }
  assert (H2 : find_sub (96%N :: [96; 96; 106; 115; 111; 110]%N) (96%N :: q) = None).
  { rewrite find_sub_cons; [by rewrite H3|]. simpl. apply (Hh [96; 106; 115; 111; 110]%N). }
  assert (H1 : find_sub (96%N :: [96; 96; 106; 115; 111; 110]%N) (96%N :: 96%N :: q) = None).
  { rewrite find_sub_cons; [by rewrite H2|]. simpl. apply (Hh [106; 115; 111; 110]%N). }
  by rewrite H1.
Qed.

Lemma fenced_block_core p j q :
  96%N ∉ p → 96%N ∉ q → find_sub fence j = None →
  contains fence_json (p ++ fenced_json j ++ q) = true
  ∧ strip (item 0 (split fence (item 1 (split fence_json (p ++ fenced_json j ++ q)))))
    = strip j.
Proof.
  intros Hp Hq Hj.
  assert (Hjj : find_sub fence_json j = None) by (by apply find_sub_longer).
  assert (HT : p ++ fenced_json j ++ q
               = p ++ fence_json ++ 10%N :: j ++ 10%N :: fence ++ q).
  { unfold fenced_json. rewrite <- !app_assoc. simpl. by rewrite <- !app_assoc. }
  rewrite HT.
  assert (Hfind : find_sub fence_json (p ++ fence_json ++ 10%N :: j ++ 10%N :: fence ++ q)
                  = Some (length p)).
  { apply (find_sub_clean_prefix 96%N [96; 96; 106; 115; 111; 110]%N). exact Hp. }
  split; [unfold contains; by rewrite Hfind|].
  rewrite (item1_split _ _ (length p)) by done.
  rewrite app_assoc, <- length_app, drop_app_length.
  rewrite item0_split by done.
  set (R := 10%N :: j ++ 10%N :: fence ++ q).
  assert (HfR : find_sub fence R = Some (length j + 2)).
  { unfold R. change (10%N :: j ++ 10%N :: fence ++ q)
      with ([] ++ 10%N :: (j ++ 10%N :: fence ++ q)).
    rewrite find_sub_past; [|apply nl_not_in_fence|done|done].
    rewrite find_sub_past; [|apply nl_not_in_fence|done|done].
    rewrite find_sub_self. simpl. f_equal. lia. }
  assert (HtR : find_sub fence_json R = Some (length j + 2) ∨ find_sub fence_json R = None).
  { unfold R. change (10%N :: j ++ 10%N :: fence ++ q)
      with ([] ++ 10%N :: (j ++ 10%N :: fence ++ q)).
    rewrite find_sub_past; [|apply nl_not_in_fence_json|done|done].
    rewrite find_sub_past; [|apply nl_not_in_fence_json|done|done].
    destruct (tag_after_fence q Hq) as [-> | ->]; [left|by right].
    simpl. f_equal. lia. }
  destruct (find_fence_inner j Hj) as (_ & _ & Hnone).
  assert (Hb : before fence (before fence_json R) = 10%N :: j ++ [10%N]).
  { unfold before at 2. destruct HtR as [-> | ->].
    - unfold R. rewrite take_inner. unfold before. by rewrite Hnone.
    - unfold before. rewrite HfR. unfold R. by rewrite take_inner. }
  rewrite Hb. apply strip_between.
Qed.

(** X6. A fenced block tagged [json] inside prose: when neither the prose
    before nor the prose after holds a backquote and the payload holds no
    fence marker, the text handed to [json.loads] is the payload stripped;
    the prose on both sides is dropped. *)
Theorem fenced_block_in_prose (p j q : pystr) :
  96%N ∉ p → 96%N ∉ q → contains fence j = false →
  strip_fences (p ++ fenced_json j ++ q) = strip j.
Proof.
  intros Hp Hq Hj%contains_false. unfold strip_fences.
  assert (Hs : strip (p ++ fenced_json j ++ q)
               = lstrip_with isspace p ++ fenced_json j ++ rstrip_with isspace q).
  { assert (Hf : fenced_json j
                 = 96%N :: ([96; 96; 106; 115; 111; 110; 10]%N ++ j ++ [10; 96; 96]%N)
                   ++ [96%N]).
    { rewrite <- !app_assoc. reflexivity. }
    rewrite Hf. by apply strip_app_keep. }
  rewrite Hs.
  assert (Hp' : 96%N ∉ lstrip_with isspace p).
  { destruct (lstrip_suffix isspace p) as [a Ha]. intros Hin. apply Hp.
    rewrite Ha. apply elem_of_app. by right. }
  assert (Hq' : 96%N ∉ rstrip_with isspace q).
  { destruct (rstrip_prefix isspace q) as [b Hb]. intros Hin. apply Hq.
    rewrite Hb. apply elem_of_app. by left. }
  destruct (fenced_block_core _ j _ Hp' Hq' Hj) as [-> ->]. done.
Qed.

Lemma fenced_block_in_prose_witness :
  strip_fences (u "Here is the result: " ++ fenced_json (u "{}") ++ u " Hope it helps.")
  = u "{}".
Proof.
  apply (fenced_block_in_prose (u "Here is the result: ") (u "{}") (u " Hope it helps."));
    [vm_compute..|reflexivity].
  - intros Hin. repeat (apply elem_of_cons in Hin as [Hin|Hin]; [discriminate|]).
    by apply elem_of_nil in Hin.
  - intros Hin. repeat (apply elem_of_cons in Hin as [Hin|Hin]; [discriminate|]).
    by apply elem_of_nil in Hin.
Defined.

(** ** The success flag of [analyze_pdf_with_gemini] *)

Lemma ai_failure_success r t e : a_success (ai_failure r t e) = a_success r.
Proof. by destruct e. Qed.

Lemma read_response_success `{Runtime} filename text :
  a_success (read_response filename text) = true
  ↔ ∃ data, json_loads (strip_fences text) = Return data.
Proof.
  unfold read_response. cbv zeta. destruct (json_loads (strip_fences text)) as [data|e].
  - split; [eauto|intros _]. destruct data; reflexivity.
  - rewrite ai_failure_success. simpl. split; [done|]. by intros [? ?].
Qed.

(** X7. [analyze_pdf_with_gemini] reports [success = true] exactly when
    the model answered and the text cut out of the answer is JSON, whatever
    that JSON is. *)
Theorem ai_success_iff_json `{Runtime} (f : file) (filename : pystr) :
  a_success (analyze_pdf_with_gemini f filename) = true
  ↔ ∃ text data, f_gemini f = Return text ∧ json_loads (strip_fences text) = Return data.
Proof.
  unfold analyze_pdf_with_gemini. destruct (f_gemini f) as [text|e].
  - rewrite read_response_success. split.
    + intros [data Hd]. eauto.
    + intros (t & data & [= <-] & Hd). eauto.
  - rewrite ai_failure_success. simpl. split; [done|]. by intros (? & ? & ? & _).
Qed.

Lemma json_get_non_object key dflt data :
  is_object data = false →
  json_get key dflt data
  = Raise (AttributeError (u "'" ++ type_name data ++ u "' object has no attribute 'get'")).
Proof. destruct data; first [discriminate | reflexivity]. Qed.

Lemma bind_raise {A B} (e : exn) (k : A → outcome B) : Raise e ≫= k = Raise e.
Proof. reflexivity. Qed.

Lemma attribute_error_text (t r : pystr) :
  u "Ошибка AI-анализа: " ++ (u "'" ++ t ++ r) = u "Ошибка AI-анализа: '" ++ t ++ r.
Proof. vm_compute. reflexivity. Qed.

(** X8. When the answer is JSON but not an object (a number, a list, a
    string, [null]), the record has [success = true] together with the
    error of the missing [get], and none of its fields is filled in. *)
Theorem ai_non_object_answer `{Runtime} (f : file) (filename text : pystr) (data : json) :
  f_gemini f = Return text →
  json_loads (strip_fences text) = Return data →
  is_object data = false →
  analyze_pdf_with_gemini f filename
  = {| a_filename := filename; a_success := true;
       a_report_type := JNull; a_report_year := JNull; a_company_info := JObj [];
       a_multi_year_data := JNull; a_analysis := JNull;
       a_text := None;
       a_error := Some (u "Ошибка AI-анализа: '" ++ type_name data
                        ++ u "' object has no attribute 'get'");
       a_raw_response := None |}.
Proof.
  intros Hg Hd Ho. unfold analyze_pdf_with_gemini, read_response. rewrite Hg. cbv zeta.
  rewrite Hd. rewrite (json_get_non_object "report_type") by done. rewrite bind_raise.
  unfold ai_failure, exn_str.
  cbn [a_filename a_success a_report_type a_report_year a_company_info
       a_multi_year_data a_analysis a_text a_error a_raw_response].
  rewrite attribute_error_text. reflexivity.
Qed.

Lemma ai_non_object_answer_witness :
  @analyze_pdf_with_gemini sample_runtime number_answer (u "report.pdf")
  = {| a_filename := u "report.pdf"; a_success := true;
       a_report_type := JNull; a_report_year := JNull; a_company_info := JObj [];
       a_multi_year_data := JNull; a_analysis := JNull;
       a_text := None;
       a_error := Some (u "Ошибка AI-анализа: '" ++ type_name (JInt 42)
                        ++ u "' object has no attribute 'get'");
       a_raw_response := None |}.
Proof.
  apply (@ai_non_object_answer sample_runtime number_answer (u "report.pdf") (u "42")
           (JInt 42)); vm_compute; reflexivity.
Defined.

(** ** What [extract_from_xml] returns *)

(** X9. [extract_from_xml] reports success exactly when one of its two
    readings of the file parses.  When the structured reading parses, its
    record is returned and the generic reading is not made; when both fail,
    the error kept is that of the generic reading, the first is dropped. *)
Theorem extract_from_xml_outcomes `{Runtime} (xml_path : pystr) (f : file) :
  (success (extract_from_xml xml_path f).1 = true
   ↔ (∃ root, f_markup f = Return root) ∨ (∃ root, f_generic f = Return root))
  ∧ (∀ root, f_markup f = Return root →
       extract_from_xml xml_path f
       = (FromXml (parse_accounting_xml (basename xml_path) (Return root)), [EvStructured]))
  ∧ (∀ e1 e2, f_markup f = Raise e1 → f_generic f = Raise e2 →
       extract_from_xml xml_path f
       = (FromPlain {| s_filename := basename xml_path; s_success := false; s_text := [];
                       s_data := None; s_error := Some (exn_str e2) |},
          [EvStructured; EvGenericMarkup])).
Proof.
  unfold extract_from_xml. split; [|split].
  - destruct (f_markup f) as [root|e1]; cbn [parse_accounting_xml x_success fst success].
    + split; eauto.
    + destruct (f_generic f) as [root|e2]; cbn [success s_success].
      * split; eauto.
      * split; [done|]. by intros [[? ?]|[? ?]].
  - by intros root ->.
  - by intros e1 e2 -> ->.
Qed.

(** ** Descendants in document order *)

(** X10. [find_desc t e], the model of [e.find('.//t')], is the first
    element tagged [t] among the descendants of [e] in document order, [e]
    itself left out; it is [None] exactly when no descendant has the tag. *)
Theorem find_desc_first_in_document_order (t : string) (e : Element) :
  find_desc t e = head (filter (λ d, tag_of d = t) (concat_map iter (children_of e)))
  ∧ (find_desc t e = None ↔ Forall (λ d, tag_of d ≠ t) (concat_map iter (children_of e))).
Proof.
  split; [apply find_desc_head|]. rewrite find_desc_head. apply head_filter_none.
Qed.

(** X11. A file whose root is the [Документ] element itself, with no such
    element below it, is parsed as an empty report: the attributes and the
    blocks of the root are not read, and [success] is still [true]. *)
Theorem document_as_root_not_read `{Runtime} (filename : pystr)
    (a : gmap string pystr) (x : option pystr) (ch : list Element) :
  Forall (λ d, tag_of d ≠ "Документ") (concat_map iter ch) →
  let r := parse_accounting_xml filename (Return (Elem "Документ" a x ch)) in
  x_success r = true ∧ x_report_year r = None ∧ x_report_date r = None
  ∧ x_report_type r = None ∧ x_company_info r = ∅
  ∧ x_balance r = ∅ ∧ x_financial_results r = ∅
  ∧ x_multi_year_data r = Some (MultiYear [] ∅ ∅).
Proof.
  intros Hch.
  assert (Hdoc : find_desc "Документ" (Elem "Документ" a x ch) = None).
  { rewrite find_desc_head. by apply head_filter_none. }
  unfold parse_accounting_xml. cbv zeta. rewrite Hdoc.
  cbn [x_success x_report_year x_report_date x_report_type x_company_info x_balance
       x_financial_results x_multi_year_data mbind option_bind fmap option_fmap
       option_map from_option].
  repeat (split; [reflexivity|]). reflexivity.
Qed.

Lemma document_as_root_not_read_witness :
  let r := @parse_accounting_xml plain_runtime (u "report.xml") (Return document_root) in
  x_success r = true ∧ x_report_year r = None ∧ x_report_date r = None
  ∧ x_report_type r = None ∧ x_company_info r = ∅
  ∧ x_balance r = ∅ ∧ x_financial_results r = ∅
  ∧ x_multi_year_data r = Some (MultiYear [] ∅ ∅).
Proof.
  apply (@document_as_root_not_read plain_runtime (u "report.xml")
           (attrs [("ОтчетГод", "2023"); ("КНД", "0710099")]) None
           [balance_block; income_block]).
  repeat constructor; discriminate.
Defined.

(** ** [safe_get] *)

Lemma safe_get_null keys : safe_get JNull keys = JNull.
Proof. by destruct keys. Qed.

Lemma safe_get_app data k1 k2 :
  safe_get data (k1 ++ k2) = safe_get (safe_get data k1) k2.
Proof.
  revert data. induction k1 as [|k r IH]; intros data; [done|]. simpl.
  destruct data; try by rewrite safe_get_null.
  destruct (default JNull (assoc k fields)); try apply IH. by rewrite safe_get_null.
Qed.

(** X12. [safe_get] walks a path of keys: a path in two parts is the second
    part walked from where the first arrives, and a value that is not an
    object with keys still to walk gives [None]. *)
Theorem safe_get_path (data : json) (k1 k2 : list pystr) :
  safe_get data (k1 ++ k2) = safe_get (safe_get data k1) k2
  ∧ (is_object (safe_get data k1) = false → k2 ≠ [] → safe_get data (k1 ++ k2) = JNull).
Proof.
  split; [apply safe_get_app|]. intros Ho Hk. rewrite safe_get_app.
  destruct k2 as [|k r]; [done|]. by destruct (safe_get data k1).
Qed.

(** ** [clean_name] *)

Lemma elem_of_replace_char_nil (c o : N) s :
  c ∈ replace_char o [] s ↔ c ∈ s ∧ c ≠ o.
Proof.
  unfold replace_char. induction s as [|x s IH]; simpl.
  - split; [by intros ?%elem_of_nil|by intros [?%elem_of_nil _]].
  - destruct (N.eqb_spec x o) as [->|Hx]; simpl.
    + rewrite IH, elem_of_cons. split; [by intros [? ?]; split; [right|]|].
      intros [[->|?] ?]; done.
    + rewrite !elem_of_cons, IH. split.
      * intros [->|[? ?]]; split; auto.
      * intros [[->|?] ?]; auto.
Qed.

(** X13. A label made by [clean_name] has fifty characters at most and
    none of the quotation mark, the brackets and the parentheses; a name
    that is not empty, has none of them and is short enough is its own
    label. *)
Theorem clean_name_label (name : option pystr) :
  length (clean_name name) ≤ 50
  ∧ (∀ c, c ∈ [34; 91; 93; 40; 41]%N → c ∉ clean_name name)
  ∧ (∀ s, name = Some s → s ≠ [] → length s ≤ 50 →
       (∀ c, c ∈ [34; 91; 93; 40; 41]%N → c ∉ s) → clean_name name = s).
Proof.
  unfold clean_name. split; [|split].
  - destruct (truthy name); [|vm_compute; lia]. rewrite length_take. lia.
  - intros c Hc. destruct (truthy name).
    + intros Hin%subseteq_take.
      rewrite !elem_of_replace_char_nil in Hin.
      destruct Hin as (((((_ & H34) & H91) & H93) & H40) & H41).
      repeat (apply elem_of_cons in Hc as [->|Hc]; [done|]). by apply elem_of_nil in Hc.
    + intros Hin. vm_compute in Hin.
      repeat (apply elem_of_cons in Hc as [->|Hc];
              [repeat (apply elem_of_cons in Hin as [Hin|Hin]; [discriminate|]);
               by apply elem_of_nil in Hin|]).
      by apply elem_of_nil in Hc.
  - intros s -> Hne Hlen Hs.
    assert (truthy (Some s) = true) as -> by (by destruct s).
    assert (Ha : ∀ c, c ∈ [34; 91; 93; 40; 41]%N → replace_char c [] s = s).
    { intros c Hc. unfold replace_char.
      specialize (Hs c Hc). clear -Hs. induction s as [|x s IH]; [done|].
      apply not_elem_of_cons in Hs as [Hx Hs]. simpl.
      destruct (N.eqb_spec x c) as [->|]; [done|]. simpl. by rewrite IH. }
    simpl default.
    rewrite (Ha 34%N), (Ha 91%N), (Ha 93%N), (Ha 40%N), (Ha 41%N), take_ge;
      first [done | lia | set_solver].
Qed.

(** ** The test for markup links *)

Lemma find_sub_some_app sep a b : is_Some (find_sub sep (a ++ sep ++ b)).
Proof.
  induction a as [|x a IH].
  { rewrite (find_sub_self sep b : find_sub sep ([] ++ sep ++ b) = _). eauto. }
  rewrite find_sub_unfold.
  destruct (starts_with sep ((x :: a) ++ sep ++ b)); [eauto|].
  simpl. destruct IH as [k ->]. simpl. eauto.
Qed.

(** X14. A link is taken for markup as soon as [".xml"] stands anywhere in
    it, in any mix of upper and lower case: not only at its end. *)
Theorem link_is_xml_anywhere (p s q : pystr) :
  lower s = u ".xml" → link_is_xml (p ++ s ++ q) = true.
Proof.
  intros Hs. unfold link_is_xml, lower in *. rewrite !fmap_app, Hs.
  unfold contains.
  by destruct (find_sub_some_app (u ".xml") (lower_char <$> p) (lower_char <$> q))
    as [k ->].
Qed.

Lemma link_is_xml_anywhere_witness :
  link_is_xml (u "/files/report" ++ u ".XML" ++ u ".pdf?id=7") = true.
Proof.
  apply (link_is_xml_anywhere (u "/files/report") (u ".XML") (u ".pdf?id=7")).
  vm_compute. reflexivity.
Defined.

(** ** The requests of [download_and_parse_boh] *)

Lemma request_listing_ext server server' attempts :
  (∀ i, i ∈ attempts → server' i = server i) →
  request_listing server' attempts = request_listing server attempts.
Proof.
  induction attempts as [|a rest IH]; [done|]. intros Hs. simpl.
  rewrite (Hs a) by (by left). rewrite IH; [done|]. intros i Hi. apply Hs. by right.
Qed.

(** X15. The listing is requested three times at most.  Three answers 429
    in a row end the function with the entry [429] after waits of 60, 120
    and 180 seconds; another HTTP status ends it at once with that status;
    an exception that is no [HTTPError] leaves the function. *)
Theorem listing_requests `{Runtime} (state_inn : pystr) (server : nat → listing)
    (join_url : pystr → outcome pystr) (downloads : nat → pystr → outcome file) :
  (∀ server', (∀ i, i < 3 → server' i = server i) →
     download_and_parse_boh state_inn server' join_url downloads
     = download_and_parse_boh state_inn server join_url downloads)
  ∧ (server 0 = HttpError 429 → server 1 = HttpError 429 → server 2 = HttpError 429 →
     download_and_parse_boh state_inn server join_url downloads
     = (Return [ListingError (u "429")], [20; 60; 120; 180]))
  ∧ (∀ status, status ≠ 429 → server 0 = HttpError status →
     download_and_parse_boh state_inn server join_url downloads
     = (Return [ListingError (u "HTTP " ++ str_of_int (Z.of_nat status))], [20]))
  ∧ (∀ e, server 0 = RequestError e →
     download_and_parse_boh state_inn server join_url downloads = (Raise e, [20])).
Proof.
  unfold download_and_parse_boh. split; [|split; [|split]].
  - intros server' Hs. rewrite (request_listing_ext server server'); [done|].
    intros i Hi. apply Hs.
    repeat (apply elem_of_cons in Hi as [->|Hi]; [lia|]). by apply elem_of_nil in Hi.
  - intros H0 H1 H2. simpl. by rewrite H0, H1, H2.
  - intros status Hst H0. simpl. rewrite H0.
    by rewrite (proj2 (Nat.eqb_neq status 429) Hst).
  - intros e H0. simpl. by rewrite H0.
Qed.

(** ** The entries of [download_and_parse_boh] *)

Lemma link_entries_length `{Runtime} inn idx href download :
  1 ≤ length (link_entries inn idx href download) ≤ 2.
Proof. unfold link_entries. destruct (display_error _); simpl; lia. Qed.

Lemma with_href_cons h links :
  with_href (h :: links) = (if truthy h then 1 else 0) + with_href links.
Proof.
  unfold with_href. rewrite filter_cons. by destruct (truthy h).
Qed.

Lemma link_loop_entries `{Runtime} inn idx links join_url downloads :
  joinable join_url links →
  ∃ entries,
    (link_loop inn idx links join_url downloads).1 = Return entries
    ∧ with_href links ≤ length entries ≤ 2 * with_href links.
Proof.
  intros Hj. revert idx. induction Hj as [|h links Hh _ IH]; intros idx.
  { exists []. split; [done|]. unfold with_href. simpl. lia. }
  simpl. rewrite with_href_cons. destruct (IH (S idx)) as (later & Hl & Hn).
  destruct (truthy h); [|exists later; split; [done|lia]].
  destruct (Hh eq_refl) as [url ->].
  destruct (link_loop inn (S idx) links join_url downloads) as [r more].
  simpl in Hl. subst r. simpl. eexists. split; [done|]. rewrite length_app.
  pose proof (link_entries_length inn idx (default [] h) (downloads idx url)). lia.
Qed.

Lemma link_loop_waits `{Runtime} inn idx links join_url downloads :
  joinable join_url links → 1 < idx →
  (link_loop inn idx links join_url downloads).2 = repeat 20 (with_href links).
Proof.
  intros Hj. revert idx. induction Hj as [|h links Hh _ IH]; intros idx Hidx; [done|].
  simpl. rewrite with_href_cons. specialize (IH (S idx) ltac:(lia)).
  destruct (truthy h); [|done].
  destruct (Hh eq_refl) as [url ->].
  destruct (link_loop inn (S idx) links join_url downloads) as [r more].
  simpl in IH. subst more. simpl.
  by destruct (Nat.ltb_spec 1 idx); [|lia].
Qed.

Lemma link_loop_raises `{Runtime} inn idx pre h post e join_url downloads :
  joinable join_url pre → h ≠ [] → join_url h = Raise e →
  (link_loop inn idx (pre ++ Some h :: post) join_url downloads).1 = Raise e.
Proof.
  intros Hj Hne He. revert idx. induction Hj as [|x pre Hx _ IH]; intros idx.
  - destruct h as [|c h']; [done|]. simpl. by rewrite He.
  - simpl. specialize (IH (S idx)). destruct (truthy x).
    + destruct (Hx eq_refl) as [url ->].
      destruct (link_loop inn (S idx) (pre ++ Some h :: post) join_url downloads)
        as [r more].
      simpl in IH. by subst r.
    + exact IH.
Qed.

(** X16. When the listing is obtained at the first request and [urljoin]
    accepts the [href] of every link that has one, every such link gives
    one entry of [boh_parsed] or two, whatever happens to its download, and
    a link without [href] gives none; the function sleeps 20 seconds at its
    start and 20 seconds before each link with an [href] but the first of
    the listing.  When [urljoin] refuses an [href], its exception leaves
    the function and the entries made so far are lost. *)
Theorem entries_per_link `{Runtime} (state_inn : pystr) (server : nat → listing)
    (join_url : pystr → outcome pystr) (downloads : nat → pystr → outcome file)
    (links : list (option pystr)) :
  server 0 = Listing links →
  (joinable join_url links →
     ∃ entries,
       download_and_parse_boh state_inn server join_url downloads
       = (Return (Entry <$> entries), 20 :: repeat 20 (with_href (tail links)))
       ∧ with_href links ≤ length entries ≤ 2 * with_href links)
  ∧ (∀ pre h post e,
       links = pre ++ Some h :: post → joinable join_url pre → h ≠ [] →
       join_url h = Raise e →
       (download_and_parse_boh state_inn server join_url downloads).1 = Raise e).
Proof.
  intros H0. unfold download_and_parse_boh. simpl. rewrite H0. split.
  - intros Hj. case_bool_decide as Hl.
    { subst links. exists []. split; [done|]. unfold with_href. simpl. lia. }
    destruct links as [|h links]; [done|]. clear Hl. simpl tail.
    destruct (link_loop_entries (normalize_inn state_inn) 1 (h :: links) join_url
                downloads Hj) as (entries & He & Hn).
    assert (Hw : (link_loop (normalize_inn state_inn) 1 (h :: links) join_url downloads).2
                 = repeat 20 (with_href links)).
    { apply Forall_cons in Hj as [Hh Hj]. simpl.
      pose proof (link_loop_waits (normalize_inn state_inn) 2 links join_url downloads
                    Hj ltac:(lia)) as Hw.
      destruct (truthy h); [|exact Hw].
      destruct (Hh eq_refl) as [url ->].
      destruct (link_loop (normalize_inn state_inn) 2 links join_url downloads)
        as [r more].
      simpl in Hw. by subst more. }
    destruct (link_loop (normalize_inn state_inn) 1 (h :: links) join_url downloads)
      as [r more].
    simpl in He, Hw. subst r more. exists entries. by split.
  - intros pre h post e -> Hj Hne He.
    rewrite bool_decide_eq_false_2 by by destruct pre.
    pose proof (link_loop_raises (normalize_inn state_inn) 1 pre h post e join_url
                  downloads Hj Hne He) as Hr.
    destruct (link_loop (normalize_inn state_inn) 1 (pre ++ Some h :: post) join_url
                downloads) as [r more].
    simpl in Hr. by subst r.
Qed.

Lemma entries_per_link_witness :
  ((joinable sample_join_url sample_listing →
    ∃ entries,
      @download_and_parse_boh plain_runtime (u "7707083893") (λ _, Listing sample_listing)
        sample_join_url (λ _ _, Return markup_file)
      = (Return (Entry <$> entries), 20 :: repeat 20 (with_href (tail sample_listing)))
      ∧ with_href sample_listing ≤ length entries ≤ 2 * with_href sample_listing)
   ∧ (∀ pre h post e,
        sample_listing = pre ++ Some h :: post → joinable sample_join_url pre → h ≠ [] →
        sample_join_url h = Raise e →
        (@download_and_parse_boh plain_runtime (u "7707083893")
           (λ _, Listing sample_listing) sample_join_url (λ _ _, Return markup_file)).1
        = Raise e))
  ∧ (@download_and_parse_boh plain_runtime (u "7707083893") (λ _, Listing broken_listing)
       sample_join_url (λ _ _, Return markup_file)).1
    = Raise (ValueError (u "Invalid IPv6 URL")).
Proof.
  split.
  - apply (@entries_per_link plain_runtime (u "7707083893") (λ _, Listing sample_listing)
             sample_join_url (λ _ _, Return markup_file) sample_listing).
    reflexivity.
  - apply (proj2 (@entries_per_link plain_runtime (u "7707083893")
                    (λ _, Listing broken_listing) sample_join_url
                    (λ _ _, Return markup_file) broken_listing eq_refl)
             [Some (u "/files/1.xml")] (u "//[") [Some (u "/files/3.pdf")]
             (ValueError (u "Invalid IPv6 URL"))).
    + reflexivity.
    + constructor; [|constructor]. intros _. eexists. vm_compute. reflexivity.
    + discriminate.
    + vm_compute. reflexivity.
Defined.

Lemma json_get_object key dflt fields :
  json_get key dflt (JObj fields) = Return (default dflt (assoc (u key) fields)).
Proof. reflexivity. Qed.

(** X17. A report for which the service answers an object whose
    [analysis] is a true value but no object (a text, say) gets two entries:
    the record of the analysis with [success = true], then an error entry
    of the same file name for the missing [get]. *)
Theorem analysis_text_gives_two_entries `{Runtime} (inn : pystr) (idx : nat)
    (href : pystr) (f : file) (text : pystr) (fields : list (pystr * json))
    (analysis : json) :
  link_is_xml href = false →
  f_gemini f = Return text →
  json_loads (strip_fences text) = Return (JObj fields) →
  assoc (u "analysis") fields = Some analysis →
  json_truthy analysis = true → is_object analysis = false →
  ∃ a, link_entries inn idx href (Return f)
       = [FromAI a;
          Failed (link_filename inn idx href)
            (u "'" ++ type_name analysis ++ u "' object has no attribute 'get'")]
       ∧ a_success a = true ∧ a_analysis a = analysis.
Proof.
  intros Hx Hg Hd Ha Ht Ho. unfold link_entries, process_link.
  rewrite Hx, (pdf_path_not_xml inn idx href Hx). cbn [orb fst].
  unfold analyze_pdf_with_gemini, read_response. rewrite Hg. cbv zeta. rewrite Hd.
  rewrite !json_get_object. rewrite Ha.
  cbn [mbind outcome_bind mret outcome_ret display_error a_success a_analysis default andb].
  unfold id. rewrite Ht.
  destruct analysis;
    first [discriminate Ht | discriminate Ho
          | eexists; split; [reflexivity|split; reflexivity]].
Qed.

Lemma analysis_text_gives_two_entries_witness :
  ∃ a, @link_entries answer_runtime (u "7707083893") 1 (u "/files/1.pdf")
         (Return text_analysis_answer)
       = [FromAI a;
          Failed (link_filename (u "7707083893") 1 (u "/files/1.pdf"))
            (u "'" ++ type_name (JStr (u "ok")) ++ u "' object has no attribute 'get'")]
       ∧ a_success a = true ∧ a_analysis a = JStr (u "ok").
Proof.
  apply (@analysis_text_gives_two_entries answer_runtime (u "7707083893") 1
           (u "/files/1.pdf") text_analysis_answer answer_text
           [(u "analysis", JStr (u "ok"))] (JStr (u "ok")));
    vm_compute; reflexivity.
Defined.

(** ** From the attributes to the rows of the table *)

Lemma add_row3_lookup_ne key label d m l :
  label ≠ l → add_row3 key label d m !! l = m !! l.
Proof. intros Hl. unfold add_row3. destruct (d !! key); [by rewrite lookup_insert_ne|done]. Qed.

Lemma add_row2_lookup_ne key label d m l :
  label ≠ l → add_row2 key label d m !! l = m !! l.
Proof. intros Hl. unfold add_row2. destruct (d !! key); [by rewrite lookup_insert_ne|done]. Qed.

Lemma add_pair_lookup_ne tag key parent d k :
  key ≠ k → add_pair tag key parent d !! k = d !! k.
Proof.
  intros Hk. unfold add_pair. destruct (find_desc tag parent); [by rewrite lookup_insert_ne|done].
Qed.

Lemma balance_of_active bal act :
  find_desc "Актив" bal = Some act → balance_of bal !! "active" = Some (active_side act).
Proof.
  intros Ha. unfold balance_of. rewrite Ha. cbv zeta.
  destruct (find_desc "Пассив" bal).
  - rewrite lookup_insert_ne by done. by rewrite lookup_insert_eq.
  - by rewrite lookup_insert_eq.
Qed.

Lemma multi_year_balance_active balance s :
  balance !! "active" = Some s →
  multi_year_balance balance !! "АКТИВ (всего)" = Some (totals_row s).
Proof.
  intros Hs. unfold multi_year_balance. rewrite Hs. cbv zeta.
  destruct (balance !! "passive").
  - rewrite !add_row3_lookup_ne by done. rewrite lookup_insert_ne by done.
    rewrite !add_row3_lookup_ne by done. by rewrite lookup_insert_eq.
  - rewrite !add_row3_lookup_ne by done. by rewrite lookup_insert_eq.
Qed.

Lemma financial_results_of_revenue fr e :
  find_desc "Выруч" fr = Some e → financial_results_of fr !! "revenue" = Some (sums2 e).
Proof.
  intros He. unfold financial_results_of. cbv zeta.
  rewrite !add_pair_lookup_ne by done. unfold add_pair. rewrite He.
  by rewrite lookup_insert_eq.
Qed.

Lemma multi_year_financial_results_revenue frm p :
  frm !! "revenue" = Some p →
  multi_year_financial_results frm !! "Выручка"
  = Some [of_opt (current2 p); of_opt (previous p)].
Proof.
  intros Hp. unfold multi_year_financial_results. cbv zeta.
  rewrite !add_row2_lookup_ne by done. unfold add_row2. rewrite Hp.
  by rewrite lookup_insert_eq.
Qed.

Lemma lookup_not_empty {A} (m : gmap string A) k v : m !! k = Some v → m ≠ ∅.
Proof. intros Hk ->. by rewrite lookup_empty in Hk. Qed.

(** X18. The rows of totals carry the attributes of the document as they
    stand: for a document with a balance whose [Актив] element is found,
    the row [АКТИВ (всего)] is the three sums of that element, a missing
    attribute giving [None]; for one whose income block has a [Выруч]
    element, the row [Выручка] is its two sums. *)
Theorem table_rows_from_attributes `{Runtime} (filename : pystr) (root doc : Element) :
  find_desc "Документ" root = Some doc →
  ∃ my, x_multi_year_data (parse_accounting_xml filename (Return root)) = Some my
    ∧ (∀ bal act,
         find_desc "Баланс" doc = Some bal → find_desc "Актив" bal = Some act →
         my_balance my !! "АКТИВ (всего)"
         = Some [of_opt (get_attr "СумОтч" act); of_opt (get_attr "СумПрдШв" act);
                 of_opt (get_attr "СумПрдЩ" act)])
    ∧ (∀ fr e,
         find_desc "ФинРез" doc = Some fr → find_desc "Выруч" fr = Some e →
         my_financial_results my !! "Выручка"
         = Some [of_opt (get_attr "СумОтч" e); of_opt (get_attr "СумПред" e)]).
Proof.
  intros Hdoc. unfold parse_accounting_xml. cbv zeta. rewrite Hdoc.
  cbn [x_multi_year_data]. eexists. split; [reflexivity|]. unfold build_multi_year.
  cbn [my_balance my_financial_results mbind option_bind from_option]. split.
  - intros bal act Hbal Hact. rewrite Hbal. cbn [from_option].
    pose proof (balance_of_active bal act Hact) as Hb.
    rewrite bool_decide_eq_false_2 by by eapply lookup_not_empty.
    by rewrite (multi_year_balance_active _ _ Hb).
  - intros fr e Hfr He. rewrite Hfr. cbn [from_option].
    pose proof (financial_results_of_revenue fr e He) as Hr.
    rewrite bool_decide_eq_false_2 by by eapply lookup_not_empty.
    by rewrite (multi_year_financial_results_revenue _ _ Hr).
Qed.

Lemma table_rows_from_attributes_witness :
  ∃ my, x_multi_year_data (@parse_accounting_xml plain_runtime (u "report.xml")
                             (Return full_doc)) = Some my
    ∧ (∀ bal act,
         find_desc "Баланс" document_root = Some bal → find_desc "Актив" bal = Some act →
         my_balance my !! "АКТИВ (всего)"
         = Some [of_opt (get_attr "СумОтч" act); of_opt (get_attr "СумПрдШв" act);
                 of_opt (get_attr "СумПрдЩ" act)])
    ∧ (∀ fr e,
         find_desc "ФинРез" document_root = Some fr → find_desc "Выруч" fr = Some e →
         my_financial_results my !! "Выручка"
         = Some [of_opt (get_attr "СумОтч" e); of_opt (get_attr "СумПред" e)]).
Proof.
  apply (@table_rows_from_attributes plain_runtime (u "report.xml") full_doc document_root).
  reflexivity.
Defined.

(** ** What the effective [extract_from_pdf] calls *)

Lemma extract_from_xml_events `{Runtime} path f ev :
  ev ∈ (extract_from_xml path f).2 → ev ∈ [EvStructured; EvGenericMarkup].
Proof.
  unfold extract_from_xml. destruct (x_success _); simpl; [|done].
  intros ->%list_elem_of_singleton. by left.
Qed.

(** X19. Whatever the file, the definition the name [extract_from_pdf] is
    bound to calls nothing but the structured and the generic markup
    readers, or one of the two text engines: no structural diagnostic, no
    character recognition, no heuristic parse of the text and no AI
    extractor. *)
Theorem extract_from_pdf_events `{Runtime} (pdf_path : pystr) (f : file) (ev : event) :
  ev ∈ (extract_from_pdf pdf_path f).2 →
  ev ∈ [EvStructured; EvGenericMarkup; EvEngineA; EvEngineB]
  ∧ ev ≠ EvDiagnostic ∧ ev ≠ EvOcr ∧ ev ≠ EvHeuristic ∧ ev ≠ EvDelegatedAI.
Proof.
  intros Hin.
  assert (Hev : ev ∈ [EvStructured; EvGenericMarkup; EvEngineA; EvEngineB]).
  { revert Hin. unfold extract_from_pdf. cbv zeta.
    destruct (f_header f) as [header|e]; [|by intros ?%elem_of_nil].
    destruct (negb (starts_with pdf_magic header)).
    - destruct (f_utf8 f) as [content|e]; [|by intros ?%elem_of_nil].
      destruct (looks_like_markup content); [|by intros ?%elem_of_nil].
      intros Hx%extract_from_xml_events.
      apply elem_of_cons in Hx as [->|Hx]; [by left|].
      apply list_elem_of_singleton in Hx as ->. right. by left.
    - destruct PDF_LIB as [[|]|].
      + destruct (f_plumber_plain f); simpl; intros ->%list_elem_of_singleton;
          do 2 right; by left.
      + destruct (f_fitz_plain f); simpl; intros ->%list_elem_of_singleton;
          do 3 right; by left.
      + by intros ?%elem_of_nil. }
  split; [exact Hev|].
  repeat (apply elem_of_cons in Hev as [->|Hev]; [by repeat split|]).
  by apply elem_of_nil in Hev.
Qed.

Lemma extract_from_pdf_events_witness :
  EvEngineA ∈ [EvStructured; EvGenericMarkup; EvEngineA; EvEngineB]
  ∧ EvEngineA ≠ EvDiagnostic ∧ EvEngineA ≠ EvOcr ∧ EvEngineA ≠ EvHeuristic
  ∧ EvEngineA ≠ EvDelegatedAI.
Proof.
  apply (@extract_from_pdf_events sample_runtime (u "report.pdf") scanned_pdf EvEngineA).
  vm_compute. by left.
Defined.
